(** * gunk: ingest authentication, OAuth login flow and liveness directory

    A shallow embedding of the Go sources of the gunk streaming server
    (package [main]: channel registry access, RTMP and FTL ingest
    verification, liveness listing; package [web]: the OAuth login flow)
    together with the properties of the specification that concern them.

    Go strings are byte sequences and are modelled as [string]; byte slices
    are [list byte]; the PostgreSQL tables are lists of rows, in the order
    in which an unordered scan returns them. *)

From Stdlib Require Import ZArith NArith String Ascii List Lia.
From Stdlib.Strings Require Import Byte.
From Stdlib Require OrderedTypeEx.
From stdpp Require Import base option list strings gmap sorting.

Local Open Scope string_scope.
Local Open Scope list_scope.
Local Open Scope Z_scope.

(* ===================================================================== *)
(** ** Library code the sources call *)
(* ===================================================================== *)

(** [[]byte(s)] for a Go string [s]. *)
Definition bytes_of (s : string) : list byte := list_byte_of_string s.

(** crypto/subtle and crypto/hmac.Equal. *)
Module subtle.

(** [for i := 0; i < len(x); i++ { v |= x[i] ^ y[i] }]: the loop on the
    pair of [v] and [i], entered with slices of equal length; it leaves
    only at the end of the slices. *)
Fixpoint loop (v : N) (i : nat) (x y : list byte) : N * nat :=
  match x, y with
  | a :: x', b :: y' =>
      loop (N.lor v (N.lxor (Byte.to_N a) (Byte.to_N b))) (S i) x' y'
  | _, _ => (v, i)
  end.

Definition accumulate (x y : list byte) : N := fst (loop 0%N 0%nat x y).

(** The number of byte pairs the comparison reads. *)
Definition iterations (x y : list byte) : nat :=
  if negb (Nat.eqb (length x) (length y)) then 0%nat
  else snd (loop 0%N 0%nat x y).

(** [int((uint32(x^y) - 1) >> 31)] *)
Definition ConstantTimeByteEq (x y : N) : Z :=
  Z.shiftr ((Z.of_N (N.lxor x y) - 1) mod 2 ^ 32) 31.

Definition ConstantTimeCompare (x y : list byte) : Z :=
  if negb (Nat.eqb (length x) (length y)) then 0
  else ConstantTimeByteEq (accumulate x y) 0%N.

End subtle.

(** crypto/sha512: SHA-512 (FIPS 180-4) on 64-bit words, a word being a [Z]
    in the range of [uint64]. *)
Module sha512.

Definition Size : nat := 64.
Definition BlockSize : nat := 128.

Definition Z_of_byte (b : byte) : Z := Z.of_N (Byte.to_N b).

Definition byte_of_Z (z : Z) : byte :=
  match Byte.of_N (Z.to_N (z mod 256)) with
  | Some b => b
  | None => x00
  end.

Definition add (a b : Z) : Z := (a + b) mod 2 ^ 64.

Definition rotr (n x : Z) : Z :=
  Z.lor (Z.shiftr x n) (Z.shiftl x (64 - n) mod 2 ^ 64).

Definition not64 (x : Z) : Z := Z.lxor x (2 ^ 64 - 1).

Definition Ch (x y z : Z) : Z := Z.lxor (Z.land x y) (Z.land (not64 x) z).

Definition Maj (x y z : Z) : Z :=
  Z.lxor (Z.lxor (Z.land x y) (Z.land x z)) (Z.land y z).

Definition Sigma0 (x : Z) : Z :=
  Z.lxor (Z.lxor (rotr 28 x) (rotr 34 x)) (rotr 39 x).

Definition Sigma1 (x : Z) : Z :=
  Z.lxor (Z.lxor (rotr 14 x) (rotr 18 x)) (rotr 41 x).

Definition sigma0 (x : Z) : Z :=
  Z.lxor (Z.lxor (rotr 1 x) (rotr 8 x)) (Z.shiftr x 7).

Definition sigma1 (x : Z) : Z :=
  Z.lxor (Z.lxor (rotr 19 x) (rotr 61 x)) (Z.shiftr x 6).

Definition K : list Z :=
  [
    0x428a2f98d728ae22; 0x7137449123ef65cd; 0xb5c0fbcfec4d3b2f; 0xe9b5dba58189dbbc;
    0x3956c25bf348b538; 0x59f111f1b605d019; 0x923f82a4af194f9b; 0xab1c5ed5da6d8118;
    0xd807aa98a3030242; 0x12835b0145706fbe; 0x243185be4ee4b28c; 0x550c7dc3d5ffb4e2;
    0x72be5d74f27b896f; 0x80deb1fe3b1696b1; 0x9bdc06a725c71235; 0xc19bf174cf692694;
    0xe49b69c19ef14ad2; 0xefbe4786384f25e3; 0x0fc19dc68b8cd5b5; 0x240ca1cc77ac9c65;
    0x2de92c6f592b0275; 0x4a7484aa6ea6e483; 0x5cb0a9dcbd41fbd4; 0x76f988da831153b5;
    0x983e5152ee66dfab; 0xa831c66d2db43210; 0xb00327c898fb213f; 0xbf597fc7beef0ee4;
    0xc6e00bf33da88fc2; 0xd5a79147930aa725; 0x06ca6351e003826f; 0x142929670a0e6e70;
    0x27b70a8546d22ffc; 0x2e1b21385c26c926; 0x4d2c6dfc5ac42aed; 0x53380d139d95b3df;
    0x650a73548baf63de; 0x766a0abb3c77b2a8; 0x81c2c92e47edaee6; 0x92722c851482353b;
    0xa2bfe8a14cf10364; 0xa81a664bbc423001; 0xc24b8b70d0f89791; 0xc76c51a30654be30;
    0xd192e819d6ef5218; 0xd69906245565a910; 0xf40e35855771202a; 0x106aa07032bbd1b8;
    0x19a4c116b8d2d0c8; 0x1e376c085141ab53; 0x2748774cdf8eeb99; 0x34b0bcb5e19b48a8;
    0x391c0cb3c5c95a63; 0x4ed8aa4ae3418acb; 0x5b9cca4f7763e373; 0x682e6ff3d6b2b8a3;
    0x748f82ee5defb2fc; 0x78a5636f43172f60; 0x84c87814a1f0ab72; 0x8cc702081a6439ec;
    0x90befffa23631e28; 0xa4506cebde82bde9; 0xbef9a3f7b2c67915; 0xc67178f2e372532b;
    0xca273eceea26619c; 0xd186b8c721c0c207; 0xeada7dd6cde0eb1e; 0xf57d4f7fee6ed178;
    0x06f067aa72176fba; 0x0a637dc5a2c898a6; 0x113f9804bef90dae; 0x1b710b35131c471b;
    0x28db77f523047d84; 0x32caab7b40c72493; 0x3c9ebe0a15c9bebc; 0x431d67c49c100d4c;
    0x4cc5d4becb3e42b6; 0x597f299cfc657e2a; 0x5fcb6fab3ad6faec; 0x6c44198c4a475817
  ].

Definition init : list Z :=
  [
    0x6a09e667f3bcc908; 0xbb67ae8584caa73b; 0x3c6ef372fe94f82b; 0xa54ff53a5f1d36f1;
    0x510e527fade682d1; 0x9b05688c2b3e6c1f; 0x1f83d9abfb41bd6b; 0x5be0cd19137e2179
  ].

(** Big-endian words. *)
Definition be_word (bs : list byte) : Z :=
  fold_left (fun acc b => acc * 256 + Z_of_byte b) bs 0.

Fixpoint be_bytes (n : nat) (z : Z) : list byte :=
  match n with
  | O => []
  | S n' => be_bytes n' (z / 256) ++ [byte_of_Z z]
  end.

(** The message followed by the bit 1, zeros up to 112 modulo 128 bytes
    and the length in bits as a 128-bit number. *)
Definition pad (msg : list byte) : list byte :=
  let len := Z.of_nat (length msg) in
  msg ++ [x80] ++ repeat x00 (Z.to_nat ((111 - len) mod 128))
      ++ be_bytes 16 (8 * len).

Fixpoint chunks {A} (n fuel : nat) (l : list A) : list (list A) :=
  match fuel, l with
  | S fuel', _ :: _ => firstn n l :: chunks n fuel' (skipn n l)
  | _, _ => []
  end.

(** The message schedule; [recent] lists the words computed so far, the
    latest first. *)
Definition next_w (recent : list Z) : Z :=
  add (add (add (sigma1 (nth 1 recent 0)) (nth 6 recent 0))
           (sigma0 (nth 14 recent 0)))
      (nth 15 recent 0).

Fixpoint extend (n : nat) (recent : list Z) : list Z :=
  match n with
  | O => recent
  | S n' => extend n' (next_w recent :: recent)
  end.

Definition schedule (block : list Z) : list Z :=
  rev (extend 64 (rev block)).

Record vars := { va : Z; vb : Z; vc : Z; vd : Z; ve : Z; vf : Z; vg : Z; vh : Z }.

Definition round (s : vars) (kw : Z * Z) : vars :=
  let t1 := add (add (add (add (vh s) (Sigma1 (ve s)))
                           (Ch (ve s) (vf s) (vg s)))
                      (fst kw))
                (snd kw) in
  let t2 := add (Sigma0 (va s)) (Maj (va s) (vb s) (vc s)) in
  {| va := add t1 t2; vb := va s; vc := vb s; vd := vc s;
     ve := add (vd s) t1; vf := ve s; vg := vf s; vh := vg s |}.

Definition vars_of (h : list Z) : vars :=
  {| va := nth 0 h 0; vb := nth 1 h 0; vc := nth 2 h 0; vd := nth 3 h 0;
     ve := nth 4 h 0; vf := nth 5 h 0; vg := nth 6 h 0; vh := nth 7 h 0 |}.

Definition list_of (s : vars) : list Z :=
  [va s; vb s; vc s; vd s; ve s; vf s; vg s; vh s].

Definition compress (h : list Z) (block : list byte) : list Z :=
  let w := schedule (List.map be_word (chunks 8 16 block)) in
  let s := fold_left round (combine K w) (vars_of h) in
  List.map (fun p => add (fst p) (snd p)) (combine h (list_of s)).

Definition Sum512 (msg : list byte) : list byte :=
  let padded := pad msg in
  flat_map (be_bytes 8)
    (fold_left compress (chunks 128 (length padded) padded) init).

End sha512.

(** crypto/hmac over SHA-512. *)
Module hmac.

Definition xor_pad (c : Z) (block : list byte) : list byte :=
  List.map (fun b => sha512.byte_of_Z (Z.lxor (sha512.Z_of_byte b) c)) block.

(** [hm := hmac.New(sha512.New, key); hm.Write(msg); hm.Sum(nil)] *)
Definition Sum (key msg : list byte) : list byte :=
  let key := if Nat.ltb sha512.BlockSize (length key)
             then sha512.Sum512 key else key in
  let block := key ++ repeat x00 (sha512.BlockSize - length key) in
  let ipad := xor_pad 0x36 block in
  let opad := xor_pad 0x5c block in
  sha512.Sum512 (opad ++ sha512.Sum512 (ipad ++ msg)).

Definition Equal (mac1 mac2 : list byte) : bool :=
  subtle.ConstantTimeCompare mac1 mac2 =? 1.

End hmac.

(** path.Base: the last element of a slash-separated path. *)
Module path.

Definition is_slash (c : ascii) : bool := Ascii.eqb c "/"%char.

Fixpoint dropSlashes (l : list ascii) : list ascii :=
  match l with
  | c :: l' => if is_slash c then dropSlashes l' else l
  | [] => []
  end.

Fixpoint untilSlash (l : list ascii) : list ascii :=
  match l with
  | c :: l' => if is_slash c then [] else c :: untilSlash l'
  | [] => []
  end.

Definition Base (p : string) : string :=
  if decide (p = "") then "."
  else
    (* strip trailing slashes, then keep what follows the last slash;
       both are read off the reversed path *)
    let stripped := dropSlashes (rev (list_ascii_of_string p)) in
    let last := string_of_list_ascii (rev (untilSlash stripped)) in
    if decide (last = "") then "/" else last.

End path.

(** net/url: the part of [url.URL] the ingest handler reads.  [Query] is the
    parsed form of the raw query, a [url.Values] map. *)
Module url.

Record URL := { Path : string; Query : gmap string (list string) }.

(** [Values.Get]: the first value of the key, or the empty string. *)
Definition Get (v : gmap string (list string)) (k : string) : string :=
  match v !! k with
  | Some (x :: _) => x
  | _ => ""
  end.

End url.

(* ===================================================================== *)
(** ** Package main: channel registry and ingest verification *)
(* ===================================================================== *)

Module gunk.

(** *** The store *)

Record channel_defs_row := {
  user_id : string;
  name : string;
  key : string;
  announce : bool;
  ftl_id : option string        (* nullable *)
}.

Record users_row := {
  users_user_id : string;
  users_announce : bool
}.

(** [updated] is a timestamp in microseconds since the Unix epoch. *)
Record thumbs_row := {
  thumbs_name : string;
  thumb : list byte;
  updated : Z
}.

(** The database behind the connection pool [db].  [now] is the value of
    [now()] for the next statement; [outage], when set, is the failure
    with which the store answers every statement. *)
Record store := {
  channel_defs : list channel_defs_row;
  users : list users_row;
  thumbs : list thumbs_row;
  now : Z;
  outage : option string
}.

Inductive error :=
| ErrNoRows                    (* pgx.ErrNoRows *)
| ErrUserNotFound              (* "user not found or wrong key" *)
| PgError (msg : string).      (* any other failure of the store *)

#[global] Instance error_eq_dec : EqDecision error.
Proof. solve_decision. Defined.

(** *** Observable steps

    Statements sent to the store, secret comparisons and log lines are
    recorded in the order in which they happen.  A comparison is followed
    by the number of byte pairs that its loop read. *)

Inductive statement :=
| SelectChannel (column value : string)
| UpdateAnnounce (userID name : string) (announce : bool)
| DeleteChannel (userID name : string)
| SelectThumbs.

Inductive event :=
| DB (s : statement)
| HmacEqual (mac1 mac2 : list byte)
| Compared (pairs : nat)
| LogPrintf (format : string) (args : list string).

Record world := { db : store; trace : list event }.

Definition M (A : Type) : Type := world -> A * world.

Definition ret {A} (a : A) : M A := fun w => (a, w).

Definition bind {A B} (m : M A) (k : A -> M B) : M B :=
  fun w => let (a, w') := m w in k a w'.

Definition emit (e : event) : M unit :=
  fun w => (tt, {| db := db w; trace := trace w ++ [e] |}).

Definition get_db : M store := fun w => (db w, w).

Definition put_db (s : store) : M unit :=
  fun w => (tt, {| db := s; trace := trace w |}).

Declare Scope go_scope.
Delimit Scope go_scope with go.
Notation "x <- m ;; k" := (bind m (fun x => k))
  (at level 100, m at next level, right associativity) : go_scope.
Notation "m ;;; k" := (bind m (fun _ => k))
  (at level 100, right associativity) : go_scope.
Local Open Scope go_scope.

(** [hmac.Equal] as a step of the program: the call, the byte pairs that
    the loop of [subtle.ConstantTimeCompare] goes through for the two
    slices, and the answer. *)
Definition hmacEqual (mac1 mac2 : list byte) : M bool :=
  emit (HmacEqual mac1 mac2) ;;;
  emit (Compared (subtle.iterations mac1 mac2)) ;;;
  ret (hmac.Equal mac1 mac2).

(** *** findChannel *)

Record channelAuth := { UserID : string; Name : string; Announce : bool }.

Definition channelAuth_zero : channelAuth :=
  {| UserID := ""; Name := ""; Announce := false |}.

(** SQL's three-valued conjunction and [COALESCE]. *)
Definition sql_and (a b : option bool) : option bool :=
  match a, b with
  | Some false, _ | _, Some false => Some false
  | Some true, Some true => Some true
  | _, _ => None
  end.

Definition COALESCE (a : option bool) (d : bool) : bool :=
  match a with Some b => b | None => d end.

(** [channel_defs LEFT JOIN users USING (user_id)]: every channel row
    paired with each users row of the same [user_id], or with no users
    row when there is none. *)
Definition join_rows (c : channel_defs_row) (us : list users_row)
  : list (channel_defs_row * option users_row) :=
  match List.filter (fun u => bool_decide (users_user_id u = user_id c)) us with
  | [] => [(c, None)]
  | matches => List.map (fun u => (c, Some u)) matches
  end.

Definition left_join (cs : list channel_defs_row) (us : list users_row)
  : list (channel_defs_row * option users_row) :=
  flat_map (fun c => join_rows c us) cs.

(** The column of the join that the text spliced into the WHERE clause
    names.  [announce] is ambiguous in the join and any other text names
    no column: the store rejects both. *)
Definition column_of (column : string)
  : option (channel_defs_row -> option string) :=
  if decide (column = "name") then Some (fun c => Some (name c))
  else if decide (column = "ftl_id") then Some ftl_id
  else if decide (column = "user_id") then Some (fun c => Some (user_id c))
  else if decide (column = "key") then Some (fun c => Some (key c))
  else None.

(** The rows selected by [WHERE column = $1]; a NULL never compares
    equal. *)
Definition where_eq (col : channel_defs_row -> option string) (value : string)
    (rows : list (channel_defs_row * option users_row)) :=
  List.filter (fun r => bool_decide (col (fst r) = Some value)) rows.

(** [db.QueryRow("SELECT user_id, channel_defs.name, channel_defs.key,
    COALESCE(channel_defs.announce AND users.announce, false) FROM
    channel_defs LEFT JOIN users USING (user_id) WHERE " + column + " = $1",
    value)] followed by [row.Scan]: the first row selected, or
    [ErrNoRows] with the destinations untouched. *)
Definition scanChannel (s : store) (column value : string)
  : channelAuth * string * option error :=
  match outage s with
  | Some msg => (channelAuth_zero, "", Some (PgError msg))
  | None =>
      match column_of column with
      | None => (channelAuth_zero, "", Some (PgError "undefined column"))
      | Some col =>
          match where_eq col value (left_join (channel_defs s) (users s)) with
          | [] => (channelAuth_zero, "", Some ErrNoRows)
          | (c, u) :: _ =>
              ({| UserID := user_id c;
                  Name := name c;
                  Announce :=
                    COALESCE (sql_and (Some (announce c))
                                      (option_map users_announce u))
                             false |},
               key c, None)
          end
      end
  end.

Definition findChannel (column value : string)
  : M (channelAuth * string * option error) :=
  emit (DB (SelectChannel column value)) ;;;
  s <- get_db ;;
  ret (scanChannel s column value).

(** *** verifyRTMP and verifyFTL *)

Definition verifyRTMP (u : url.URL) : M (channelAuth * option error) :=
  r <- findChannel "name" (path.Base (url.Path u)) ;;
  let '(auth, expectKey, err) := r in
  match err with
  | Some e =>
      ret (auth, Some (if decide (e = ErrNoRows) then ErrUserNotFound else e))
  | None =>
      let key := url.Get (url.Query u) "key" in
      same <- hmacEqual (bytes_of key) (bytes_of expectKey) ;;
      if negb same then ret (auth, Some ErrUserNotFound)
      else ret (auth, None)
  end.

Definition verifyFTL (channelID : string) (nonce hmacProvided : list byte)
  : M (option channelAuth * option error) :=
  r <- findChannel "ftl_id" channelID ;;
  let '(auth, key, err) := r in
  match err with
  | Some e =>
      ret (None, Some (if decide (e = ErrNoRows) then ErrUserNotFound else e))
  | None =>
      let expected := hmac.Sum (bytes_of key) nonce in
      same <- hmacEqual expected hmacProvided ;;
      if negb same then
        emit (LogPrintf "error: hmac digest mismatch for FTL channel %s"
                        [Name auth]) ;;;
        ret (None, Some ErrUserNotFound)
      else ret (Some auth, None)
  end.

(** *** updateChannel and deleteChannel *)

Definition targets (userID chname : string) (c : channel_defs_row) : bool :=
  bool_decide (user_id c = userID) && bool_decide (name c = chname).

Definition set_announce (a : bool) (c : channel_defs_row) : channel_defs_row :=
  {| user_id := user_id c; name := name c; key := key c;
     announce := a; ftl_id := ftl_id c |}.

Definition with_channel_defs (s : store) (cs : list channel_defs_row) : store :=
  {| channel_defs := cs; users := users s; thumbs := thumbs s;
     now := now s; outage := outage s |}.

(** [db.Exec("UPDATE channel_defs SET announce = $1 WHERE user_id = $2 AND
    name = $3")]: the number of rows affected and the error. *)
Definition exec_update (userID chname : string) (a : bool)
  : M (Z * option error) :=
  emit (DB (UpdateAnnounce userID chname a)) ;;;
  s <- get_db ;;
  match outage s with
  | Some msg => ret (0, Some (PgError msg))
  | None =>
      put_db (with_channel_defs s
                (List.map (fun c => if targets userID chname c
                                    then set_announce a c else c)
                          (channel_defs s))) ;;;
      ret (Z.of_nat (length (List.filter (targets userID chname)
                                         (channel_defs s))), None)
  end.

(** [db.Exec("DELETE FROM channel_defs WHERE user_id = $1 AND name = $2")] *)
Definition exec_delete (userID chname : string) : M (Z * option error) :=
  emit (DB (DeleteChannel userID chname)) ;;;
  s <- get_db ;;
  match outage s with
  | Some msg => ret (0, Some (PgError msg))
  | None =>
      put_db (with_channel_defs s
                (List.filter (fun c => negb (targets userID chname c))
                             (channel_defs s))) ;;;
      ret (Z.of_nat (length (List.filter (targets userID chname)
                                         (channel_defs s))), None)
  end.

Definition updateChannel (userID chname : string) (a : bool)
  : M (option error) :=
  r <- exec_update userID chname a ;;
  let '(rowsAffected, err) := r in
  match err with
  | Some e => ret (Some e)
  | None => if rowsAffected =? 0 then ret (Some ErrNoRows) else ret None
  end.

Definition deleteChannel (userID chname : string) : M (option error) :=
  r <- exec_delete userID chname ;;
  ret (snd r).

(** *** listChannels *)

Record channelInfo := {
  info_Name : string;
  Live : bool;
  Last : Z;
  Thumb : string;
  LiveURL : string
}.

Definition minute : Z := 60 * 1000000.

(** [greatest(now() - updated, '1 minute'::interval)], in microseconds. *)
Definition staleness (now : Z) (r : thumbs_row) : Z :=
  Z.max (now - updated r) minute.

(** The order of [ORDER BY greatest(...) ASC, 1 ASC]; the first output
    column is the name, compared byte by byte. *)
Definition order_by (now : Z) (r1 r2 : thumbs_row) : Prop :=
  staleness now r1 < staleness now r2
  \/ (staleness now r1 = staleness now r2
      /\ String.leb (thumbs_name r1) (thumbs_name r2) = true).

#[global] Instance order_by_dec now : RelDecision (order_by now).
Proof. intros r1 r2. unfold order_by. apply _. Defined.

(** [time.Time.UnixNano() / 1000000] with [int64] arithmetic. *)
Definition int64 (z : Z) : Z := (z + 2 ^ 63) mod 2 ^ 64 - 2 ^ 63.

Definition UnixNano (t : Z) : Z := int64 (t * 1000).

Definition scan_info (r : thumbs_row) : channelInfo :=
  {| info_Name := thumbs_name r; Live := false;
     Last := Z.quot (UnixNano (updated r)) 1000000;
     Thumb := ""; LiveURL := "" |}.

Definition listChannels : M (list channelInfo * option error) :=
  emit (DB SelectThumbs) ;;;
  s <- get_db ;;
  match outage s with
  | Some msg => ret ([], Some (PgError msg))
  | None =>
      ret (List.map scan_info (merge_sort (order_by (now s)) (thumbs s)), None)
  end.

End gunk.

(* ===================================================================== *)
(** ** Package web: the OAuth login flow *)
(* ===================================================================== *)

Module web.

Definition stateCookieExpires : Z := 15 * 60.
Definition loginCookieExpires : Z := 30 * 24 * 60 * 60.

Record discordUser := {
  ID : string;
  Username : string;
  Discriminator : string;
  Avatar : string
}.

Definition discordUser_zero : discordUser :=
  {| ID := ""; Username := ""; Discriminator := ""; Avatar := "" |}.

Inductive error :=
| errorsNew (msg : string)         (* errors.New(msg) *)
| ErrNoCookie                      (* http.ErrNoCookie *)
| SealError (msg : string)         (* a failure of the sealing primitive *)
| ProviderError (msg : string).    (* a failure reported by the provider *)

Definition Error (e : error) : string :=
  match e with
  | errorsNew msg => msg
  | ErrNoCookie => "http: named cookie not present"
  | SealError msg => msg
  | ProviderError msg => msg
  end.

(** The value handed to [setCookie]: [nil], a state token or a user. *)
Inductive value :=
| Nil
| StateValue (state : string)
| UserValue (user : discordUser).

(** The sealing primitive, an opaque authenticated encoding of a value
    under a cookie name; opening decodes into the type of the
    destination. *)
Record Sealer := {
  seal : string -> value -> string + error;
  open_state : string -> string -> string + error;
  open_user : string -> string -> discordUser + error
}.

(** [oauth2.Config] with the answers of the provider: the token endpoint
    for [Exchange] and the profile endpoint read by [lookupUser]. *)
Record Config := {
  ClientID : string;
  Exchange : string -> string + error;
  profile : string -> discordUser + error
}.

(** [stateCookie] and [loginCookie] are the names of the two cookies,
    constants of the package. *)
Record Server := {
  oauth : Config;
  sealer : Sealer;
  stateCookie : string;
  loginCookie : string
}.

Record Request := {
  Form : gmap string (list string);
  Cookies : gmap string string;
  RemoteAddr : string
}.

(** [Request.FormValue]: the first value of the field, or the empty
    string. *)
Definition FormValue (req : Request) (k : string) : string :=
  match Form req !! k with
  | Some (x :: _) => x
  | _ => ""
  end.

(** What a handler does, in order: the response it writes, the calls it
    makes to the provider, the comparison of the state, its log lines. *)
Inductive event :=
| SetCookie (name value : string) (maxAge : Z)
| SetHeader (name value : string)
| Write (body : string)
| WriteJSON (info : discordUser)
| HttpError (msg : string) (code : Z)
| Redirect (target : string) (code : Z)
| TokenExchange (code : string)
| ProfileFetch (token : string)
| HmacEqual (mac1 mac2 : list byte)
| LogPrintf (format : string) (args : list string).

Definition M (A : Type) : Type := list event -> A * list event.

Definition ret {A} (a : A) : M A := fun t => (a, t).

Definition bind {A B} (m : M A) (k : A -> M B) : M B :=
  fun t => let (a, t') := m t in k a t'.

Definition emit (e : event) : M unit := fun t => (tt, t ++ [e]).

Declare Scope web_scope.
Delimit Scope web_scope with web.
Notation "x <- m ;; k" := (bind m (fun x => k))
  (at level 100, m at next level, right associativity) : web_scope.
Notation "m ;;; k" := (bind m (fun _ => k))
  (at level 100, right associativity) : web_scope.
Local Open Scope web_scope.

(** The events a handler adds to an empty trace. *)
Definition run {A} (m : M A) : A * list event := m [].

(** Modelled from the spec: [unseal], which is not among the sources.  The
    named cookie of the request is opened by the sealing primitive; an
    absent cookie is an error. *)
Definition unseal_state (s : Server) (req : Request) (name : string)
  : string + error :=
  match Cookies req !! name with
  | None => inr ErrNoCookie
  | Some v => open_state (sealer s) name v
  end.

Definition unseal_user (s : Server) (req : Request) (name : string)
  : discordUser + error :=
  match Cookies req !! name with
  | None => inr ErrNoCookie
  | Some v => open_user (sealer s) name v
  end.

(** Modelled from the spec: [setCookie], which is not among the sources.
    A value is sealed into the named cookie with the given lifetime; with
    [nil] and a negative lifetime the cookie is cleared. *)
Definition setCookie (s : Server) (name : string) (v : value) (expires : Z)
  : M (option error) :=
  match v with
  | Nil => emit (SetCookie name "" expires) ;;; ret None
  | _ =>
      match seal (sealer s) name v with
      | inl sealed => emit (SetCookie name sealed expires) ;;; ret None
      | inr err => ret (Some err)
      end
  end.

(** Modelled from the spec: [writeJSON], which is not among the sources;
    the value is written as the JSON body of the response. *)
Definition writeJSON (info : discordUser) : M unit := emit (WriteJSON info).

(** Modelled from the spec: [lookupUser], which is not among the sources;
    the profile of the authenticated user is fetched with the token. *)
Definition lookupUser (s : Server) (token : string)
  : M (discordUser + error) :=
  emit (ProfileFetch token) ;;; ret (profile (oauth s) token).

Definition hmacEqual (mac1 mac2 : list byte) : M bool :=
  emit (HmacEqual mac1 mac2) ;;; ret (hmac.Equal mac1 mac2).

(** [s.oauth.Exchange(ctx, code)] *)
Definition oauthExchange (s : Server) (code : string)
  : M (string + error) :=
  emit (TokenExchange code) ;;; ret (Exchange (oauth s) code).

Definition viewUser (s : Server) (req : Request) : M unit :=
  let info :=
    match unseal_user s req (loginCookie s) with
    | inl info => info
    | inr _ => discordUser_zero
    end in
  let info :=
    if negb (bool_decide (Avatar info = ""))
    then {| ID := ID info; Username := Username info;
            Discriminator := Discriminator info;
            Avatar := ("/avatars/" ++ ID info ++ "/" ++ Avatar info
                       ++ ".png")%string |}
    else info in
  writeJSON info.

(** The result is the token or the error: every return of the function
    gives exactly one of the two. *)
Definition tokenExchange (s : Server) (req : Request)
  : M (string + error) :=
  let code := FormValue req "code" in
  if bool_decide (code = "") then ret (inr (errorsNew "missing code"))
  else
    let state := FormValue req "state" in
    let unsealed := unseal_state s req (stateCookie s) in
    _ <- setCookie s (stateCookie s) Nil (-1) ;;
    match unsealed with
    | inr err => ret (inr err)
    | inl state2 =>
        same <- hmacEqual (bytes_of state2) (bytes_of state) ;;
        if negb same then ret (inr (errorsNew "state mismatch"))
        else oauthExchange s code
    end.

Definition viewOauthCB (s : Server) (req : Request) : M unit :=
  if bool_decide (ClientID (oauth s) = "")
  then emit (HttpError "oauth not configured" 400)
  else
    r <- tokenExchange s req ;;
    match r with
    | inr err =>
        emit (LogPrintf "[oauth] error: %s: %s" [RemoteAddr req; Error err]) ;;;
        emit (HttpError "oauth failure" 400)
    | inl token =>
        u <- lookupUser s token ;;
        match u with
        | inr err =>
            emit (LogPrintf "[oauth] error: %s: %s"
                            [RemoteAddr req; Error err]) ;;;
            emit (HttpError "error getting user info from discord" 400)
        | inl user =>
            e <- setCookie s (loginCookie s) (UserValue user)
                           loginCookieExpires ;;
            match e with
            | Some err =>
                emit (LogPrintf "[oauth] error: persisting login: %s"
                                [Error err]) ;;;
                emit (HttpError "error setting login cookie" 500)
            | None => emit (Redirect "/" 302)
            end
        end
    end.

Definition viewOauthLogout (s : Server) (req : Request) : M unit :=
  _ <- setCookie s (loginCookie s) Nil (-1) ;;
  emit (SetHeader "Content-Type" "application/json") ;;;
  emit (Write "{}").

(** The user agent: a cookie with a negative [MaxAge] is deleted, any
    other is stored; the next request carries the stored cookies. *)
Definition store_cookie (jar : gmap string string) (e : event)
  : gmap string string :=
  match e with
  | SetCookie name v maxAge =>
      if maxAge <? 0 then delete name jar else <[name := v]> jar
  | _ => jar
  end.

Definition user_agent (jar : gmap string string) (response : list event)
  : gmap string string :=
  fold_left store_cookie response jar.

End web.

(* ===================================================================== *)
(** ** Vocabulary of the statements *)
(* ===================================================================== *)

Import gunk.

(** The rows of [channel_defs] whose column [col] holds [value], in table
    order. *)
Definition channels_where (col : channel_defs_row -> option string)
    (value : string) (s : store) : list channel_defs_row :=
  List.filter (fun c => bool_decide (col c = Some value)) (channel_defs s).

Definition channels_named (n : string) (s : store) : list channel_defs_row :=
  channels_where (fun c => Some (name c)) n s.

Definition channels_with_ftl_id (id : string) (s : store)
  : list channel_defs_row :=
  channels_where ftl_id id s.

(** The rows of [users] that belong to an owner. *)
Definition preferences_of (owner : string) (s : store) : list users_row :=
  List.filter (fun o => bool_decide (users_user_id o = owner)) (users s).

(** The authorization of a channel: its owner, its name and the flag of
    the row of the combined lookup, the channel's own flag joined with the
    first preference row of the owner. *)
Definition effective_announce (s : store) (c : channel_defs_row) : bool :=
  COALESCE (sql_and (Some (announce c))
                    (option_map users_announce
                                (head (preferences_of (user_id c) s))))
           false.

Definition authorization (s : store) (c : channel_defs_row) : channelAuth :=
  {| UserID := user_id c; Name := name c;
     Announce := effective_announce s c |}.

(** The rows of [channel_defs] an update or a delete targets. *)
Definition targeted (userID chname : string) (s : store)
  : list channel_defs_row :=
  List.filter (targets userID chname) (channel_defs s).

(** Statements sent to the store, and secret comparisons, in a trace. *)
Definition is_round_trip (e : gunk.event) : bool :=
  match e with DB _ => true | _ => false end.

Definition is_comparison (e : gunk.event) : bool :=
  match e with gunk.HmacEqual _ _ => true | _ => false end.

Definition round_trips (t : list gunk.event) : nat :=
  length (List.filter is_round_trip t).

Definition comparisons (t : list gunk.event) : nat :=
  length (List.filter is_comparison t).

(** The byte pairs read by the comparisons of a trace, one number for each
    comparison, in order. *)
Definition pairs_read (t : list gunk.event) : list nat :=
  flat_map (fun e => match e with gunk.Compared n => [n] | _ => [] end) t.

(** What a call adds to the trace of the world it starts in. *)
Definition added {A} (m : M A) (w : world) : list gunk.event :=
  skipn (length (trace w)) (trace (snd (m w))).

(** A registry with two channels, one of which has an FTL identifier and
    an owner with a preference row, and requests against it. *)
Module sample.

Definition alpha : channel_defs_row :=
  {| user_id := "1001"; name := "alpha"; key := "5ca1ab1e";
     announce := true; ftl_id := Some "77" |}.

Definition beta : channel_defs_row :=
  {| user_id := "1002"; name := "beta"; key := "0ddba11";
     announce := true; ftl_id := None |}.

Definition owner : users_row :=
  {| users_user_id := "1001"; users_announce := true |}.

Definition registry : store :=
  {| channel_defs := [alpha; beta]; users := [owner]; thumbs := [];
     now := 0; outage := None |}.

Definition empty : store :=
  {| channel_defs := []; users := []; thumbs := []; now := 0;
     outage := None |}.

Definition start (s : store) : world := {| db := s; trace := [] |}.

Definition publish (chname k : string) : url.URL :=
  {| url.Path := ("/live/" ++ chname)%string;
     url.Query := {[ "key" := [k] ]} |}.

Definition nonce : list byte := bytes_of "0123456789abcdef".

(** Liveness records, [ago] microseconds old at time [noon]. *)
Definition noon : Z := 1700000000 * 1000000.

Definition live (chname : string) (ago : Z) : thumbs_row :=
  {| thumbs_name := chname; thumb := []; updated := noon - ago |}.

Definition directory (rows : list thumbs_row) : store :=
  {| channel_defs := []; users := []; thumbs := rows; now := noon;
     outage := None |}.

(** A sealing primitive that only marks the value, a provider that knows
    one code and one token, and a server that uses them. *)
Definition toy_seal (cookie : string) (v : web.value) : string + web.error :=
  match v with
  | web.Nil => inl ""
  | web.StateValue state => inl ("sealed:" ++ state)%string
  | web.UserValue user => inl ("sealed:" ++ web.ID user)%string
  end.

Definition toy_open (sealed : string) : option string :=
  if String.prefix "sealed:" sealed
  then Some (String.substring 7 (String.length sealed - 7) sealed)
  else None.

Definition toy_sealer : web.Sealer :=
  {| web.seal := toy_seal;
     web.open_state := fun _ sealed =>
       match toy_open sealed with
       | Some state => inl state
       | None => inr (web.SealError "invalid seal")
       end;
     web.open_user := fun _ sealed =>
       match toy_open sealed with
       | Some id => inl {| web.ID := id; web.Username := "";
                           web.Discriminator := ""; web.Avatar := "" |}
       | None => inr (web.SealError "invalid seal")
       end |}.

Definition provider : web.Config :=
  {| web.ClientID := "client";
     web.Exchange := fun code =>
       if bool_decide (code = "c0de") then inl "t0ken"
       else inr (web.ProviderError "invalid_grant");
     web.profile := fun token =>
       if bool_decide (token = "t0ken")
       then inl {| web.ID := "1001"; web.Username := "streamer";
                   web.Discriminator := "0001"; web.Avatar := "a1" |}
       else inr (web.ProviderError "401 Unauthorized") |}.

Definition server : web.Server :=
  {| web.oauth := provider; web.sealer := toy_sealer;
     web.stateCookie := "ostate"; web.loginCookie := "login" |}.

Definition callback (code state : string) (jar : gmap string string)
  : web.Request :=
  {| web.Form := {[ "code" := [code]; "state" := [state] ]};
     web.Cookies := jar; web.RemoteAddr := "192.0.2.1:40000" |}.

Definition get (jar : gmap string string) : web.Request :=
  {| web.Form := ∅; web.Cookies := jar;
     web.RemoteAddr := "192.0.2.1:40000" |}.

End sample.

(** Microseconds. *)
Definition seconds (n : Z) : Z := n * 1000000.

(** Calls to the token endpoint of the provider in a trace. *)
Definition is_exchange (e : web.event) : bool :=
  match e with web.TokenExchange _ => true | _ => false end.

(** The digest with bit [i] flipped, bits counted from the first byte and,
    within a byte, from the least significant bit. *)
Fixpoint flip_bit (i : nat) (d : list byte) : list byte :=
  match d with
  | [] => []
  | b :: d' =>
      if Nat.ltb i 8
      then sha512.byte_of_Z (Z.lxor (sha512.Z_of_byte b) (2 ^ Z.of_nat i)) :: d'
      else b :: flip_bit (i - 8) d'
  end.

(* ===================================================================== *)
(** ** Package main: the rest of the registry access *)
(* ===================================================================== *)

(** encoding/hex *)
Module hex.

Definition hextable : list ascii := list_ascii_of_string "0123456789abcdef".

Definition digit (n : N) : ascii := nth (N.to_nat n) hextable "0"%char.

(** [dst[j] = hextable[v>>4]; dst[j+1] = hextable[v&0x0f]] for every byte. *)
Fixpoint Encode (src : list byte) : list ascii :=
  match src with
  | [] => []
  | v :: src' =>
      digit (N.shiftr (Byte.to_N v) 4) :: digit (N.land (Byte.to_N v) 15)
        :: Encode src'
  end.

Definition EncodeToString (src : list byte) : string :=
  string_of_list_ascii (Encode src).

End hex.

(** The functions of the registry that the handlers of the owner and the
    media engine call.  They are followed on the store alone: each takes the
    store it finds and gives its results with the store it leaves. *)
Module registry.

Record channelDef := {
  Name : string;
  Key : string;
  Announce : bool;
  RTMPDir : string;
  RTMPBase : string
}.

Definition scan_def (c : channel_defs_row) : channelDef :=
  {| Name := name c; Key := key c; Announce := announce c;
     RTMPDir := ""; RTMPBase := "" |}.

(** What can go wrong once the query has started, rows being counted from
    0: [rows.Scan] fails on the row [index], or the connection breaks when
    [index] rows have been read, so that [rows.Next()] is false and
    [rows.Err()] holds the failure. *)
Inductive fault :=
| ScanFails (index : nat) (msg : string)
| RowsErr (index : nat) (msg : string).

Definition breaks_at (f : option fault) (i : nat) : option string :=
  match f with
  | Some (RowsErr index msg) => if Nat.eqb i index then Some msg else None
  | _ => None
  end.

Definition scan_fails_at (f : option fault) (i : nat) : option string :=
  match f with
  | Some (ScanFails index msg) => if Nat.eqb i index then Some msg else None
  | _ => None
  end.

(** [for rows.Next() { def := new(channelDef); if err = rows.Scan(...);
    err != nil { return }; defs = append(defs, def) }; err = rows.Err()]
    from the row [i] on, [defs] being the slice built so far: the results
    [defs] and [err] at the return. *)
Fixpoint scan_rows (f : option fault) (i : nat) (rows : list channel_defs_row)
    (defs : list channelDef) : list channelDef * option gunk.error :=
  match breaks_at f i with
  | Some msg => (defs, Some (PgError msg))
  | None =>
      match rows with
      | [] => (defs, None)
      | c :: rows' =>
          match scan_fails_at f i with
          | Some msg => (defs, Some (PgError msg))
          | None => scan_rows f (S i) rows' (defs ++ [scan_def c])
          end
      end
  end.

(** [getChannelDefs]: the slice is [nil] ([None]) when the query fails;
    once the query has started it is a slice, possibly empty, and after a
    failure of [fault] it holds the definitions read until then. *)
Definition getChannelDefs (f : option fault) (userID : string) (s : store)
  : option (list channelDef) * option gunk.error :=
  match outage s with
  | Some msg => (None, Some (PgError msg))
  | None =>
      let '(defs, err) :=
        scan_rows f 0
          (List.filter (fun c => bool_decide (user_id c = userID))
                       (channel_defs s))
          [] in
      (Some defs, err)
  end.

Inductive create_error :=
| ReadFull (msg : string)          (* the random source failed *)
| UniqueViolation                  (* pgx.PgError with Code "23505" *)
| Exec (e : gunk.error).           (* any other failure of the store *)

(** Modelled from the spec: the uniqueness of [channel_defs.name], which the
    schema declares and the sources only rely on (the handler answers code
    23505 with "channel name already in use"); a name is taken when a row
    has it. *)
Definition name_taken (chname : string) (s : store) : bool :=
  List.existsb (fun c => bool_decide (name c = chname)) (channel_defs s).

(** [createChannel].  [random] is what [io.ReadFull(rand.Reader, b)] gives
    for the 24 bytes of [b]; [ftl] is the value that the schema gives to the
    column [ftl_id], which the INSERT does not mention.  The result is the
    definition or the error: every return gives exactly one of the two. *)
Definition createChannel (random : list byte + string) (ftl : option string)
    (userID chname : string) (s : store)
  : (channelDef + create_error) * store :=
  match random with
  | inr msg => (inr (ReadFull msg), s)
  | inl b =>
      let k := hex.EncodeToString b in
      match outage s with
      | Some msg => (inr (Exec (PgError msg)), s)
      | None =>
          if name_taken chname s then (inr UniqueViolation, s)
          else
            (inl {| Name := chname; Key := k; Announce := true;
                    RTMPDir := ""; RTMPBase := "" |},
             with_channel_defs s
               (channel_defs s ++
                  [{| user_id := userID; name := chname; key := k;
                      announce := true; ftl_id := ftl |}]))
      end
  end.

(** [getThumb]: the thumbnail of the first row with the name, or
    [ErrNoRows]. *)
Definition getThumb (channelName : string) (s : store)
  : list byte * option gunk.error :=
  match outage s with
  | Some msg => ([], Some (PgError msg))
  | None =>
      match List.filter (fun r => bool_decide (thumbs_name r = channelName))
                        (thumbs s) with
      | [] => ([], Some ErrNoRows)
      | r :: _ => (thumb r, None)
      end
  end.

Definition with_thumbs (s : store) (rows : list thumbs_row) : store :=
  {| channel_defs := channel_defs s; users := users s; thumbs := rows;
     now := now s; outage := outage s |}.

(** Modelled from the spec: the default of the column [thumbs.updated],
    which the schema declares; an inserted thumbnail is stamped with the
    current time ("always refreshing [updated_at]"). *)
Definition updated_default (s : store) : Z := now s.

(** [putThumb]: [INSERT ... ON CONFLICT (name) DO UPDATE SET thumb =
    EXCLUDED.thumb, updated = now()]. *)
Definition putThumb (channelName : string) (d : list byte) (s : store)
  : option gunk.error * store :=
  match outage s with
  | Some msg => (Some (PgError msg), s)
  | None =>
      if List.existsb (fun r => bool_decide (thumbs_name r = channelName))
                      (thumbs s)
      then
        (None,
         with_thumbs s
           (List.map (fun r =>
                        if bool_decide (thumbs_name r = channelName)
                        then {| thumbs_name := thumbs_name r; thumb := d;
                                updated := now s |}
                        else r)
                     (thumbs s)))
      else
        (None,
         with_thumbs s
           (thumbs s ++ [{| thumbs_name := channelName; thumb := d;
                            updated := updated_default s |}]))
  end.

End registry.

(* ===================================================================== *)
(** ** Package main: the handlers of the owner's channels *)
(* ===================================================================== *)

Module handlers.

Local Open Scope go_scope.

(** The field of the session that the handlers read. *)
Record loginInfo := { ID : string }.

(** [open_login] is the sealing primitive on the session cookie. *)
Record gunkServer := {
  loginCookie : string;
  rtmpBase : string;
  open_login : string -> string -> loginInfo + string
}.

(** The functions of net/url and encoding/json that the handlers call:
    the two escapes, the encoding of a slice of definitions ([nil] being
    [None]) and of one definition, and the decoding of the request of a
    creation. *)
Record library := {
  PathEscape : string -> string;
  QueryEscape : string -> string;
  Marshal_defs : option (list registry.channelDef) -> string;
  Marshal_def : registry.channelDef -> string;
  Unmarshal_create : list byte -> string + string
}.

(** [Vars] are the variables of the route ([mux.Vars]); [Body] is what
    [ioutil.ReadAll(req.Body)] gives. *)
Record Request := {
  Cookies : gmap string string;
  Vars : gmap string string;
  Body : list byte + string;
  RemoteAddr : string;
  URL : string
}.

(** What a handler writes to the response, in order. *)
Inductive reply :=
| HttpError (msg : string) (code : Z)
| SetHeader (name value : string)
| Write (body : string).

(** [err.Error()] *)
Definition Error (e : gunk.error) : string :=
  match e with
  | ErrNoRows => "no rows in result set"
  | ErrUserNotFound => "user not found or wrong key"
  | PgError msg => msg
  end.

(** Modelled from the spec: [unseal], which is not among the sources.  The
    named cookie of the request is opened by the sealing primitive; an
    absent cookie is an error. *)
Definition unseal (s : gunkServer) (req : Request) (cookie : string)
  : loginInfo + string :=
  match Cookies req !! cookie with
  | None => inr "http: named cookie not present"
  | Some v => open_login s cookie v
  end.

(** [checkAuth]: the user of the session, or the empty string after a 401. *)
Definition checkAuth (s : gunkServer) (req : Request)
  : M (string * list reply) :=
  match unseal s req (loginCookie s) with
  | inl info => gunk.ret (ID info, [])
  | inr _ =>
      gunk.emit (gunk.LogPrintf "error: authentication failed for %s to %s"
                                [RemoteAddr req; URL req]) ;;;
      gunk.ret ("", [HttpError "not authorized" 401])
  end.

Section Decoding.

(** [json.Unmarshal] into the destination: the decoded request, or the
    error of the decoder. *)
Context {A : Type}.
Variable Unmarshal : list byte -> A + string.

Definition parseRequest (req : Request) : M (option A * list reply) :=
  match Body req with
  | inr err =>
      gunk.emit (gunk.LogPrintf "error: reading %s request: %s"
                                [RemoteAddr req; err]) ;;;
      gunk.ret (None, [HttpError "" 500])
  | inl blob =>
      match Unmarshal blob with
      | inr err =>
          gunk.emit (gunk.LogPrintf "error: reading %s request: %s"
                                    [RemoteAddr req; err]) ;;;
          gunk.ret (None, [HttpError "invalid JSON in request" 400])
      | inl du => gunk.ret (Some du, [])
      end
  end.

End Decoding.

Definition route_var (req : Request) (k : string) : string :=
  match Vars req !! k with Some v => v | None => "" end.

Definition viewDefsUpdate (Unmarshal : list byte -> bool + string)
    (s : gunkServer) (req : Request) : M (list reply) :=
  a <- checkAuth s req ;;
  let '(userID, out) := a in
  if bool_decide (userID = "") then gunk.ret out
  else
    p <- parseRequest Unmarshal req ;;
    match p with
    | (None, out') => gunk.ret (out ++ out')
    | (Some du, out') =>
        let chname := route_var req "name" in
        err <- updateChannel userID chname du ;;
        match err with
        | Some e =>
            gunk.emit (gunk.LogPrintf "error: updating channel %q for %s: %s"
                                      [chname; RemoteAddr req; Error e]) ;;;
            gunk.ret (out ++ out' ++ [HttpError "" 500])
        | None =>
            gunk.ret (out ++ out' ++
                      [SetHeader "Content-Type" "application/json";
                       Write "{}"])
        end
    end.

Definition viewDefsDelete (s : gunkServer) (req : Request) : M (list reply) :=
  a <- checkAuth s req ;;
  let '(userID, out) := a in
  if bool_decide (userID = "") then gunk.ret out
  else
    let chname := route_var req "name" in
    err <- deleteChannel userID chname ;;
    match err with
    | Some e =>
        gunk.emit (gunk.LogPrintf "error: deleting channel %q for %s: %s"
                                  [chname; RemoteAddr req; Error e]) ;;;
        gunk.ret out
    | None =>
        gunk.ret (out ++ [SetHeader "Content-Type" "application/json";
                          Write "{}"])
    end.

(** [setURL]: the query is the encoding of the one value of [key]. *)
Definition setURL (lib : library) (base : string) (d : registry.channelDef)
  : registry.channelDef :=
  {| registry.Name := registry.Name d; registry.Key := registry.Key d;
     registry.Announce := registry.Announce d;
     registry.RTMPDir := base;
     registry.RTMPBase :=
       (PathEscape lib (registry.Name d) ++ "?" ++ QueryEscape lib "key"
        ++ "=" ++ QueryEscape lib (registry.Key d))%string |}.

(** [viewDefs], with the fault that [getChannelDefs] takes: after a
    failure the handler goes on and writes the encoding of the slice that
    it was given, the [nil] slice or the definitions read until then. *)
Definition viewDefs (lib : library) (f : option registry.fault)
    (s : gunkServer) (req : Request) : M (list reply) :=
  a <- checkAuth s req ;;
  let '(userID, out) := a in
  if bool_decide (userID = "") then gunk.ret out
  else
    st <- get_db ;;
    let '(defs, err) := registry.getChannelDefs f userID st in
    failed <- match err with
              | Some e =>
                  gunk.emit (gunk.LogPrintf "%s %s" ["error:"; Error e]) ;;;
                  gunk.ret [HttpError "" 500]
              | None => gunk.ret []
              end ;;
    let blob := Marshal_defs lib
                  (option_map (List.map (setURL lib (rtmpBase s))) defs) in
    gunk.ret (out ++ failed ++
              [SetHeader "Content-Type" "application/json"; Write blob]).

(** [viewDefsCreate], with the random bytes and the default of [ftl_id]
    that [createChannel] takes. *)
Definition viewDefsCreate (lib : library) (random : list byte + string)
    (ftl : option string) (s : gunkServer) (req : Request) : M (list reply) :=
  a <- checkAuth s req ;;
  let '(userID, out) := a in
  if bool_decide (userID = "") then gunk.ret out
  else
    p <- parseRequest (Unmarshal_create lib) req ;;
    match p with
    | (None, out') => gunk.ret (out ++ out')
    | (Some chname, out') =>
        st <- get_db ;;
        let '(created, st') :=
          registry.createChannel random ftl userID chname st in
        put_db st' ;;;
        match created with
        | inr registry.UniqueViolation =>
            gunk.ret (out ++ out' ++
                      [HttpError "channel name already in use" 409])
        | inr (registry.ReadFull msg) =>
            gunk.emit (gunk.LogPrintf "error: creating channel %q for %s: %s"
                         [chname; RemoteAddr req; msg]) ;;;
            gunk.ret (out ++ out' ++ [HttpError "" 500])
        | inr (registry.Exec e) =>
            gunk.emit (gunk.LogPrintf "error: creating channel %q for %s: %s"
                         [chname; RemoteAddr req; Error e]) ;;;
            gunk.ret (out ++ out' ++ [HttpError "" 500])
        | inl def =>
            gunk.ret (out ++ out' ++
                      [SetHeader "Content-Type" "application/json";
                       Write (Marshal_def lib (setURL lib (rtmpBase s) def))])
        end
    end.

End handlers.

(* ===================================================================== *)
(** ** Package web: the start of the login *)
(* ===================================================================== *)

(** encoding/base64, [RawURLEncoding]: the URL-safe alphabet without
    padding. *)
Module base64.

Definition encodeURL : list ascii :=
  list_ascii_of_string
    "ABCDEFGHIJKLMNOPQRSTUVWXYZabcdefghijklmnopqrstuvwxyz0123456789-_".

Definition char (n : N) : ascii := nth (N.to_nat n) encodeURL "A"%char.

Definition sextet (val : N) (shift : N) : ascii :=
  char (N.land (N.shiftr val shift) 63).

(** Three bytes give four characters; a rest of two bytes gives three and
    a rest of one byte gives two. *)
Fixpoint Encode (src : list byte) : list ascii :=
  match src with
  | a :: b :: c :: rest =>
      let val := N.lor (N.lor (N.shiftl (Byte.to_N a) 16)
                              (N.shiftl (Byte.to_N b) 8)) (Byte.to_N c) in
      sextet val 18 :: sextet val 12 :: sextet val 6 :: sextet val 0
        :: Encode rest
  | [a; b] =>
      let val := N.lor (N.shiftl (Byte.to_N a) 16)
                       (N.shiftl (Byte.to_N b) 8) in
      [sextet val 18; sextet val 12; sextet val 6]
  | [a] =>
      let val := N.shiftl (Byte.to_N a) 16 in
      [sextet val 18; sextet val 12]
  | [] => []
  end.

Definition EncodeToString (src : list byte) : string :=
  string_of_list_ascii (Encode src).

End base64.

Module login.

Import web.
Local Open Scope web_scope.

(** A handler returns, or panics with an error. *)
Inductive outcome :=
| Returned
| Panicked (err : string).

(** [viewOauthLogin].  [random] is what [io.ReadFull(rand.Reader, sb)] gives
    for the 9 bytes of [sb]; [AuthCodeURL] is the method of the
    [oauth2.Config] that builds the address of the provider for a state. *)
Definition viewOauthLogin (AuthCodeURL : string -> string)
    (random : list byte + string) (s : web.Server) (req : web.Request)
  : web.M outcome :=
  if bool_decide (web.ClientID (web.oauth s) = "")
  then web.emit (web.HttpError "oauth not configured" 400) ;;;
       web.ret Returned
  else
    match random with
    | inr err => web.ret (Panicked err)
    | inl sb =>
        let state := base64.EncodeToString sb in
        _ <- web.setCookie s (web.stateCookie s) (web.StateValue state)
                           web.stateCookieExpires ;;
        web.emit (web.Redirect (AuthCodeURL state) 302) ;;;
        web.ret Returned
    end.

End login.

(** A server of the owner's handlers that opens what [sample.toy_seal]
    seals, a decoder that knows the two documents of an update, and the
    requests of an owner. *)
Module sample_owner.

Definition gunk_server : handlers.gunkServer :=
  {| handlers.loginCookie := "login";
     handlers.rtmpBase := "rtmp://gunk.example/live";
     handlers.open_login := fun _ sealed =>
       match sample.toy_open sealed with
       | Some id => inl {| handlers.ID := id |}
       | None => inr "invalid seal"
       end |}.

Definition quoted (s : string) : string :=
  String (Ascii.ascii_of_nat 34) (s ++ String (Ascii.ascii_of_nat 34) "")%string.

Definition document (flag : string) : string :=
  ("{" ++ quoted "announce" ++ ":" ++ flag ++ "}")%string.

Definition decode (blob : list byte) : bool + string :=
  if bool_decide (string_of_list_byte blob = document "true") then inl true
  else if bool_decide (string_of_list_byte blob = document "false")
       then inl false
       else inr "invalid character".

Definition lib : handlers.library :=
  {| handlers.PathEscape := fun text => text;
     handlers.QueryEscape := fun text => text;
     handlers.Marshal_defs := fun defs =>
       match defs with
       | None => "null"
       | Some l => String.concat "," (List.map registry.RTMPBase l)
       end;
     handlers.Marshal_def := registry.RTMPBase;
     handlers.Unmarshal_create := fun blob => inl (string_of_list_byte blob) |}.

Definition request (session : gmap string string) (chname : string)
    (body : list byte) : handlers.Request :=
  {| handlers.Cookies := session;
     handlers.Vars := {[ "name" := chname ]};
     handlers.Body := inl body;
     handlers.RemoteAddr := "192.0.2.1:40000";
     handlers.URL := ("/defs/" ++ chname)%string |}.

End sample_owner.

(** A server whose sealing primitive opens the session of the one user of
    [sample.provider]. *)
Module sample_session.

Definition streamer : web.discordUser :=
  {| web.ID := "1001"; web.Username := "streamer";
     web.Discriminator := "0001"; web.Avatar := "a1" |}.

Definition sealer : web.Sealer :=
  {| web.seal := sample.toy_seal;
     web.open_state := web.open_state sample.toy_sealer;
     web.open_user := fun _ sealed =>
       if bool_decide (sealed = "sealed:1001") then inl streamer
       else inr (web.SealError "invalid seal") |}.

Definition server : web.Server :=
  {| web.oauth := sample.provider; web.sealer := sealer;
     web.stateCookie := "ostate"; web.loginCookie := "login" |}.

End sample_session.

(** Further vocabulary: the log lines of a trace, paths without a slash,
    timestamps whose nanoseconds fit an [int64], and the sets of characters
    of the two encodings. *)
Definition log_lines (t : list gunk.event) : list (string * list string) :=
  flat_map (fun e => match e with
                     | gunk.LogPrintf format args => [(format, args)]
                     | _ => []
                     end) t.

(** What an update makes of a row. *)
Definition update_row (userID chname : string) (a : bool)
    (c : channel_defs_row) : channel_defs_row :=
  if targets userID chname c then set_announce a c else c.

(** The value of a hexadecimal digit and the bytes that a hexadecimal text
    writes. *)
Fixpoint position (c : ascii) (l : list ascii) : N :=
  match l with
  | [] => 0%N
  | x :: l' => if Ascii.eqb c x then 0%N else N.succ (position c l')
  end.

Fixpoint hex_bytes (l : list ascii) : list byte :=
  match l with
  | hi :: lo :: l' =>
      sha512.byte_of_Z
        (Z.of_N (16 * position hi hex.hextable + position lo hex.hextable))
        :: hex_bytes l'
  | _ => []
  end.

(** What the upsert of a thumbnail makes of a row. *)
Definition refresh (n : string) (d : list byte) (t : Z) (r : thumbs_row)
  : thumbs_row :=
  if bool_decide (thumbs_name r = n)
  then {| thumbs_name := thumbs_name r; thumb := d; updated := t |}
  else r.

Definition thumbs_named (n : string) (rows : list thumbs_row)
  : list thumbs_row :=
  List.filter (fun r => bool_decide (thumbs_name r = n)) rows.

(** The responses of the callback: a failure is answered with one of
    four fixed messages and the callback writes no body. *)
Definition fixed_reply (e : web.event) : bool :=
  match e with
  | web.HttpError msg code =>
      List.existsb (fun p => bool_decide (p = (msg, code)))
        [("oauth not configured", 400); ("oauth failure", 400);
         ("error getting user info from discord", 400);
         ("error setting login cookie", 500)]
  | web.Write _ | web.WriteJSON _ => false
  | _ => true
  end.

(** The identity that [viewUser] writes for a user. *)
Definition with_avatar_path (user : web.discordUser) : web.discordUser :=
  if bool_decide (web.Avatar user = "") then user
  else {| web.ID := web.ID user; web.Username := web.Username user;
          web.Discriminator := web.Discriminator user;
          web.Avatar := ("/avatars/" ++ web.ID user ++ "/"
                         ++ web.Avatar user ++ ".png")%string |}.

Definition has_slash (p : string) : bool :=
  List.existsb path.is_slash (list_ascii_of_string p).

Definition fits_int64_nanoseconds (t : Z) : Prop :=
  - 2 ^ 63 <= t * 1000 < 2 ^ 63.

Definition is_hex_digit (c : ascii) : bool :=
  List.existsb (Ascii.eqb c) hex.hextable.

Definition is_url_safe (c : ascii) : bool :=
  List.existsb (Ascii.eqb c) base64.encodeURL.

(* ===================================================================== *)
(** ** The comparison of secrets *)
(* ===================================================================== *)

Section Comparison.

Lemma byte_range (a : N) : (a <= 255)%N <-> (N.log2 a < 8)%N.
Proof.
  destruct (N.eq_dec a 0%N) as [-> | Hpos]; [cbn; lia |].
  rewrite <- N.log2_lt_pow2 by lia. change (2 ^ 8)%N with 256%N. lia.
Qed.

Lemma lor_range (a b : N) : (a <= 255)%N -> (b <= 255)%N -> (N.lor a b <= 255)%N.
Proof. rewrite !byte_range, N.log2_lor. lia. Qed.

Lemma lxor_range (a b : N) : (a <= 255)%N -> (b <= 255)%N -> (N.lxor a b <= 255)%N.
Proof.
  rewrite !byte_range. intros Ha Hb.
  pose proof (N.log2_lxor a b). lia.
Qed.

Lemma to_N_inj (a b : byte) : Byte.to_N a = Byte.to_N b -> a = b.
Proof.
  intros H. apply (f_equal Byte.of_N) in H.
  rewrite !Byte.of_to_N in H. congruence.
Qed.

Lemma loop_range x : forall y v i,
  (v <= 255)%N -> (fst (subtle.loop v i x y) <= 255)%N.
Proof.
  induction x as [| a x IH]; intros [| b y] v i Hv; simpl; try assumption.
  apply IH, lor_range; [assumption |].
  apply lxor_range; apply Byte.to_N_bounded.
Qed.

Lemma loop_zero x : forall y v i,
  length x = length y ->
  fst (subtle.loop v i x y) = 0%N <-> v = 0%N /\ x = y.
Proof.
  induction x as [| a x IH]; intros [| b y] v i Hlen; simpl in *;
    try discriminate.
  - intuition.
  - rewrite IH by congruence. rewrite N.lor_eq_0_iff, N.lxor_eq_0_iff.
    split.
    + intros [[Hv Hab] Hxy]. apply to_N_inj in Hab. split; congruence.
    + intros [Hv Hxy]. injection Hxy as -> ->. auto.
Qed.

Lemma loop_count x : forall y v i,
  length x = length y -> snd (subtle.loop v i x y) = (i + length x)%nat.
Proof.
  induction x as [| a x IH]; intros [| b y] v i Hlen; simpl in *;
    try discriminate.
  - lia.
  - rewrite IH by congruence. lia.
Qed.

Lemma ConstantTimeByteEq_zero (v : N) :
  (v <= 255)%N -> subtle.ConstantTimeByteEq v 0%N = 1 <-> v = 0%N.
Proof.
  intros Hv. unfold subtle.ConstantTimeByteEq. rewrite N.lxor_0_r.
  destruct (N.eq_dec v 0%N) as [-> | Hpos]; [split; reflexivity |].
  rewrite Z.mod_small by lia.
  rewrite Z.shiftr_div_pow2 by lia.
  rewrite Z.div_small by lia. split; [discriminate | contradiction].
Qed.

(** [hmac.Equal] decides the equality of the two slices. *)
Lemma hmac_Equal_true (x y : list byte) : hmac.Equal x y = true <-> x = y.
Proof.
  unfold hmac.Equal, subtle.ConstantTimeCompare.
  destruct (Nat.eqb (length x) (length y)) eqn:Hlen; cbn [negb].
  - apply Nat.eqb_eq in Hlen.
    rewrite Z.eqb_eq, ConstantTimeByteEq_zero
      by (apply loop_range; lia).
    unfold subtle.accumulate. rewrite loop_zero by assumption. intuition.
  - apply Nat.eqb_neq in Hlen. split; [intros H; discriminate H |].
    intros ->. contradiction.
Qed.

Lemma hmac_Equal_false (x y : list byte) : hmac.Equal x y = false <-> x <> y.
Proof.
  rewrite <- hmac_Equal_true. destruct (hmac.Equal x y); intuition congruence.
Qed.

(** Slices of one length are read to the end, whatever they hold. *)
Lemma iterations_length (x y : list byte) :
  length x = length y -> subtle.iterations x y = length x.
Proof.
  intros Hlen. unfold subtle.iterations.
  rewrite Hlen, Nat.eqb_refl. cbn [negb]. rewrite loop_count by congruence.
  rewrite Hlen. reflexivity.
Qed.

(** What the comparison reads depends on the two lengths alone. *)
Lemma iterations_by_length (x y : list byte) :
  subtle.iterations x y
  = if Nat.eqb (length y) (length x) then length x else 0%nat.
Proof.
  destruct (Nat.eqb (length y) (length x)) eqn:Hlen.
  - apply Nat.eqb_eq in Hlen. apply iterations_length. congruence.
  - unfold subtle.iterations. rewrite Nat.eqb_sym, Hlen. reflexivity.
Qed.

Lemma be_bytes_length (n : nat) : forall z, length (sha512.be_bytes n z) = n.
Proof.
  induction n as [| n IH]; intros z; simpl; [reflexivity |].
  rewrite length_app, IH. simpl. lia.
Qed.

Lemma compress_length (h : list Z) (block : list byte) :
  length h = 8%nat -> length (sha512.compress h block) = 8%nat.
Proof.
  intros Hh. unfold sha512.compress.
  rewrite length_map, length_combine, Hh. reflexivity.
Qed.

Lemma compress_all_length (blocks : list (list byte)) : forall h,
  length h = 8%nat -> length (fold_left sha512.compress blocks h) = 8%nat.
Proof.
  induction blocks as [| b blocks IH]; intros h Hh; simpl; [exact Hh |].
  apply IH, compress_length, Hh.
Qed.

Lemma words_length (ws : list Z) :
  length (flat_map (sha512.be_bytes 8) ws) = (8 * length ws)%nat.
Proof.
  induction ws as [| z ws IH]; [reflexivity |].
  cbn [flat_map]. rewrite length_app, be_bytes_length, IH. simpl. lia.
Qed.

(** A SHA-512 digest, and so an HMAC-SHA512 digest, has 64 bytes. *)
Lemma Sum512_length (msg : list byte) :
  length (sha512.Sum512 msg) = sha512.Size.
Proof.
  unfold sha512.Sum512. rewrite words_length, compress_all_length; reflexivity.
Qed.

Lemma hmac_Sum_length (k msg : list byte) :
  length (hmac.Sum k msg) = sha512.Size.
Proof. unfold hmac.Sum. apply Sum512_length. Qed.

Lemma bytes_of_inj (s1 s2 : string) : bytes_of s1 = bytes_of s2 -> s1 = s2.
Proof.
  unfold bytes_of. intros H.
  apply (f_equal string_of_list_byte) in H.
  rewrite !string_of_list_byte_of_string in H. exact H.
Qed.

End Comparison.

(* ===================================================================== *)
(** ** The combined lookup *)
(* ===================================================================== *)

Arguments hmac.Equal : simpl never.
Arguments hmac.Sum : simpl never.
Arguments path.Base : simpl never.

Section Lookup.

Implicit Types (s : store) (w : world) (c : channel_defs_row).

Lemma added_app {A} (m : M A) w (new : list gunk.event) :
  trace (snd (m w)) = trace w ++ new -> added m w = new.
Proof.
  intros H. unfold added. rewrite H. apply drop_app_length.
Qed.

Lemma where_eq_join_rows col value c us :
  where_eq col value (join_rows c us) =
  if bool_decide (col c = Some value) then join_rows c us else [].
Proof.
  unfold where_eq, join_rows.
  destruct (List.filter _ us) as [| o os].
  - simpl. destruct (bool_decide (col c = Some value)); reflexivity.
  - generalize (o :: os). intros l.
    induction l as [| o' l IH]; simpl.
    + destruct (bool_decide (col c = Some value)); reflexivity.
    + rewrite IH. destruct (bool_decide (col c = Some value)); reflexivity.
Qed.

Lemma where_eq_left_join col value cs us :
  where_eq col value (left_join cs us) =
  flat_map (fun c => join_rows c us)
           (List.filter (fun c => bool_decide (col c = Some value)) cs).
Proof.
  unfold left_join. induction cs as [| c cs IH]; simpl; [reflexivity |].
  unfold where_eq in *. rewrite List.filter_app, IH.
  pose proof (where_eq_join_rows col value c us) as Hc.
  unfold where_eq in Hc. rewrite Hc.
  destruct (bool_decide (col c = Some value)); reflexivity.
Qed.

Lemma join_rows_head c us :
  exists rest,
    join_rows c us =
    (c, head (List.filter
                (fun o => bool_decide (users_user_id o = user_id c)) us))
      :: rest.
Proof.
  unfold join_rows. destruct (List.filter _ us) as [| o os]; simpl; eauto.
Qed.

(** The lookup finds the first row of the table that the column selects. *)
Lemma scanChannel_hit s column col value c rest :
  outage s = None ->
  column_of column = Some col ->
  channels_where col value s = c :: rest ->
  scanChannel s column value = (authorization s c, key c, None).
Proof.
  intros Hup Hcol Hrows. unfold scanChannel.
  rewrite Hup, Hcol, where_eq_left_join.
  unfold channels_where in Hrows. rewrite Hrows. simpl.
  destruct (join_rows_head c (users s)) as [more ->]. reflexivity.
Qed.

Lemma scanChannel_miss s column col value :
  outage s = None ->
  column_of column = Some col ->
  channels_where col value s = [] ->
  scanChannel s column value = (channelAuth_zero, "", Some ErrNoRows).
Proof.
  intros Hup Hcol Hrows. unfold scanChannel.
  rewrite Hup, Hcol, where_eq_left_join.
  unfold channels_where in Hrows. rewrite Hrows. reflexivity.
Qed.

Lemma findChannel_run column value w :
  findChannel column value w =
  (scanChannel (db w) column value,
   {| db := db w;
      trace := trace w ++ [DB (SelectChannel column value)] |}).
Proof. reflexivity. Qed.

Lemma verifyRTMP_run (u : url.URL) w :
  let n := path.Base (url.Path u) in
  let k := bytes_of (url.Get (url.Query u) "key") in
  let '(auth, expectKey, err) := scanChannel (db w) "name" n in
  verifyRTMP u w =
  match err with
  | Some e =>
      ((auth, Some (if decide (e = ErrNoRows) then ErrUserNotFound else e)),
       {| db := db w; trace := trace w ++ [DB (SelectChannel "name" n)] |})
  | None =>
      ((auth, if hmac.Equal k (bytes_of expectKey)
              then None else Some ErrUserNotFound),
       {| db := db w;
          trace := trace w ++
            [DB (SelectChannel "name" n);
             gunk.HmacEqual k (bytes_of expectKey);
             gunk.Compared (subtle.iterations k (bytes_of expectKey))] |})
  end.
Proof.
  intros n k. unfold verifyRTMP, gunk.bind. rewrite findChannel_run.
  fold n. destruct (scanChannel (db w) "name" n) as [[auth expectKey] [e |]].
  - reflexivity.
  - unfold hmacEqual, gunk.bind, gunk.emit, gunk.ret. cbn [db trace].
    fold k. rewrite <- !app_assoc.
    destruct (hmac.Equal k (bytes_of expectKey)); reflexivity.
Qed.

Lemma verifyFTL_run (channelID : string) (nonce provided : list byte) w :
  let '(auth, key, err) := scanChannel (db w) "ftl_id" channelID in
  let expected := hmac.Sum (bytes_of key) nonce in
  let asked := DB (SelectChannel "ftl_id" channelID) in
  let read := gunk.Compared (subtle.iterations expected provided) in
  verifyFTL channelID nonce provided w =
  match err with
  | Some e =>
      ((None, Some (if decide (e = ErrNoRows) then ErrUserNotFound else e)),
       {| db := db w; trace := trace w ++ [asked] |})
  | None =>
      if hmac.Equal expected provided
      then ((Some auth, None),
            {| db := db w;
               trace := trace w ++
                 [asked; gunk.HmacEqual expected provided; read] |})
      else ((None, Some ErrUserNotFound),
            {| db := db w;
               trace := trace w ++
                 [asked; gunk.HmacEqual expected provided; read;
                  gunk.LogPrintf
                    "error: hmac digest mismatch for FTL channel %s"
                    [Name auth]] |})
  end.
Proof.
  unfold verifyFTL, gunk.bind. rewrite findChannel_run.
  destruct (scanChannel (db w) "ftl_id" channelID) as [[auth key] [e |]].
  - reflexivity.
  - unfold hmacEqual, gunk.bind, gunk.emit, gunk.ret. cbn [db trace].
    destruct (hmac.Equal _ provided); cbn [negb db trace];
      rewrite <- ?app_assoc; reflexivity.
Qed.

End Lookup.

(* ===================================================================== *)
(** ** Ingest authentication *)
(* ===================================================================== *)

Section Ingest.

Implicit Types (s : store) (w : world) (c : channel_defs_row).

Lemma column_name : column_of "name" = Some (fun c => Some (name c)).
Proof. reflexivity. Qed.

Lemma column_ftl_id : column_of "ftl_id" = Some ftl_id.
Proof. reflexivity. Qed.

Lemma Base_nonempty (p : string) : path.Base p <> "".
Proof.
  unfold path.Base. destruct (decide (p = "")); [discriminate |].
  cbv zeta. destruct (decide (_ = "")); [discriminate | assumption].
Qed.

Lemma channels_where_head col (value : string) s c rest :
  channels_where col value s = c :: rest -> col c = Some value.
Proof.
  unfold channels_where. intros Hrows.
  assert (Hin : In c (List.filter (fun c => bool_decide (col c = Some value))
                                  (channel_defs s)))
    by (rewrite Hrows; left; reflexivity).
  apply List.filter_In in Hin as [_ Hc].
  apply bool_decide_eq_true in Hc. exact Hc.
Qed.

(** C1: an RTMP publish with the name of a channel and its key succeeds
    with the authorization of the channel; with a name that no channel
    has, or with another key, it fails with the one [ErrUserNotFound].
    The two failures are nevertheless not alike for the caller: next to the
    error a wrong key comes with the authorization of the channel, its
    owner and its flag, and a name that no channel has comes with the
    empty authorization, which is never that of a channel.  [verifyFTL]
    returns nothing next to the error in both cases. *)
Theorem verifyRTMP_failures_differ w (u : url.URL) :
  outage (db w) = None ->
  let n := path.Base (url.Path u) in
  let k := url.Get (url.Query u) "key" in
  (forall c rest,
      channels_named n (db w) = c :: rest -> k = key c ->
      fst (verifyRTMP u w) = (authorization (db w) c, None))
  /\ (channels_named n (db w) = [] ->
      fst (verifyRTMP u w) = (channelAuth_zero, Some ErrUserNotFound))
  /\ (forall c rest,
      channels_named n (db w) = c :: rest -> k <> key c ->
      fst (verifyRTMP u w) = (authorization (db w) c, Some ErrUserNotFound)
      /\ authorization (db w) c <> channelAuth_zero)
  /\ (forall (channelID : string) (nonce provided : list byte),
        channels_with_ftl_id channelID (db w) = []
        \/ (exists c rest,
              channels_with_ftl_id channelID (db w) = c :: rest
              /\ provided <> hmac.Sum (bytes_of (key c)) nonce) ->
        fst (verifyFTL channelID nonce provided w)
        = (None, Some ErrUserNotFound)).
Proof.
  intros Hup n k. pose proof (verifyRTMP_run u w) as Hrun.
  cbv zeta in Hrun. fold n k in Hrun. split; [| split; [| split]].
  - intros c rest Hrows Hkey.
    rewrite (scanChannel_hit _ _ _ _ _ _ Hup column_name Hrows) in Hrun.
    rewrite Hrun. cbn [fst]. rewrite Hkey.
    rewrite (proj2 (hmac_Equal_true _ _) eq_refl). reflexivity.
  - intros Hrows.
    rewrite (scanChannel_miss _ _ _ _ Hup column_name Hrows) in Hrun.
    rewrite Hrun. reflexivity.
  - intros c rest Hrows Hkey. split.
    + rewrite (scanChannel_hit _ _ _ _ _ _ Hup column_name Hrows) in Hrun.
      rewrite Hrun. cbn [fst snd].
      rewrite (proj2 (hmac_Equal_false _ _)); [reflexivity |].
      intros Heq. apply Hkey, bytes_of_inj, Heq.
    + intros Hzero. apply (f_equal Name) in Hzero.
      cbn [Name authorization channelAuth_zero] in Hzero.
      apply channels_where_head in Hrows. injection Hrows as Hname.
      apply (Base_nonempty (url.Path u)). fold n. congruence.
  - intros channelID nonce provided Hcause.
    pose proof (verifyFTL_run channelID nonce provided w) as Hftl.
    destruct Hcause as [Hrows | (c & rest & Hrows & Hne)].
    + rewrite (scanChannel_miss _ _ _ _ Hup column_ftl_id Hrows) in Hftl.
      rewrite Hftl. reflexivity.
    + rewrite (scanChannel_hit _ _ _ _ _ _ Hup column_ftl_id Hrows) in Hftl.
      cbv zeta in Hftl. rewrite Hftl.
      rewrite (proj2 (hmac_Equal_false _ provided)) by congruence.
      reflexivity.
Qed.

Lemma verifyRTMP_failures_differ_witness :
  fst (verifyRTMP (sample.publish "alpha" "5ca1ab1e")
                  (sample.start sample.registry))
  = ({| UserID := "1001"; Name := "alpha"; Announce := true |}, None)
  /\ fst (verifyRTMP (sample.publish "gamma" "5ca1ab1e")
                     (sample.start sample.registry))
     = ({| UserID := ""; Name := ""; Announce := false |},
        Some ErrUserNotFound)
  /\ fst (verifyRTMP (sample.publish "alpha" "5ca1ab1f")
                     (sample.start sample.registry))
     = ({| UserID := "1001"; Name := "alpha"; Announce := true |},
        Some ErrUserNotFound)
  /\ fst (verifyFTL "78" sample.nonce [] (sample.start sample.registry))
     = (None, Some ErrUserNotFound)
  /\ fst (verifyFTL "77" sample.nonce [] (sample.start sample.registry))
     = (None, Some ErrUserNotFound).
Proof.
  split; [| split; [| split; [| split]]].
  - exact (proj1 (verifyRTMP_failures_differ
                    (sample.start sample.registry)
                    (sample.publish "alpha" "5ca1ab1e") eq_refl)
                 sample.alpha [] eq_refl eq_refl).
  - exact (proj1 (proj2 (verifyRTMP_failures_differ
                           (sample.start sample.registry)
                           (sample.publish "gamma" "5ca1ab1e") eq_refl))
                 eq_refl).
  - refine (proj1 (proj1 (proj2 (proj2 (verifyRTMP_failures_differ
                            (sample.start sample.registry)
                            (sample.publish "alpha" "5ca1ab1f") eq_refl)))
                  sample.alpha [] eq_refl _)).
    vm_compute. discriminate.
  - refine (proj2 (proj2 (proj2 (verifyRTMP_failures_differ
                            (sample.start sample.registry)
                            (sample.publish "alpha" "5ca1ab1e") eq_refl)))
                  "78" sample.nonce [] _).
    left. reflexivity.
  - refine (proj2 (proj2 (proj2 (verifyRTMP_failures_differ
                            (sample.start sample.registry)
                            (sample.publish "alpha" "5ca1ab1e") eq_refl)))
                  "77" sample.nonce [] _).
    right. exists sample.alpha, []. split; [reflexivity |].
    vm_compute. discriminate.
Defined.

Lemma flip_byte_differs (b : byte) (i : nat) :
  (i < 8)%nat ->
  sha512.byte_of_Z (Z.lxor (sha512.Z_of_byte b) (2 ^ Z.of_nat i)) <> b.
Proof.
  intros Hi.
  do 8 (destruct i as [| i]; [destruct b; vm_compute; discriminate |]).
  lia.
Qed.

Lemma flip_bit_differs (d : list byte) : forall i,
  (i < 8 * length d)%nat -> flip_bit i d <> d.
Proof.
  induction d as [| b d IH]; intros i Hi; simpl in *; [lia |].
  destruct (Nat.ltb i 8) eqn:Hlt.
  - apply Nat.ltb_lt in Hlt. intros Heq. injection Heq as Hb.
    exact (flip_byte_differs b i Hlt Hb).
  - apply Nat.ltb_ge in Hlt. intros Heq. injection Heq as Hd.
    apply (IH (i - 8)%nat); [lia | exact Hd].
Qed.

(** C5: an FTL connection for the channel of an [ftl_id] succeeds with the
    authorization of the channel when the digest is the HMAC-SHA512 of the
    nonce under the key of the channel; any other digest, and so the
    digest with any one bit flipped, fails with [ErrUserNotFound]; the
    comparison that [verifyFTL] makes is constant-time: it goes through all
    64 byte pairs of a digest of 64 bytes wherever the digests differ, and
    through none for a digest of another length, so that what it reads
    depends on the length of the provided digest alone. *)
Theorem verifyFTL_authenticates w (channelID : string) (nonce : list byte)
    c rest :
  outage (db w) = None ->
  channels_with_ftl_id channelID (db w) = c :: rest ->
  let expected := hmac.Sum (bytes_of (key c)) nonce in
  fst (verifyFTL channelID nonce expected w)
    = (Some (authorization (db w) c), None)
  /\ (forall provided,
        provided <> expected ->
        fst (verifyFTL channelID nonce provided w)
          = (None, Some ErrUserNotFound))
  /\ (forall i,
        (i < 8 * length expected)%nat ->
        fst (verifyFTL channelID nonce (flip_bit i expected) w)
          = (None, Some ErrUserNotFound))
  /\ (forall provided,
        pairs_read (added (verifyFTL channelID nonce provided) w)
        = [if Nat.eqb (length provided) sha512.Size
           then sha512.Size else 0%nat]).
Proof.
  intros Hup Hrows expected.
  assert (Hrun : forall provided,
             verifyFTL channelID nonce provided w
             = let asked := DB (SelectChannel "ftl_id" channelID) in
               let read :=
                 gunk.Compared (subtle.iterations expected provided) in
               if hmac.Equal expected provided
               then ((Some (authorization (db w) c), None),
                     {| db := db w;
                        trace := trace w ++
                          [asked; gunk.HmacEqual expected provided; read] |})
               else ((None, Some ErrUserNotFound),
                     {| db := db w;
                        trace := trace w ++
                          [asked; gunk.HmacEqual expected provided; read;
                           gunk.LogPrintf
                             "error: hmac digest mismatch for FTL channel %s"
                             [name c]] |})).
  { intros provided.
    pose proof (verifyFTL_run channelID nonce provided w) as Hrun.
    rewrite (scanChannel_hit _ _ _ _ _ _ Hup column_ftl_id Hrows) in Hrun.
    exact Hrun. }
  assert (Hfail : forall provided,
             provided <> expected ->
             fst (verifyFTL channelID nonce provided w)
               = (None, Some ErrUserNotFound)).
  { intros provided Hne. rewrite Hrun. cbv zeta.
    rewrite (proj2 (hmac_Equal_false expected provided)) by congruence.
    reflexivity. }
  repeat split.
  - rewrite Hrun. cbv zeta.
    rewrite (proj2 (hmac_Equal_true expected expected) eq_refl).
    reflexivity.
  - exact Hfail.
  - intros i Hi. apply Hfail, flip_bit_differs, Hi.
  - intros provided.
    rewrite <- (hmac_Sum_length (bytes_of (key c)) nonce). fold expected.
    rewrite <- iterations_by_length.
    destruct (hmac.Equal expected provided) eqn:Heq;
      (erewrite added_app;
       [| rewrite Hrun; cbv zeta; rewrite Heq; reflexivity]);
      reflexivity.
Qed.

Lemma verifyFTL_authenticates_witness :
  let expected := hmac.Sum (bytes_of "5ca1ab1e") sample.nonce in
  fst (verifyFTL "77" sample.nonce expected (sample.start sample.registry))
    = (Some {| UserID := "1001"; Name := "alpha"; Announce := true |}, None)
  /\ fst (verifyFTL "77" sample.nonce (flip_bit 100 expected)
                    (sample.start sample.registry))
     = (None, Some ErrUserNotFound)
  /\ pairs_read (added (verifyFTL "77" sample.nonce (flip_bit 100 expected))
                       (sample.start sample.registry))
     = [64%nat]
  /\ pairs_read (added (verifyFTL "77" sample.nonce (flip_bit 500 expected))
                       (sample.start sample.registry))
     = [64%nat].
Proof.
  pose proof (verifyFTL_authenticates
                (sample.start sample.registry) "77" sample.nonce
                sample.alpha [] eq_refl eq_refl) as H.
  split; [exact (proj1 H) |].
  split; [apply (proj1 (proj2 (proj2 H))); vm_compute; lia |].
  split; (refine (eq_trans (proj2 (proj2 (proj2 H)) _) _);
          vm_compute; reflexivity).
Defined.

(** C10: when the channel row exists and its owner has no preference
    row, the combined lookup succeeds and the effective announce flag is
    false. *)
Theorem findChannel_without_preference w (column : string) col
    (value : string) c rest :
  outage (db w) = None ->
  column_of column = Some col ->
  channels_where col value (db w) = c :: rest ->
  preferences_of (user_id c) (db w) = [] ->
  fst (findChannel column value w)
    = ({| UserID := user_id c; Name := name c; Announce := false |},
       key c, None).
Proof.
  intros Hup Hcol Hrows Hpref. rewrite findChannel_run. cbn [fst].
  rewrite (scanChannel_hit _ _ _ _ _ _ Hup Hcol Hrows).
  unfold authorization, effective_announce. rewrite Hpref.
  destruct (announce c); reflexivity.
Qed.

Lemma findChannel_without_preference_witness :
  fst (findChannel "name" "beta" (sample.start sample.registry))
    = ({| UserID := "1002"; Name := "beta"; Announce := false |},
       "0ddba11", None).
Proof.
  exact (findChannel_without_preference
           (sample.start sample.registry) "name" (fun c => Some (name c))
           "beta" sample.beta [] eq_refl eq_refl eq_refl eq_refl).
Defined.

Lemma round_trips_one (e : statement) (rest : list gunk.event) :
  List.forallb (fun e => negb (is_round_trip e)) rest = true ->
  round_trips (DB e :: rest) = 1%nat.
Proof.
  intros H. unfold round_trips. simpl. f_equal.
  induction rest as [| e' rest IH]; [reflexivity |].
  simpl in *. apply andb_prop in H as [He Hrest].
  destruct (is_round_trip e'); [discriminate |]. auto.
Qed.

Lemma verifyRTMP_round_trips w (u : url.URL) :
  round_trips (added (verifyRTMP u) w) = 1%nat.
Proof.
  pose proof (verifyRTMP_run u w) as Hrun. cbv zeta in Hrun.
  destruct (scanChannel (db w) "name" _) as [[auth k] [e |]];
    erewrite added_app by (rewrite Hrun; reflexivity);
    apply round_trips_one; reflexivity.
Qed.

Lemma verifyFTL_round_trips w channelID nonce provided :
  round_trips (added (verifyFTL channelID nonce provided) w) = 1%nat.
Proof.
  pose proof (verifyFTL_run channelID nonce provided w) as Hrun.
  destruct (scanChannel (db w) "ftl_id" _) as [[auth k] [e |]];
    cbv zeta in Hrun.
  - erewrite added_app by (rewrite Hrun; reflexivity).
    apply round_trips_one; reflexivity.
  - destruct (hmac.Equal _ provided);
      erewrite added_app by (rewrite Hrun; reflexivity);
      apply round_trips_one; reflexivity.
Qed.

(** C6: the effective announce flag of the combined lookup is the
    conjunction of the flag of the channel row and the flag of the
    preference row of its owner, whatever the two flags are; a successful
    RTMP or FTL verification returns that flag having sent one statement
    to the store. *)
Theorem effective_announce_conjunction w (column : string) col
    (value : string) c rest o others :
  outage (db w) = None ->
  column_of column = Some col ->
  channels_where col value (db w) = c :: rest ->
  preferences_of (user_id c) (db w) = o :: others ->
  fst (findChannel column value w)
    = ({| UserID := user_id c; Name := name c;
          Announce := announce c && users_announce o |}, key c, None)
  /\ (forall (u : url.URL) auth,
        column = "name" -> path.Base (url.Path u) = value ->
        fst (verifyRTMP u w) = (auth, None) ->
        Announce auth = announce c && users_announce o
        /\ round_trips (added (verifyRTMP u) w) = 1%nat)
  /\ (forall nonce provided auth,
        column = "ftl_id" ->
        fst (verifyFTL value nonce provided w) = (Some auth, None) ->
        Announce auth = announce c && users_announce o
        /\ round_trips (added (verifyFTL value nonce provided) w) = 1%nat).
Proof.
  intros Hup Hcol Hrows Hpref.
  assert (Hscan : scanChannel (db w) column value
                  = ({| UserID := user_id c; Name := name c;
                        Announce := announce c && users_announce o |},
                     key c, None)).
  { rewrite (scanChannel_hit _ _ _ _ _ _ Hup Hcol Hrows).
    unfold authorization, effective_announce. rewrite Hpref.
    cbn [head option_map].
    destruct (announce c), (users_announce o); reflexivity. }
  split; [| split].
  - rewrite findChannel_run. exact Hscan.
  - intros u auth -> <- Hok. split; [| apply verifyRTMP_round_trips].
    pose proof (verifyRTMP_run u w) as Hrun. cbv zeta in Hrun.
    rewrite Hscan in Hrun. rewrite Hrun in Hok. cbn [fst] in Hok.
    injection Hok as <- _. reflexivity.
  - intros nonce provided auth -> Hok.
    split; [| apply verifyFTL_round_trips].
    pose proof (verifyFTL_run value nonce provided w) as Hrun.
    rewrite Hscan in Hrun. cbv zeta in Hrun. rewrite Hrun in Hok.
    destruct (hmac.Equal _ provided); cbn [fst] in Hok; [| discriminate].
    injection Hok as <-. reflexivity.
Qed.

Lemma effective_announce_conjunction_witness :
  fst (findChannel "name" "alpha" (sample.start sample.registry))
    = ({| UserID := "1001"; Name := "alpha"; Announce := true |},
       "5ca1ab1e", None)
  /\ Announce (fst (fst (verifyRTMP (sample.publish "alpha" "5ca1ab1e")
                                    (sample.start sample.registry))))
     = true
  /\ round_trips (added (verifyRTMP (sample.publish "alpha" "5ca1ab1e"))
                        (sample.start sample.registry)) = 1%nat.
Proof.
  pose proof (effective_announce_conjunction
                (sample.start sample.registry) "name"
                (fun c => Some (name c)) "alpha" sample.alpha []
                sample.owner [] eq_refl eq_refl eq_refl eq_refl) as H.
  split; [exact (proj1 H) |].
  exact (proj1 (proj2 H) (sample.publish "alpha" "5ca1ab1e") _
               eq_refl eq_refl eq_refl).
Defined.

(** C2, as the code has it: the secret is compared exactly when the
    lookup returns a row.  When the lookup fails, for want of a row or on
    a failure of the store, both verifications return without comparing;
    the miss gives the [ErrUserNotFound] that a mismatch gives. *)
Theorem comparison_only_after_row w (u : url.URL) (channelID : string)
    (nonce provided : list byte) :
  let rtmp := scanChannel (db w) "name" (path.Base (url.Path u)) in
  let ftl := scanChannel (db w) "ftl_id" channelID in
  comparisons (added (verifyRTMP u) w)
    = match snd rtmp with None => 1%nat | Some _ => 0%nat end
  /\ comparisons (added (verifyFTL channelID nonce provided) w)
     = match snd ftl with None => 1%nat | Some _ => 0%nat end
  /\ (snd rtmp = Some ErrNoRows ->
      snd (fst (verifyRTMP u w)) = Some ErrUserNotFound)
  /\ (snd ftl = Some ErrNoRows ->
      snd (fst (verifyFTL channelID nonce provided w))
        = Some ErrUserNotFound).
Proof.
  intros rtmp ftl.
  pose proof (verifyRTMP_run u w) as Hr. cbv zeta in Hr. fold rtmp in Hr.
  pose proof (verifyFTL_run channelID nonce provided w) as Hf.
  fold ftl in Hf.
  destruct rtmp as [[auth k] [e |]], ftl as [[auth' k'] [e' |]];
    cbv zeta in Hf; cbn [snd];
    repeat split;
    try (intros [= ->]); try discriminate;
    try (erewrite added_app by (rewrite Hr; reflexivity); reflexivity);
    try (rewrite Hr; reflexivity);
    try (rewrite Hf; reflexivity);
    try (erewrite added_app by (rewrite Hf; reflexivity); reflexivity);
    destruct (hmac.Equal _ provided);
    erewrite added_app by (rewrite Hf; reflexivity); reflexivity.
Qed.

(** C2, as stated, fails: for a name and an identifier that no channel has,
    no comparison takes place. *)
Lemma comparison_skipped_on_miss :
  comparisons (added (verifyRTMP (sample.publish "gamma" "5ca1ab1e"))
                     (sample.start sample.registry)) = 0%nat
  /\ comparisons (added (verifyFTL "78" sample.nonce [])
                        (sample.start sample.registry)) = 0%nat
  /\ ~ (forall w (u : url.URL),
          (1 <= comparisons (added (verifyRTMP u) w))%nat).
Proof.
  split; [reflexivity | split; [reflexivity |]].
  intros H.
  specialize (H (sample.start sample.registry)
                (sample.publish "gamma" "5ca1ab1e")).
  vm_compute in H. lia.
Qed.

End Ingest.

(* ===================================================================== *)
(** ** Updating and deleting channels *)
(* ===================================================================== *)

Section Registry.

Implicit Types (s : store) (w : world) (c : channel_defs_row).

Lemma targets_set_announce userID chname a c :
  targets userID chname (set_announce a c) = targets userID chname c.
Proof. reflexivity. Qed.

Lemma update_untargeted userID chname a (cs : list channel_defs_row) :
  List.filter (targets userID chname) cs = [] ->
  List.map (fun c => if targets userID chname c then set_announce a c else c) cs
  = cs.
Proof.
  induction cs as [| c cs IH]; simpl; [reflexivity |].
  destruct (targets userID chname c); [discriminate |].
  intros H. rewrite IH by assumption. reflexivity.
Qed.

Lemma update_targeted userID chname a (cs : list channel_defs_row) :
  List.filter (targets userID chname)
    (List.map (fun c => if targets userID chname c then set_announce a c else c) cs)
  = List.map (set_announce a) (List.filter (targets userID chname) cs).
Proof.
  induction cs as [| c cs IH]; simpl; [reflexivity |].
  destruct (targets userID chname c) eqn:Hc.
  - rewrite targets_set_announce, Hc. simpl. rewrite IH. reflexivity.
  - rewrite Hc. exact IH.
Qed.

Lemma update_others userID chname a (cs : list channel_defs_row) :
  List.filter (fun c => negb (targets userID chname c))
    (List.map (fun c => if targets userID chname c then set_announce a c else c) cs)
  = List.filter (fun c => negb (targets userID chname c)) cs.
Proof.
  induction cs as [| c cs IH]; simpl; [reflexivity |].
  destruct (targets userID chname c) eqn:Hc.
  - rewrite targets_set_announce, Hc. exact IH.
  - rewrite Hc. simpl. rewrite IH. reflexivity.
Qed.

Lemma delete_untargeted userID chname (cs : list channel_defs_row) :
  List.filter (targets userID chname) cs = [] ->
  List.filter (fun c => negb (targets userID chname c)) cs = cs.
Proof.
  induction cs as [| c cs IH]; simpl; [reflexivity |].
  destruct (targets userID chname c); [discriminate |].
  intros H. simpl. rewrite IH by assumption. reflexivity.
Qed.

Lemma delete_targeted userID chname (cs : list channel_defs_row) :
  List.filter (targets userID chname)
    (List.filter (fun c => negb (targets userID chname c)) cs) = [].
Proof.
  induction cs as [| c cs IH]; simpl; [reflexivity |].
  destruct (targets userID chname c) eqn:Hc; simpl; [exact IH |].
  rewrite Hc. exact IH.
Qed.

Lemma updateChannel_run w userID chname a :
  outage (db w) = None ->
  updateChannel userID chname a w =
  (match targeted userID chname (db w) with
   | [] => Some ErrNoRows
   | _ :: _ => None
   end,
   {| db := with_channel_defs (db w)
              (List.map (fun c => if targets userID chname c
                                  then set_announce a c else c)
                        (channel_defs (db w)));
      trace := trace w ++ [DB (UpdateAnnounce userID chname a)] |}).
Proof.
  intros Hup. unfold updateChannel, exec_update, gunk.bind, gunk.emit,
    get_db, put_db, gunk.ret, targeted.
  cbn [db trace]. rewrite Hup.
  destruct (List.filter _ _); reflexivity.
Qed.

Lemma deleteChannel_run w userID chname :
  outage (db w) = None ->
  deleteChannel userID chname w =
  (None,
   {| db := with_channel_defs (db w)
              (List.filter (fun c => negb (targets userID chname c))
                           (channel_defs (db w)));
      trace := trace w ++ [DB (DeleteChannel userID chname)] |}).
Proof.
  intros Hup. unfold deleteChannel, exec_delete, gunk.bind, gunk.emit,
    get_db, put_db, gunk.ret.
  cbn [db trace]. rewrite Hup. reflexivity.
Qed.

(** C8, as the code has it: an update that targets no row fails with
    [ErrNoRows] and changes nothing; an update that targets a row succeeds,
    gives the targeted rows the flag and leaves the other rows as they
    were; a delete that targets no row succeeds and changes nothing, and a
    delete that targets a row succeeds and removes it. *)
Theorem update_delete_outcomes w (userID chname : string) (a : bool) :
  outage (db w) = None ->
  (targeted userID chname (db w) = [] ->
     fst (updateChannel userID chname a w) = Some ErrNoRows
     /\ channel_defs (db (snd (updateChannel userID chname a w)))
        = channel_defs (db w))
  /\ (targeted userID chname (db w) <> [] ->
     fst (updateChannel userID chname a w) = None
     /\ targeted userID chname (db (snd (updateChannel userID chname a w)))
        = List.map (set_announce a) (targeted userID chname (db w))
     /\ List.filter (fun c => negb (targets userID chname c))
          (channel_defs (db (snd (updateChannel userID chname a w))))
        = List.filter (fun c => negb (targets userID chname c))
            (channel_defs (db w)))
  /\ (targeted userID chname (db w) = [] ->
     fst (deleteChannel userID chname w) = None
     /\ channel_defs (db (snd (deleteChannel userID chname w)))
        = channel_defs (db w))
  /\ (targeted userID chname (db w) <> [] ->
     fst (deleteChannel userID chname w) = None
     /\ targeted userID chname (db (snd (deleteChannel userID chname w)))
        = []).
Proof.
  intros Hup.
  rewrite (updateChannel_run w userID chname a Hup).
  rewrite (deleteChannel_run w userID chname Hup).
  unfold targeted. cbn [fst snd db channel_defs with_channel_defs].
  split; [| split; [| split]].
  - intros Hnone. rewrite Hnone. split; [reflexivity |].
    apply update_untargeted, Hnone.
  - intros Hsome. split; [| split].
    + destruct (List.filter _ _); [contradiction | reflexivity].
    + apply update_targeted.
    + apply update_others.
  - intros Hnone. split; [reflexivity |].
    apply delete_untargeted, Hnone.
  - intros Hsome. split; [reflexivity |]. apply delete_targeted.
Qed.

Lemma update_delete_outcomes_witness :
  fst (updateChannel "1001" "gamma" false (sample.start sample.registry))
    = Some ErrNoRows
  /\ fst (updateChannel "1001" "alpha" false (sample.start sample.registry))
     = None
  /\ List.map announce
       (channel_defs
          (db (snd (updateChannel "1001" "alpha" false
                                  (sample.start sample.registry)))))
     = [false; true]
  /\ fst (deleteChannel "1001" "gamma" (sample.start sample.registry)) = None.
Proof.
  pose proof (update_delete_outcomes (sample.start sample.registry)
                "1001" "gamma" false eq_refl) as Hmiss.
  pose proof (update_delete_outcomes (sample.start sample.registry)
                "1001" "alpha" false eq_refl) as Hhit.
  split; [| split; [| split]].
  - exact (proj1 (proj1 Hmiss eq_refl)).
  - refine (proj1 (proj1 (proj2 Hhit) _)). discriminate.
  - reflexivity.
  - exact (proj1 (proj1 (proj2 (proj2 Hmiss)) eq_refl)).
Defined.

(** C8, as stated, fails: a delete that targets no row reports no
    error. *)
Lemma delete_missing_succeeds :
  targeted "1001" "gamma" sample.registry = []
  /\ fst (deleteChannel "1001" "gamma" (sample.start sample.registry)) = None
  /\ fst (deleteChannel "1001" "gamma" (sample.start sample.registry))
     <> Some ErrNoRows.
Proof. repeat split. discriminate. Qed.

End Registry.

(* ===================================================================== *)
(** ** The liveness directory *)
(* ===================================================================== *)

Section Directory.

Implicit Types (r : thumbs_row) (w : world).

Lemma leb_le (s1 s2 : string) :
  String.leb s1 s2 = true <-> String.ltb s1 s2 = true \/ s1 = s2.
Proof.
  unfold String.leb, String.ltb.
  destruct (String.compare s1 s2) eqn:Hcmp.
  - apply String.compare_eq_iff in Hcmp. intuition.
  - intuition.
  - split; [discriminate |]. intros [H | ->]; [discriminate |].
    pose proof (String.compare_antisym s2 s2) as Hanti.
    rewrite Hcmp in Hanti. discriminate.
Qed.

Lemma ltb_trans (s1 s2 s3 : string) :
  String.ltb s1 s2 = true -> String.ltb s2 s3 = true ->
  String.ltb s1 s3 = true.
Proof.
  unfold String.ltb. intros H12 H23.
  destruct (String.compare s1 s2) eqn:C12; try discriminate.
  destruct (String.compare s2 s3) eqn:C23; try discriminate.
  apply OrderedTypeEx.String_as_OT.cmp_lt in C12, C23.
  pose proof (OrderedTypeEx.String_as_OT.lt_trans _ _ _ C12 C23) as C13.
  apply OrderedTypeEx.String_as_OT.cmp_lt in C13.
  unfold OrderedTypeEx.String_as_OT.cmp in C13. rewrite C13. reflexivity.
Qed.

Lemma leb_trans (s1 s2 s3 : string) :
  String.leb s1 s2 = true -> String.leb s2 s3 = true ->
  String.leb s1 s3 = true.
Proof.
  rewrite !leb_le. intros [H12 | ->] [H23 | ->]; auto.
  left. eapply ltb_trans; eassumption.
Qed.

Lemma ltb_not_leb (s1 s2 : string) :
  String.ltb s1 s2 = true -> String.leb s2 s1 = false.
Proof.
  unfold String.ltb, String.leb. rewrite (String.compare_antisym s2 s1).
  destruct (String.compare s1 s2); simpl; congruence.
Qed.

#[local] Instance order_by_total now : Total (order_by now).
Proof.
  intros r1 r2. unfold order_by.
  destruct (Z.lt_trichotomy (staleness now r1) (staleness now r2))
    as [Hlt | [Heq | Hgt]]; [auto | | auto].
  destruct (String.leb_total (thumbs_name r1) (thumbs_name r2)); auto.
Qed.

#[local] Instance order_by_trans now : Transitive (order_by now).
Proof.
  intros r1 r2 r3. unfold order_by.
  intros [H12 | [E12 L12]] [H23 | [E23 L23]]; try (left; lia).
  right. split; [lia |]. eapply leb_trans; eassumption.
Qed.

Lemma order_by_staleness now r1 r2 :
  order_by now r1 r2 -> staleness now r1 <= staleness now r2.
Proof. unfold order_by. lia. Qed.

Lemma listChannels_run w :
  outage (db w) = None ->
  fst (listChannels w)
  = (List.map scan_info
       (merge_sort (order_by (now (db w))) (thumbs (db w))), None).
Proof.
  intros Hup. unfold listChannels, gunk.bind, gunk.emit, get_db, gunk.ret.
  cbn [db trace]. rewrite Hup. reflexivity.
Qed.

(** C7: the listing is the liveness records ordered by
    max(now - updated, 1 minute) and then by name, both ascending.  Records
    updated 10, 70 and 200 seconds ago come out in that order, and of two
    records updated within the last minute the one with the lesser name
    comes first. *)
Theorem listChannels_ordered w :
  outage (db w) = None ->
  exists rows,
    fst (listChannels w) = (List.map scan_info rows, None)
    /\ rows ≡ₚ thumbs (db w)
    /\ StronglySorted (order_by (now (db w))) rows
    /\ (forall a b c,
          thumbs (db w) ≡ₚ [a; b; c] ->
          updated a = now (db w) - seconds 10 ->
          updated b = now (db w) - seconds 70 ->
          updated c = now (db w) - seconds 200 ->
          rows = [a; b; c])
    /\ (forall a d,
          thumbs (db w) ≡ₚ [a; d] ->
          now (db w) - updated a <= minute ->
          now (db w) - updated d <= minute ->
          String.ltb (thumbs_name a) (thumbs_name d) = true ->
          rows = [a; d]).
Proof.
  intros Hup. set (t := now (db w)).
  exists (merge_sort (order_by t) (thumbs (db w))).
  assert (Hperm : merge_sort (order_by t) (thumbs (db w)) ≡ₚ thumbs (db w))
    by apply merge_sort_Permutation.
  assert (Hsorted : StronglySorted (order_by t)
                      (merge_sort (order_by t) (thumbs (db w))))
    by (apply StronglySorted_merge_sort; apply _).
  split; [apply listChannels_run, Hup |].
  split; [exact Hperm |]. split; [exact Hsorted |]. split.
  - intros a b c Habc Ha Hb Hc.
    assert (Sa : staleness t a = seconds 60)
      by (unfold staleness, minute, seconds in *; lia).
    assert (Sb : staleness t b = seconds 70)
      by (unfold staleness, minute, seconds in *; lia).
    assert (Sc : staleness t c = seconds 200)
      by (unfold staleness, minute, seconds in *; lia).
    unfold seconds in Sa, Sb, Sc.
    apply (StronglySorted_unique_strong (order_by t)).
    + intros x1 x2 Hx1 Hx2 H12 H21.
      apply order_by_staleness in H12, H21.
      rewrite Hperm, Habc in Hx1.
      apply list_elem_of_In in Hx1, Hx2. simpl in Hx1, Hx2.
      destruct Hx1 as [<- | [<- | [<- | []]]],
               Hx2 as [<- | [<- | [<- | []]]];
        try reflexivity; lia.
    + exact Hsorted.
    + repeat match goal with
             | |- StronglySorted _ _ => constructor
             | |- List.Forall _ _ => constructor
             end;
        left; lia.
    + rewrite Hperm. exact Habc.
  - intros a d Had Ha Hd Hlt.
    assert (Sa : staleness t a = minute) by (unfold staleness; lia).
    assert (Sd : staleness t d = minute) by (unfold staleness; lia).
    apply (StronglySorted_unique_strong (order_by t)).
    + intros x1 x2 Hx1 Hx2 H12 H21.
      rewrite Hperm, Had in Hx1.
      apply list_elem_of_In in Hx1, Hx2. simpl in Hx1, Hx2.
      destruct Hx1 as [<- | [<- | []]], Hx2 as [<- | [<- | []]];
        try reflexivity.
      * destruct H21 as [H21 | [_ H21]]; [lia |].
        rewrite (ltb_not_leb _ _ Hlt) in H21. discriminate.
      * destruct H12 as [H12 | [_ H12]]; [lia |].
        rewrite (ltb_not_leb _ _ Hlt) in H12. discriminate.
    + exact Hsorted.
    + repeat match goal with
             | |- StronglySorted _ _ => constructor
             | |- List.Forall _ _ => constructor
             end.
      right. split; [lia |]. apply leb_le. left. exact Hlt.
    + rewrite Hperm. exact Had.
Qed.

Lemma listChannels_ordered_witness :
  List.map info_Name
    (fst (fst (listChannels
                 (sample.start
                    (sample.directory
                       [sample.live "C" (seconds 200);
                        sample.live "A" (seconds 10);
                        sample.live "B" (seconds 70)])))))
  = ["A"; "B"; "C"]
  /\ List.map info_Name
       (fst (fst (listChannels
                    (sample.start
                       (sample.directory
                          [sample.live "D" (seconds 5);
                           sample.live "A" (seconds 5)])))))
     = ["A"; "D"].
Proof.
  split.
  - destruct (listChannels_ordered
                (sample.start
                   (sample.directory
                      [sample.live "C" (seconds 200);
                       sample.live "A" (seconds 10);
                       sample.live "B" (seconds 70)])) eq_refl)
      as (rows & Hres & _ & _ & Habc & _).
    rewrite Hres.
    rewrite (Habc (sample.live "A" (seconds 10))
                  (sample.live "B" (seconds 70))
                  (sample.live "C" (seconds 200)));
      [reflexivity | | reflexivity | reflexivity | reflexivity].
    cbn [thumbs db sample.start sample.directory].
    apply (Permutation_cons_append [_; _]).
  - destruct (listChannels_ordered
                (sample.start
                   (sample.directory
                      [sample.live "D" (seconds 5);
                       sample.live "A" (seconds 5)])) eq_refl)
      as (rows & Hres & _ & _ & _ & Had).
    rewrite Hres.
    rewrite (Had (sample.live "A" (seconds 5))
                 (sample.live "D" (seconds 5)));
      [reflexivity | | vm_compute; discriminate | vm_compute; discriminate
       | reflexivity].
    cbn [thumbs db sample.start sample.directory].
    apply perm_swap.
Defined.

End Directory.

(* ===================================================================== *)
(** ** The OAuth callback, logout and identity read *)
(* ===================================================================== *)

Section Login.

Implicit Types (s : web.Server) (req : web.Request).

Lemma unseal_state_absent s req (cookie : string) :
  web.Cookies req !! cookie = None ->
  web.unseal_state s req cookie = inr web.ErrNoCookie.
Proof. intros H. unfold web.unseal_state. rewrite H. reflexivity. Qed.

Lemma unseal_user_absent s req (cookie : string) :
  web.Cookies req !! cookie = None ->
  web.unseal_user s req cookie = inr web.ErrNoCookie.
Proof. intros H. unfold web.unseal_user. rewrite H. reflexivity. Qed.

(** The callback request by the outcome of its checks. *)
Lemma tokenExchange_run s req :
  let code := web.FormValue req "code" in
  let state := web.FormValue req "state" in
  let clear := web.SetCookie (web.stateCookie s) "" (-1) in
  web.run (web.tokenExchange s req) =
  if bool_decide (code = "") then (inr (web.errorsNew "missing code"), [])
  else
    match web.unseal_state s req (web.stateCookie s) with
    | inr err => (inr err, [clear])
    | inl state2 =>
        let compare := web.HmacEqual (bytes_of state2) (bytes_of state) in
        if hmac.Equal (bytes_of state2) (bytes_of state)
        then (web.Exchange (web.oauth s) code,
              [clear; compare; web.TokenExchange code])
        else (inr (web.errorsNew "state mismatch"), [clear; compare])
    end.
Proof.
  intros code state clear. unfold web.run, web.tokenExchange.
  fold code state. destruct (bool_decide (code = "")); [reflexivity |].
  unfold web.bind, web.setCookie, web.emit, web.ret. cbn [app].
  destruct (web.unseal_state s req (web.stateCookie s)) as [state2 | err];
    [| reflexivity].
  unfold web.hmacEqual, web.bind, web.emit, web.ret. cbn [app].
  destruct (hmac.Equal _ _); reflexivity.
Qed.

Lemma viewOauthCB_failure s req (err : web.error) :
  web.ClientID (web.oauth s) <> "" ->
  fst (web.run (web.tokenExchange s req)) = inr err ->
  web.run (web.viewOauthCB s req) =
  (tt, snd (web.run (web.tokenExchange s req))
         ++ [web.LogPrintf "[oauth] error: %s: %s"
                           [web.RemoteAddr req; web.Error err];
             web.HttpError "oauth failure" 400]).
Proof.
  intros Hconf Herr. unfold web.run, web.viewOauthCB in *.
  rewrite bool_decide_eq_false_2 by assumption.
  unfold web.bind at 1.
  destruct (web.tokenExchange s req []) as [r t]. cbn [fst snd] in *.
  subst r. unfold web.bind, web.emit. rewrite <- app_assoc. reflexivity.
Qed.

Lemma user_agent_cleared (jar : gmap string string) (cookie : string)
    (rest : list web.event) :
  List.forallb (fun e => match e with
                         | web.SetCookie _ _ _ => false
                         | _ => true
                         end) rest = true ->
  web.user_agent jar (web.SetCookie cookie "" (-1) :: rest) !! cookie = None.
Proof.
  intros Hrest. unfold web.user_agent. simpl.
  assert (Hkeep : forall j : gmap string string,
             fold_left web.store_cookie rest j = j).
  { induction rest as [| e rest IH]; intros j; [reflexivity |].
    simpl in *. apply andb_prop in Hrest as [He Hrest].
    destruct e; try discriminate; apply IH, Hrest. }
  rewrite Hkeep. apply lookup_delete_eq.
Qed.

(** C3, as the code has it: on a callback that carries a code, a state
    cookie that does not unseal ends the exchange with the error of the
    unsealing, and a state that differs from the unsealed one ends it with
    the state-mismatch error; the provider is called in neither case.  The
    token endpoint is called exactly when the unsealed state equals the
    one received, after the comparison; when it is not, the callback
    answers with the failure response without having called the
    provider. *)
Theorem state_checked_before_exchange s req :
  let code := web.FormValue req "code" in
  let state := web.FormValue req "state" in
  let clear := web.SetCookie (web.stateCookie s) "" (-1) in
  let unsealed := web.unseal_state s req (web.stateCookie s) in
  code <> "" ->
  (forall err,
      unsealed = inr err ->
      web.run (web.tokenExchange s req) = (inr err, [clear]))
  /\ (forall state2,
        unsealed = inl state2 -> state2 <> state ->
        web.run (web.tokenExchange s req)
        = (inr (web.errorsNew "state mismatch"),
           [clear; web.HmacEqual (bytes_of state2) (bytes_of state)]))
  /\ (unsealed = inl state ->
      web.run (web.tokenExchange s req)
      = (web.Exchange (web.oauth s) code,
         [clear; web.HmacEqual (bytes_of state) (bytes_of state);
          web.TokenExchange code]))
  /\ (List.existsb is_exchange (snd (web.run (web.tokenExchange s req)))
        = true <-> unsealed = inl state)
  /\ (web.ClientID (web.oauth s) <> "" -> unsealed <> inl state ->
      List.existsb is_exchange (snd (web.run (web.viewOauthCB s req)))
        = false
      /\ last (snd (web.run (web.viewOauthCB s req)))
         = Some (web.HttpError "oauth failure" 400)).
Proof.
  intros code state clear unsealed Hcode.
  pose proof (tokenExchange_run s req) as Hrun. cbv zeta in Hrun.
  fold code state clear unsealed in Hrun.
  rewrite bool_decide_eq_false_2 in Hrun by assumption.
  split; [| split; [| split; [| split]]].
  - intros err Herr. rewrite Hrun, Herr. reflexivity.
  - intros state2 Hok Hne. rewrite Hrun, Hok.
    rewrite (proj2 (hmac_Equal_false _ _)); [reflexivity |].
    intros Heq. apply Hne, bytes_of_inj, Heq.
  - intros Hok. rewrite Hrun, Hok.
    rewrite (proj2 (hmac_Equal_true _ _) eq_refl). reflexivity.
  - rewrite Hrun. destruct unsealed as [state2 | err].
    + destruct (hmac.Equal _ _) eqn:Heq; cbn [snd List.existsb is_exchange orb].
      * apply hmac_Equal_true, bytes_of_inj in Heq. subst state2.
        split; reflexivity.
      * apply hmac_Equal_false in Heq. split; [discriminate |].
        intros [= ->]. contradiction.
    + cbn. split; discriminate.
  - intros Hconf Hne.
    destruct unsealed as [state2 | err].
    + destruct (hmac.Equal (bytes_of state2) (bytes_of state)) eqn:Heq.
      * apply hmac_Equal_true, bytes_of_inj in Heq. subst state2.
        contradiction.
      * rewrite (viewOauthCB_failure s req (web.errorsNew "state mismatch")
                   Hconf) by (rewrite Hrun; reflexivity).
        rewrite Hrun. split; reflexivity.
    + rewrite (viewOauthCB_failure s req err Hconf)
        by (rewrite Hrun; reflexivity).
      rewrite Hrun. split; reflexivity.
Qed.

Lemma state_checked_before_exchange_witness :
  web.run (web.tokenExchange sample.server
             (sample.callback "c0de" "abc" {[ "ostate" := "forged" ]}))
  = (inr (web.SealError "invalid seal"), [web.SetCookie "ostate" "" (-1)])
  /\ web.run (web.tokenExchange sample.server
                (sample.callback "c0de" "abc" {[ "ostate" := "sealed:xyz" ]}))
     = (inr (web.errorsNew "state mismatch"),
        [web.SetCookie "ostate" "" (-1);
         web.HmacEqual (bytes_of "xyz") (bytes_of "abc")])
  /\ web.run (web.tokenExchange sample.server
                (sample.callback "c0de" "abc" {[ "ostate" := "sealed:abc" ]}))
     = (inl "t0ken",
        [web.SetCookie "ostate" "" (-1);
         web.HmacEqual (bytes_of "abc") (bytes_of "abc");
         web.TokenExchange "c0de"]).
Proof.
  split; [| split].
  - refine (proj1 (state_checked_before_exchange sample.server
                     (sample.callback "c0de" "abc" {[ "ostate" := "forged" ]})
                     _) _ eq_refl).
    vm_compute. discriminate.
  - refine (proj1 (proj2 (state_checked_before_exchange sample.server
                     (sample.callback "c0de" "abc"
                        {[ "ostate" := "sealed:xyz" ]}) _)) "xyz" eq_refl _);
      vm_compute; discriminate.
  - refine (proj1 (proj2 (proj2 (state_checked_before_exchange sample.server
                     (sample.callback "c0de" "abc"
                        {[ "ostate" := "sealed:abc" ]}) _))) eq_refl).
    vm_compute. discriminate.
Defined.

(** C3, as stated, fails: when the state cookie is absent the exchange
    ends with the error of the unsealing, which is not the state-mismatch
    error. *)
Lemma unseal_failure_is_not_state_mismatch :
  web.run (web.tokenExchange sample.server (sample.callback "c0de" "abc" ∅))
  = (inr web.ErrNoCookie, [web.SetCookie "ostate" "" (-1)])
  /\ fst (web.run (web.tokenExchange sample.server
                     (sample.callback "c0de" "abc" ∅)))
     <> inr (web.errorsNew "state mismatch").
Proof. split; [reflexivity | discriminate]. Qed.

(** C4, as the code has it: a callback without a code fails with the
    missing-code error and leaves the state cookie as it is; a callback
    with a code clears the state cookie first, whatever the outcome of the
    unsealing, of the comparison and of the exchange, and the user agent
    holds the state cookie no longer. *)
Theorem state_cookie_cleared_with_code s req :
  (web.FormValue req "code" = "" ->
     web.run (web.tokenExchange s req)
     = (inr (web.errorsNew "missing code"), []))
  /\ (web.FormValue req "code" <> "" ->
      (exists outcome rest,
          web.run (web.tokenExchange s req)
          = (outcome, web.SetCookie (web.stateCookie s) "" (-1) :: rest))
      /\ forall jar,
          web.user_agent jar (snd (web.run (web.tokenExchange s req)))
            !! web.stateCookie s = None).
Proof.
  pose proof (tokenExchange_run s req) as Hrun. cbv zeta in Hrun.
  split; intros Hcode.
  - rewrite Hrun, bool_decide_eq_true_2 by assumption. reflexivity.
  - rewrite bool_decide_eq_false_2 in Hrun by assumption. rewrite Hrun.
    destruct (web.unseal_state s req (web.stateCookie s)) as [state2 | err];
      [destruct (hmac.Equal _ _) |];
      (split; [eauto | intros jar; apply user_agent_cleared; reflexivity]).
Qed.

Lemma state_cookie_cleared_with_code_witness :
  web.run (web.tokenExchange sample.server
             (sample.get {[ "ostate" := "sealed:abc" ]}))
  = (inr (web.errorsNew "missing code"), [])
  /\ web.user_agent {[ "ostate" := "sealed:abc" ]}
       (snd (web.run (web.tokenExchange sample.server
                        (sample.callback "c0de" "abc"
                           {[ "ostate" := "sealed:abc" ]}))))
       !! "ostate" = None.
Proof.
  split.
  - exact (proj1 (state_cookie_cleared_with_code sample.server
                    (sample.get {[ "ostate" := "sealed:abc" ]})) eq_refl).
  - refine (proj2 (proj2 (state_cookie_cleared_with_code sample.server
                    (sample.callback "c0de" "abc"
                       {[ "ostate" := "sealed:abc" ]})) _) _).
    vm_compute. discriminate.
Defined.

(** C4, as stated, fails: on a callback without a code the response sets
    no cookie and the user agent keeps the state cookie. *)
Lemma state_cookie_kept_without_code :
  web.run (web.viewOauthCB sample.server
             (sample.get {[ "ostate" := "sealed:abc" ]}))
  = (tt, [web.LogPrintf "[oauth] error: %s: %s"
                        ["192.0.2.1:40000"; "missing code"];
          web.HttpError "oauth failure" 400])
  /\ web.user_agent {[ "ostate" := "sealed:abc" ]}
       (snd (web.run (web.viewOauthCB sample.server
                        (sample.get {[ "ostate" := "sealed:abc" ]}))))
       !! "ostate" = Some "sealed:abc".
Proof. split; reflexivity. Qed.

Lemma viewUser_anonymous s req (err : web.error) :
  web.unseal_user s req (web.loginCookie s) = inr err ->
  web.run (web.viewUser s req) = (tt, [web.WriteJSON web.discordUser_zero]).
Proof.
  intros Herr. unfold web.run, web.viewUser. rewrite Herr. reflexivity.
Qed.

Lemma viewOauthLogout_run s req :
  web.run (web.viewOauthLogout s req)
  = (tt, [web.SetCookie (web.loginCookie s) "" (-1);
          web.SetHeader "Content-Type" "application/json";
          web.Write "{}"]).
Proof. reflexivity. Qed.

(** C9: an identity read whose session cookie is absent or does not
    unseal writes the empty identity and no error; a logout clears the
    session cookie and writes an empty object, and an identity read by the
    user agent that received it writes the empty identity. *)
Theorem identity_read_anonymous s req :
  (web.Cookies req !! web.loginCookie s = None ->
     web.run (web.viewUser s req)
     = (tt, [web.WriteJSON web.discordUser_zero]))
  /\ (forall err,
        web.unseal_user s req (web.loginCookie s) = inr err ->
        web.run (web.viewUser s req)
        = (tt, [web.WriteJSON web.discordUser_zero]))
  /\ (forall logout,
        web.run (web.viewOauthLogout s logout)
        = (tt, [web.SetCookie (web.loginCookie s) "" (-1);
                web.SetHeader "Content-Type" "application/json";
                web.Write "{}"]))
  /\ (forall logout jar,
        web.Cookies req
        = web.user_agent jar (snd (web.run (web.viewOauthLogout s logout))) ->
        web.run (web.viewUser s req)
        = (tt, [web.WriteJSON web.discordUser_zero])).
Proof.
  split; [| split; [| split]].
  - intros Habsent.
    apply (viewUser_anonymous s req web.ErrNoCookie).
    apply unseal_user_absent, Habsent.
  - intros err. apply viewUser_anonymous.
  - intros logout. apply viewOauthLogout_run.
  - intros logout jar Hjar.
    apply (viewUser_anonymous s req web.ErrNoCookie).
    apply unseal_user_absent. rewrite Hjar, viewOauthLogout_run.
    apply user_agent_cleared. reflexivity.
Qed.

Lemma identity_read_anonymous_witness :
  web.run (web.viewUser sample.server (sample.get ∅))
  = (tt, [web.WriteJSON web.discordUser_zero])
  /\ web.run (web.viewUser sample.server
                (sample.get {[ "login" := "forged" ]}))
     = (tt, [web.WriteJSON web.discordUser_zero])
  /\ web.run (web.viewUser sample.server
                (sample.get
                   (web.user_agent {[ "login" := "sealed:1001" ]}
                      (snd (web.run (web.viewOauthLogout sample.server
                                       (sample.get
                                          {[ "login" := "sealed:1001" ]})))))))
     = (tt, [web.WriteJSON web.discordUser_zero]).
Proof.
  split; [| split].
  - exact (proj1 (identity_read_anonymous sample.server (sample.get ∅))
                 eq_refl).
  - exact (proj1 (proj2 (identity_read_anonymous sample.server
                           (sample.get {[ "login" := "forged" ]})))
                 _ eq_refl).
  - exact (proj2 (proj2 (proj2
             (identity_read_anonymous sample.server
                (sample.get
                   (web.user_agent {[ "login" := "sealed:1001" ]}
                      (snd (web.run (web.viewOauthLogout sample.server
                                       (sample.get
                                          {[ "login" := "sealed:1001" ]})))))))))
                 (sample.get {[ "login" := "sealed:1001" ]})
                 {[ "login" := "sealed:1001" ]} eq_refl).
Defined.

End Login.

(* ===================================================================== *)
(** ** Further properties of the ingest verification *)
(* ===================================================================== *)

Section IngestFurther.

Implicit Types (s : store) (w : world) (c : channel_defs_row).

Lemma list_ascii_of_string_app (s1 s2 : string) :
  list_ascii_of_string (s1 ++ s2)%string
  = list_ascii_of_string s1 ++ list_ascii_of_string s2.
Proof.
  induction s1 as [| a s1 IH]; simpl; [reflexivity |]. rewrite IH. reflexivity.
Qed.

Lemma untilSlash_app (l rest : list ascii) :
  List.existsb path.is_slash l = false ->
  path.untilSlash (l ++ "/"%char :: rest) = l.
Proof.
  induction l as [| a l IH]; simpl; [reflexivity |].
  destruct (path.is_slash a); simpl; [discriminate |].
  intros H. rewrite IH by assumption. reflexivity.
Qed.

Lemma dropSlashes_keeps (l rest : list ascii) :
  l <> [] -> List.existsb path.is_slash l = false ->
  path.dropSlashes (l ++ rest) = l ++ rest.
Proof.
  destruct l as [| a l]; [contradiction |]. simpl.
  destruct (path.is_slash a); simpl; [discriminate | reflexivity].
Qed.

Lemma existsb_rev {A} (f : A -> bool) (l : list A) :
  List.existsb f (rev l) = List.existsb f l.
Proof.
  induction l as [| a l IH]; simpl; [reflexivity |].
  rewrite List.existsb_app, IH. simpl. rewrite orb_false_r. apply orb_comm.
Qed.

(** The last element of a path: what precedes the last slash does not
    count. *)
Lemma Base_last_element (dir n : string) :
  n <> "" -> has_slash n = false ->
  path.Base (dir ++ "/" ++ n) = n.
Proof.
  intros Hn Hslash. unfold path.Base.
  destruct (decide ((dir ++ "/" ++ n)%string = "")) as [Hempty | _].
  { apply (f_equal list_ascii_of_string) in Hempty.
    rewrite !list_ascii_of_string_app in Hempty. simpl in Hempty.
    destruct (list_ascii_of_string dir); discriminate. }
  rewrite !list_ascii_of_string_app. simpl. rewrite rev_app_distr. simpl.
  rewrite <- app_assoc. simpl.
  assert (Hrev : List.existsb path.is_slash (rev (list_ascii_of_string n))
                 = false) by (rewrite existsb_rev; exact Hslash).
  assert (Hne : rev (list_ascii_of_string n) <> []).
  { intros H. apply (f_equal (@length ascii)) in H.
    rewrite length_rev in H. destruct n; [contradiction | discriminate]. }
  rewrite dropSlashes_keeps, untilSlash_app by assumption.
  rewrite rev_involutive, string_of_list_ascii_of_string.
  destruct (decide (n = "")); [contradiction | reflexivity].
Qed.

(** X1: an RTMP publish is verified against the last element of the path:
    the directories before it make no difference to the result. *)
Theorem verifyRTMP_last_element w (dir n : string)
    (q : gmap string (list string)) :
  n <> "" -> has_slash n = false ->
  verifyRTMP {| url.Path := dir ++ "/" ++ n; url.Query := q |} w
  = verifyRTMP {| url.Path := "/" ++ n; url.Query := q |} w.
Proof.
  intros Hn Hslash.
  pose proof (verifyRTMP_run {| url.Path := dir ++ "/" ++ n; url.Query := q |} w)
    as H1.
  pose proof (verifyRTMP_run {| url.Path := "/" ++ n; url.Query := q |} w)
    as H2.
  cbv zeta in H1, H2. cbn [url.Path url.Query] in H1, H2.
  rewrite (Base_last_element dir n Hn Hslash) in H1.
  change (path.Base ("/" ++ n)) with (path.Base ("" ++ "/" ++ n)) in H2.
  rewrite (Base_last_element "" n Hn Hslash) in H2.
  destruct (scanChannel (db w) "name" n) as [[auth k] [e |]];
    cbn beta iota in H1, H2; rewrite H1, H2; reflexivity.
Qed.

Lemma verifyRTMP_last_element_witness :
  verifyRTMP {| url.Path := "/live/eu/alpha";
                url.Query := {[ "key" := ["5ca1ab1e"] ]} |}
             (sample.start sample.registry)
  = verifyRTMP {| url.Path := "/alpha";
                  url.Query := {[ "key" := ["5ca1ab1e"] ]} |}
               (sample.start sample.registry).
Proof.
  refine (verifyRTMP_last_element (sample.start sample.registry)
            "/live/eu" "alpha" {[ "key" := ["5ca1ab1e"] ]} _ eq_refl).
  discriminate.
Defined.

(** X2: a verification only reads the store, and a failure of the store
    comes back as that failure, not as [ErrUserNotFound]. *)
Theorem verification_reads_and_reports w (u : url.URL) (channelID : string)
    (nonce provided : list byte) :
  db (snd (verifyRTMP u w)) = db w
  /\ db (snd (verifyFTL channelID nonce provided w)) = db w
  /\ (forall msg,
        outage (db w) = Some msg ->
        fst (verifyRTMP u w) = (channelAuth_zero, Some (PgError msg))
        /\ fst (verifyFTL channelID nonce provided w)
           = (None, Some (PgError msg))).
Proof.
  pose proof (verifyRTMP_run u w) as Hr. cbv zeta in Hr.
  pose proof (verifyFTL_run channelID nonce provided w) as Hf.
  split; [| split].
  - destruct (scanChannel (db w) "name" _) as [[auth k] [e |]];
      rewrite Hr; reflexivity.
  - destruct (scanChannel (db w) "ftl_id" _) as [[auth k] [e |]];
      cbv zeta in Hf; [rewrite Hf; reflexivity |].
    destruct (hmac.Equal _ provided); rewrite Hf; reflexivity.
  - intros msg Hout. unfold scanChannel in Hr, Hf. rewrite Hout in Hr, Hf.
    cbv zeta in Hf. rewrite Hr, Hf. split; reflexivity.
Qed.

Lemma verification_reads_and_reports_witness :
  fst (verifyRTMP (sample.publish "alpha" "5ca1ab1e")
         (sample.start
            {| channel_defs := [sample.alpha]; users := []; thumbs := [];
               now := 0; outage := Some "connection refused" |}))
  = (channelAuth_zero, Some (PgError "connection refused")).
Proof.
  exact (proj1 (proj2 (proj2 (verification_reads_and_reports
           (sample.start
              {| channel_defs := [sample.alpha]; users := []; thumbs := [];
                 now := 0; outage := Some "connection refused" |})
           (sample.publish "alpha" "5ca1ab1e") "77" [] []))
           "connection refused" eq_refl)).
Defined.

(** X3: the FTL verification writes a log line exactly when the channel is
    found and the digest differs; the line names the channel and holds
    neither the key nor a digest.  The RTMP verification writes none. *)
Theorem verifyFTL_logs_mismatch_only w (u : url.URL) (channelID : string)
    (nonce provided : list byte) :
  log_lines (added (verifyRTMP u) w) = []
  /\ (forall c rest,
        outage (db w) = None ->
        channels_with_ftl_id channelID (db w) = c :: rest ->
        (provided <> hmac.Sum (bytes_of (key c)) nonce ->
         log_lines (added (verifyFTL channelID nonce provided) w)
         = [("error: hmac digest mismatch for FTL channel %s", [name c])])
        /\ (provided = hmac.Sum (bytes_of (key c)) nonce ->
            log_lines (added (verifyFTL channelID nonce provided) w) = []))
  /\ (snd (scanChannel (db w) "ftl_id" channelID) <> None ->
      log_lines (added (verifyFTL channelID nonce provided) w) = []).
Proof.
  pose proof (verifyRTMP_run u w) as Hr. cbv zeta in Hr.
  pose proof (verifyFTL_run channelID nonce provided w) as Hf.
  split; [| split].
  - destruct (scanChannel (db w) "name" _) as [[auth k] [e |]];
      erewrite added_app by (rewrite Hr; reflexivity); reflexivity.
  - intros c rest Hup Hrows.
    rewrite (scanChannel_hit _ _ _ _ _ _ Hup column_ftl_id Hrows) in Hf.
    cbv zeta in Hf. split; intros Hprovided.
    + rewrite (proj2 (hmac_Equal_false _ provided)) in Hf by congruence.
      erewrite added_app by (rewrite Hf; reflexivity). reflexivity.
    + rewrite (proj2 (hmac_Equal_true _ provided)) in Hf by congruence.
      erewrite added_app by (rewrite Hf; reflexivity). reflexivity.
  - destruct (scanChannel (db w) "ftl_id" _) as [[auth k] [e |]];
      cbv zeta in Hf; cbn [snd]; [| contradiction].
    intros _. erewrite added_app by (rewrite Hf; reflexivity). reflexivity.
Qed.

Lemma verifyFTL_logs_mismatch_only_witness :
  log_lines (added (verifyFTL "77" sample.nonce (bytes_of "not a digest"))
                   (sample.start sample.registry))
  = [("error: hmac digest mismatch for FTL channel %s", ["alpha"])]
  /\ log_lines (added (verifyFTL "78" sample.nonce (bytes_of "not a digest"))
                      (sample.start sample.registry))
     = [].
Proof.
  pose proof (verifyFTL_logs_mismatch_only
                (sample.start sample.registry)
                (sample.publish "alpha" "5ca1ab1e") "77" sample.nonce
                (bytes_of "not a digest")) as H77.
  pose proof (verifyFTL_logs_mismatch_only
                (sample.start sample.registry)
                (sample.publish "alpha" "5ca1ab1e") "78" sample.nonce
                (bytes_of "not a digest")) as H78.
  split.
  - refine (proj1 (proj1 (proj2 H77) sample.alpha [] eq_refl eq_refl) _).
    intros Heq. apply (f_equal (@length byte)) in Heq.
    vm_compute in Heq. discriminate.
  - refine (proj2 (proj2 H78) _). vm_compute. discriminate.
Defined.

End IngestFurther.

(* ===================================================================== *)
(** ** Further properties of the registry *)
(* ===================================================================== *)

Section RegistryFurther.

Implicit Types (s : store) (w : world) (c : channel_defs_row).

Lemma named_head (n : string) (cs : list channel_defs_row) c rest :
  List.filter (fun c => bool_decide (Some (name c) = Some n)) cs = c :: rest ->
  name c = n.
Proof.
  intros H.
  assert (Hin : In c (List.filter
                        (fun c => bool_decide (Some (name c) = Some n)) cs))
    by (rewrite H; left; reflexivity).
  apply List.filter_In in Hin as [_ Hn].
  apply bool_decide_eq_true in Hn. congruence.
Qed.

Lemma named_after_update userID chname a (n : string)
    (cs : list channel_defs_row) :
  List.filter (fun c => bool_decide (Some (name c) = Some n))
    (List.map (update_row userID chname a) cs)
  = List.map (update_row userID chname a)
      (List.filter (fun c => bool_decide (Some (name c) = Some n)) cs).
Proof.
  rewrite List.filter_map_swap. f_equal. apply List.filter_ext.
  intros c. unfold update_row. destruct (targets userID chname c); reflexivity.
Qed.

Lemma named_after_delete_other userID chname (n : string)
    (cs : list channel_defs_row) :
  n <> chname ->
  List.filter (fun c => bool_decide (Some (name c) = Some n))
    (List.filter (fun c => negb (targets userID chname c)) cs)
  = List.filter (fun c => bool_decide (Some (name c) = Some n)) cs.
Proof.
  intros Hne. induction cs as [| c cs IH]; simpl; [reflexivity |].
  destruct (bool_decide (Some (name c) = Some n)) eqn:Hn.
  - pose proof (proj1 (bool_decide_eq_true _) Hn) as Hname.
    assert (Ht : targets userID chname c = false).
    { unfold targets. rewrite (bool_decide_eq_false_2 (name c = chname))
        by congruence. apply andb_false_r. }
    rewrite Ht. simpl. rewrite Hn, IH. reflexivity.
  - destruct (targets userID chname c); simpl; [exact IH |].
    rewrite Hn. exact IH.
Qed.

Lemma named_after_delete_own userID chname (cs : list channel_defs_row) :
  Forall (fun c => user_id c = userID)
    (List.filter (fun c => bool_decide (Some (name c) = Some chname)) cs) ->
  List.filter (fun c => bool_decide (Some (name c) = Some chname))
    (List.filter (fun c => negb (targets userID chname c)) cs) = [].
Proof.
  induction cs as [| c cs IH]; simpl; [reflexivity |].
  destruct (bool_decide (Some (name c) = Some chname)) eqn:Hn.
  - intros Hall. apply Forall_cons in Hall as [Hc Hall].
    apply bool_decide_eq_true in Hn.
    assert (Ht : targets userID chname c = true).
    { unfold targets. rewrite !bool_decide_eq_true_2 by congruence.
      reflexivity. }
    rewrite Ht. simpl. apply IH, Hall.
  - intros Hall. destruct (targets userID chname c); simpl; [apply IH, Hall |].
    rewrite Hn. apply IH, Hall.
Qed.

Lemma named_after_update_other userID chname a (n : string)
    (cs : list channel_defs_row) :
  n <> chname ->
  List.filter (fun c => bool_decide (Some (name c) = Some n))
    (List.map (update_row userID chname a) cs)
  = List.filter (fun c => bool_decide (Some (name c) = Some n)) cs.
Proof.
  intros Hne. rewrite named_after_update.
  induction cs as [| c cs IH]; simpl; [reflexivity |].
  destruct (bool_decide (Some (name c) = Some n)) eqn:Hn; [| exact IH].
  apply bool_decide_eq_true in Hn. simpl. rewrite IH. f_equal.
  unfold update_row, targets.
  rewrite (bool_decide_eq_false_2 (name c = chname)) by congruence.
  rewrite andb_false_r. reflexivity.
Qed.

(** The lookup by name depends on the rows with the name and on the
    preference rows. *)
Lemma scanChannel_by_name s s' (n : string) :
  outage s' = outage s -> users s' = users s ->
  channels_named n s' = channels_named n s ->
  scanChannel s' "name" n = scanChannel s "name" n.
Proof.
  intros Hout Husers Hrows. unfold scanChannel.
  rewrite Hout, Husers, column_name, !where_eq_left_join.
  unfold channels_named, channels_where in Hrows. rewrite Hrows. reflexivity.
Qed.

Lemma verifyRTMP_result (u : url.URL) w w' :
  scanChannel (db w') "name" (path.Base (url.Path u))
  = scanChannel (db w) "name" (path.Base (url.Path u)) ->
  fst (verifyRTMP u w') = fst (verifyRTMP u w).
Proof.
  intros Hscan.
  pose proof (verifyRTMP_run u w) as H. pose proof (verifyRTMP_run u w') as H'.
  cbv zeta in H, H'. rewrite Hscan in H'.
  destruct (scanChannel (db w) "name" _) as [[auth k] [e |]];
    rewrite H, H'; reflexivity.
Qed.

(** X4: after an owner has updated the flag of a channel, the combined
    lookup of the channel gives the new flag joined with the preference of
    the owner, and the key as it was. *)
Theorem update_then_lookup w (userID n : string) (a : bool) c rest o others :
  outage (db w) = None ->
  channels_named n (db w) = c :: rest ->
  user_id c = userID ->
  preferences_of userID (db w) = o :: others ->
  fst (updateChannel userID n a w) = None
  /\ fst (findChannel "name" n (snd (updateChannel userID n a w)))
     = ({| UserID := userID; gunk.Name := n;
           gunk.Announce := a && users_announce o |}, key c, None).
Proof.
  intros Hup Hrows Howner Hpref.
  pose proof (named_head _ _ _ _ Hrows) as Hname.
  assert (Htarget : targets userID n c = true).
  { unfold targets. rewrite !bool_decide_eq_true_2 by assumption.
    reflexivity. }
  rewrite (updateChannel_run w userID n a Hup). cbn [fst snd]. split.
  - destruct (targeted userID n (db w)) eqn:Hnone; [| reflexivity].
    assert (Hin : In c (targeted userID n (db w))).
    { apply List.filter_In. split; [| exact Htarget].
      assert (Hc : In c (channels_named n (db w)))
        by (rewrite Hrows; left; reflexivity).
      apply List.filter_In in Hc as [Hc _]. exact Hc. }
    rewrite Hnone in Hin. contradiction.
  - rewrite findChannel_run. cbn [fst db].
    erewrite scanChannel_hit; [| exact Hup | exact column_name |].
    2:{ unfold channels_where. cbn [channel_defs with_channel_defs].
        fold (update_row userID n a). rewrite named_after_update.
        unfold channels_named, channels_where in Hrows. rewrite Hrows.
        reflexivity. }
    unfold update_row. rewrite Htarget.
    unfold authorization, effective_announce, preferences_of.
    cbn [users with_channel_defs user_id name key announce set_announce].
    unfold preferences_of in Hpref. rewrite Howner, Hpref, Hname.
    cbn [head option_map]. destruct a, (users_announce o); reflexivity.
Qed.

Lemma update_then_lookup_witness :
  fst (findChannel "name" "alpha"
         (snd (updateChannel "1001" "alpha" false
                             (sample.start sample.registry))))
  = ({| UserID := "1001"; gunk.Name := "alpha"; gunk.Announce := false |},
     "5ca1ab1e", None).
Proof.
  exact (proj2 (update_then_lookup (sample.start sample.registry)
                  "1001" "alpha" false sample.alpha [] sample.owner []
                  eq_refl eq_refl eq_refl eq_refl)).
Defined.

(** X5: an update changes no owner, name, key or FTL identifier of any
    row, and neither the preferences nor the thumbnails. *)
Theorem update_keeps_identities w (userID n : string) (a : bool) :
  let s' := db (snd (updateChannel userID n a w)) in
  List.map user_id (channel_defs s') = List.map user_id (channel_defs (db w))
  /\ List.map name (channel_defs s') = List.map name (channel_defs (db w))
  /\ List.map key (channel_defs s') = List.map key (channel_defs (db w))
  /\ List.map ftl_id (channel_defs s') = List.map ftl_id (channel_defs (db w))
  /\ users s' = users (db w)
  /\ thumbs s' = thumbs (db w).
Proof.
  destruct (outage (db w)) as [msg |] eqn:Hout.
  - unfold updateChannel, exec_update, gunk.bind, gunk.emit, get_db,
      gunk.ret. cbn [db trace]. rewrite Hout. cbn [snd db].
    repeat split; reflexivity.
  - rewrite (updateChannel_run w userID n a Hout).
    cbn [snd db channel_defs users thumbs with_channel_defs].
    rewrite !List.map_map.
    repeat split; try reflexivity; apply List.map_ext; intros c;
      destruct (targets userID n c); reflexivity.
Qed.

(** X6: once an owner has deleted a channel, and no row of another owner
    has the name, a publish under that name fails with [ErrUserNotFound]
    whatever key it brings. *)
Theorem delete_then_verify w (userID n : string) (u : url.URL) :
  outage (db w) = None ->
  Forall (fun c => user_id c = userID) (channels_named n (db w)) ->
  path.Base (url.Path u) = n ->
  snd (fst (verifyRTMP u (snd (deleteChannel userID n w))))
  = Some ErrUserNotFound.
Proof.
  intros Hup Hown Hpath.
  rewrite (deleteChannel_run w userID n Hup). cbn [snd].
  match goal with |- context [verifyRTMP u ?w'] =>
    pose proof (verifyRTMP_run u w') as Hrun end.
  cbv zeta in Hrun. rewrite Hpath in Hrun. cbn [db] in Hrun.
  erewrite scanChannel_miss in Hrun; [| exact Hup | exact column_name |].
  - rewrite Hrun. reflexivity.
  - unfold channels_where. cbn [channel_defs with_channel_defs].
    apply named_after_delete_own, Hown.
Qed.

Lemma delete_then_verify_witness :
  snd (fst (verifyRTMP (sample.publish "alpha" "5ca1ab1e")
              (snd (deleteChannel "1001" "alpha"
                                  (sample.start sample.registry)))))
  = Some ErrUserNotFound.
Proof.
  refine (delete_then_verify (sample.start sample.registry) "1001" "alpha"
            (sample.publish "alpha" "5ca1ab1e") eq_refl _ eq_refl).
  repeat constructor.
Defined.

(** X7: an update or a delete of one channel leaves the verification of a
    publish under any other name as it was. *)
Theorem other_channels_unaffected w (userID n : string) (a : bool)
    (u : url.URL) :
  path.Base (url.Path u) <> n ->
  fst (verifyRTMP u (snd (updateChannel userID n a w)))
  = fst (verifyRTMP u w)
  /\ fst (verifyRTMP u (snd (deleteChannel userID n w)))
     = fst (verifyRTMP u w).
Proof.
  intros Hother. destruct (outage (db w)) as [msg |] eqn:Hout.
  - split; apply verifyRTMP_result;
      unfold updateChannel, deleteChannel, exec_update, exec_delete,
        gunk.bind, gunk.emit, get_db, gunk.ret; cbn [db trace];
      rewrite Hout; reflexivity.
  - rewrite (updateChannel_run w userID n a Hout).
    rewrite (deleteChannel_run w userID n Hout).
    split; apply verifyRTMP_result, scanChannel_by_name; try reflexivity;
      unfold channels_named, channels_where;
      cbn [snd db channel_defs with_channel_defs].
    + apply (named_after_update_other userID n a), Hother.
    + apply named_after_delete_other, Hother.
Qed.

Lemma other_channels_unaffected_witness :
  fst (verifyRTMP (sample.publish "beta" "0ddba11")
         (snd (deleteChannel "1001" "alpha" (sample.start sample.registry))))
  = fst (verifyRTMP (sample.publish "beta" "0ddba11")
           (sample.start sample.registry)).
Proof.
  refine (proj2 (other_channels_unaffected (sample.start sample.registry)
                   "1001" "alpha" true (sample.publish "beta" "0ddba11") _)).
  vm_compute. discriminate.
Defined.

Lemma hex_bytes_Encode (b : list byte) : hex_bytes (hex.Encode b) = b.
Proof.
  induction b as [| v b IH]; [reflexivity |].
  cbn [hex.Encode hex_bytes]. rewrite IH. f_equal.
  destruct v; vm_compute; reflexivity.
Qed.

Lemma hex_Encode_digits (b : list byte) :
  List.forallb is_hex_digit (hex.Encode b) = true.
Proof.
  induction b as [| v b IH]; [reflexivity |].
  cbn [hex.Encode List.forallb]. rewrite IH.
  destruct v; vm_compute; reflexivity.
Qed.

Lemma hex_Encode_length (b : list byte) :
  length (hex.Encode b) = (2 * length b)%nat.
Proof.
  induction b as [| v b IH]; [reflexivity |].
  cbn [hex.Encode length]. rewrite IH. lia.
Qed.

Lemma string_length_of_list (l : list ascii) :
  String.length (string_of_list_ascii l) = length l.
Proof.
  induction l as [| a l IH]; simpl; [reflexivity |]. rewrite IH. reflexivity.
Qed.

(** X8: the key of a created channel is the random bytes in hexadecimal:
    for 24 bytes it has 48 characters, all of them hexadecimal digits, and
    different bytes give different keys. *)
Theorem created_key_shape (b : list byte) ftl (userID n : string) s def s' :
  registry.createChannel (inl b) ftl userID n s = (inl def, s') ->
  length b = 24%nat ->
  registry.Key def = hex.EncodeToString b
  /\ String.length (registry.Key def) = 48%nat
  /\ List.forallb is_hex_digit (list_ascii_of_string (registry.Key def)) = true
  /\ (forall b', hex.EncodeToString b' = hex.EncodeToString b -> b' = b).
Proof.
  intros Hcreate Hlen. unfold registry.createChannel in Hcreate.
  destruct (outage s); [discriminate |].
  destruct (registry.name_taken n s); [discriminate |].
  injection Hcreate as <- _. cbn [registry.Key].
  unfold hex.EncodeToString. split; [reflexivity | split; [| split]].
  - rewrite string_length_of_list, hex_Encode_length, Hlen. reflexivity.
  - rewrite list_ascii_of_string_of_list_ascii. apply hex_Encode_digits.
  - intros b' Heq. apply (f_equal list_ascii_of_string) in Heq.
    rewrite !list_ascii_of_string_of_list_ascii in Heq.
    apply (f_equal hex_bytes) in Heq. rewrite !hex_bytes_Encode in Heq.
    exact Heq.
Qed.

Lemma created_key_shape_witness :
  String.length
    (hex.EncodeToString (repeat "*"%byte 24)) = 48%nat.
Proof.
  pose proof (created_key_shape (repeat "*"%byte 24) None "1003" "gamma"
                sample.registry _ _ eq_refl eq_refl) as H.
  exact (proj1 (proj2 H)).
Defined.

Lemma not_taken_not_named (n : string) (cs : list channel_defs_row) :
  List.existsb (fun c => bool_decide (name c = n)) cs = false ->
  List.filter (fun c => bool_decide (Some (name c) = Some n)) cs = [].
Proof.
  induction cs as [| c cs IH]; simpl; [reflexivity |].
  destruct (bool_decide (name c = n)) eqn:Hn; simpl; [discriminate |].
  apply bool_decide_eq_false in Hn.
  rewrite bool_decide_eq_false_2 by congruence. exact IH.
Qed.

Lemma created_channel_found s (b : list byte) ftl (userID n : string) :
  outage s = None ->
  registry.name_taken n s = false ->
  scanChannel (snd (registry.createChannel (inl b) ftl userID n s)) "name" n
  = ({| UserID := userID; gunk.Name := n;
        gunk.Announce := match preferences_of userID s with
                         | o :: _ => users_announce o
                         | [] => false
                         end |}, hex.EncodeToString b, None).
Proof.
  intros Hup Hfree. unfold registry.createChannel.
  rewrite Hup, Hfree. cbn [snd].
  erewrite scanChannel_hit; [| exact Hup | exact column_name |].
  2:{ unfold channels_where. cbn [channel_defs with_channel_defs].
      rewrite List.filter_app, (not_taken_not_named n _ Hfree).
      cbn [List.filter name app].
      rewrite bool_decide_eq_true_2 by reflexivity. reflexivity. }
  unfold authorization, effective_announce, preferences_of.
  cbn [users with_channel_defs user_id name key announce].
  destruct (List.filter _ (users s)) as [| o os]; cbn [head option_map];
    [reflexivity |]. destruct (users_announce o); reflexivity.
Qed.

(** X9: a channel created under a free name can publish at once: the
    verification of its name with the key that the creation returned
    succeeds for the creating owner, announced as the preference of the
    owner says. *)
Theorem create_then_verify s (b : list byte) ftl (userID n : string)
    (t : list gunk.event) (u : url.URL) :
  outage s = None ->
  registry.name_taken n s = false ->
  path.Base (url.Path u) = n ->
  url.Get (url.Query u) "key" = hex.EncodeToString b ->
  fst (registry.createChannel (inl b) ftl userID n s)
  = inl {| registry.Name := n; registry.Key := hex.EncodeToString b;
           registry.Announce := true; registry.RTMPDir := "";
           registry.RTMPBase := "" |}
  /\ fst (verifyRTMP u
            {| db := snd (registry.createChannel (inl b) ftl userID n s);
               trace := t |})
     = ({| UserID := userID; gunk.Name := n;
           gunk.Announce := match preferences_of userID s with
                            | o :: _ => users_announce o
                            | [] => false
                            end |}, None).
Proof.
  intros Hup Hfree Hpath Hkey. split.
  - unfold registry.createChannel. rewrite Hup, Hfree. reflexivity.
  - match goal with |- context [verifyRTMP u ?w'] =>
      pose proof (verifyRTMP_run u w') as Hrun end.
    cbv zeta in Hrun. rewrite Hpath in Hrun. cbn [db] in Hrun.
    rewrite (created_channel_found s b ftl userID n Hup Hfree) in Hrun.
    rewrite Hrun. cbn [fst]. rewrite Hkey.
    rewrite (proj2 (hmac_Equal_true _ _) eq_refl). reflexivity.
Qed.

Lemma create_then_verify_witness :
  fst (verifyRTMP
         (sample.publish "gamma" "2a2a2a2a2a2a2a2a2a2a2a2a2a2a2a2a2a2a2a2a2a2a2a2a")
         {| db := snd (registry.createChannel (inl (repeat "*"%byte 24)) None
                         "1001" "gamma" sample.registry);
            trace := [] |})
  = ({| UserID := "1001"; gunk.Name := "gamma"; gunk.Announce := true |}, None).
Proof.
  exact (proj2 (create_then_verify sample.registry (repeat "*"%byte 24) None
                  "1001" "gamma" []
                  (sample.publish "gamma"
                     "2a2a2a2a2a2a2a2a2a2a2a2a2a2a2a2a2a2a2a2a2a2a2a2a")
                  eq_refl eq_refl eq_refl eq_refl)).
Defined.

(** X10: whatever a creation does, it keeps the rows that were there, and
    when no two rows had one name no two rows have one name afterwards;
    a name that is in use gives the unique-violation error and leaves the
    store as it was. *)
Theorem create_keeps_names_unique (random : list byte + string) ftl
    (userID n : string) s :
  let s' := snd (registry.createChannel random ftl userID n s) in
  (exists extra, channel_defs s' = channel_defs s ++ extra)
  /\ (NoDup (List.map name (channel_defs s)) ->
      NoDup (List.map name (channel_defs s')))
  /\ (forall b,
        random = inl b -> outage s = None ->
        registry.name_taken n s = true ->
        registry.createChannel random ftl userID n s
        = (inr registry.UniqueViolation, s)).
Proof.
  unfold registry.createChannel.
  destruct random as [b | msg]; cbn [snd].
  2:{ split; [exists []; rewrite app_nil_r; reflexivity |].
      split; [auto | discriminate]. }
  destruct (outage s) as [msg |] eqn:Hout; cbn [snd].
  { split; [exists []; rewrite app_nil_r; reflexivity |].
    split; [auto | discriminate]. }
  destruct (registry.name_taken n s) eqn:Htaken; cbn [snd].
  { split; [exists []; rewrite app_nil_r; reflexivity |].
    split; [auto | reflexivity]. }
  cbn [channel_defs with_channel_defs].
  split; [eexists; reflexivity |]. split; [| discriminate].
  intros Hnodup. rewrite List.map_app. cbn [List.map name].
  apply NoDup_app. split; [exact Hnodup |]. split; [| apply NoDup_singleton].
  intros x Hx Hn. apply list_elem_of_In in Hx, Hn.
  destruct Hn as [<- | []].
  apply List.in_map_iff in Hx as (c & Hname & Hc).
  unfold registry.name_taken in Htaken.
  assert (Hex : List.existsb (fun c => bool_decide (name c = n))
                             (channel_defs s) = true).
  { apply List.existsb_exists. exists c. split; [exact Hc |].
    apply bool_decide_eq_true_2, Hname. }
  congruence.
Qed.

Lemma create_keeps_names_unique_witness :
  registry.createChannel (inl (repeat "*"%byte 24)) None "1002" "alpha"
                         sample.registry
  = (inr registry.UniqueViolation, sample.registry)
  /\ NoDup (List.map name
              (channel_defs
                 (snd (registry.createChannel (inl (repeat "*"%byte 24)) None
                         "1002" "gamma" sample.registry)))).
Proof.
  split.
  - exact (proj2 (proj2 (create_keeps_names_unique
                           (inl (repeat "*"%byte 24)) None "1002" "alpha"
                           sample.registry))
                 _ eq_refl eq_refl eq_refl).
  - refine (proj1 (proj2 (create_keeps_names_unique
                            (inl (repeat "*"%byte 24)) None "1002" "gamma"
                            sample.registry)) _).
    apply (bool_decide_unpack _). vm_compute. exact I.
Defined.

(** The loop of [getChannelDefs] in closed form: without a fault every row
    is read; a fault that shows while the rows last leaves the definitions
    of the rows before it next to the error. *)
Lemma scan_rows_all (rows : list channel_defs_row) : forall i defs,
  registry.scan_rows None i rows defs
  = (defs ++ List.map registry.scan_def rows, None).
Proof.
  induction rows as [| c rows IH]; intros i defs; cbn.
  - rewrite app_nil_r. reflexivity.
  - rewrite IH, <- app_assoc. reflexivity.
Qed.

Lemma scan_rows_ScanFails index msg (rows : list channel_defs_row) :
  forall i defs,
  (i <= index)%nat ->
  registry.scan_rows (Some (registry.ScanFails index msg)) i rows defs
  = if Nat.ltb (index - i) (length rows)
    then (defs ++ List.map registry.scan_def (firstn (index - i) rows),
          Some (PgError msg))
    else (defs ++ List.map registry.scan_def rows, None).
Proof.
  induction rows as [| c rows IH]; intros i defs Hi;
    cbn [registry.scan_rows registry.breaks_at registry.scan_fails_at].
  - cbn. rewrite app_nil_r. reflexivity.
  - destruct (Nat.eqb i index) eqn:Heq.
    + apply Nat.eqb_eq in Heq. subst i. rewrite Nat.sub_diag. cbn.
      rewrite app_nil_r. reflexivity.
    + apply Nat.eqb_neq in Heq. rewrite IH by lia.
      replace (index - i)%nat with (S (index - S i)) by lia.
      cbn [length firstn List.map].
      change (Nat.ltb (S (index - S i)) (S (length rows)))
        with (Nat.ltb (index - S i) (length rows)).
      rewrite <- !app_assoc. reflexivity.
Qed.

Lemma scan_rows_RowsErr index msg (rows : list channel_defs_row) :
  forall i defs,
  (i <= index)%nat ->
  registry.scan_rows (Some (registry.RowsErr index msg)) i rows defs
  = if Nat.leb (index - i) (length rows)
    then (defs ++ List.map registry.scan_def (firstn (index - i) rows),
          Some (PgError msg))
    else (defs ++ List.map registry.scan_def rows, None).
Proof.
  induction rows as [| c rows IH]; intros i defs Hi;
    cbn [registry.scan_rows registry.breaks_at registry.scan_fails_at];
    destruct (Nat.eqb i index) eqn:Heq.
  - apply Nat.eqb_eq in Heq. subst i. rewrite Nat.sub_diag. cbn.
    rewrite app_nil_r. reflexivity.
  - apply Nat.eqb_neq in Heq.
    replace (index - i)%nat with (S (index - S i)) by lia. cbn.
    rewrite app_nil_r. reflexivity.
  - apply Nat.eqb_eq in Heq. subst i. rewrite Nat.sub_diag. cbn.
    rewrite app_nil_r. reflexivity.
  - apply Nat.eqb_neq in Heq. rewrite IH by lia.
    replace (index - i)%nat with (S (index - S i)) by lia.
    cbn [length firstn List.map Nat.leb].
    rewrite <- !app_assoc. reflexivity.
Qed.

Lemma getChannelDefs_run userID s :
  outage s = None ->
  registry.getChannelDefs None userID s
  = (Some (List.map registry.scan_def
             (List.filter (fun c => bool_decide (user_id c = userID))
                          (channel_defs s))),
     None).
Proof.
  intros Hup. unfold registry.getChannelDefs.
  rewrite Hup, scan_rows_all. reflexivity.
Qed.

(** X11: the listing of an owner holds the channels of that owner and
    only those, with their names, keys and flags; after an update of a
    channel every listed channel of that name has the new flag, and after a
    delete no listed channel has the name. *)
Theorem listing_of_owner w (userID n : string) (a : bool) :
  outage (db w) = None ->
  (forall d,
      In d (default [] (fst (registry.getChannelDefs None userID (db w))))
      <-> exists c, In c (channel_defs (db w)) /\ user_id c = userID
                    /\ d = registry.scan_def c)
  /\ (forall d,
        In d (default [] (fst (registry.getChannelDefs None userID
                                 (db (snd (updateChannel userID n a w)))))) ->
        registry.Name d = n -> registry.Announce d = a)
  /\ (forall d,
        In d (default [] (fst (registry.getChannelDefs None userID
                                 (db (snd (deleteChannel userID n w)))))) ->
        registry.Name d <> n).
Proof.
  intros Hup.
  rewrite (updateChannel_run w userID n a Hup).
  rewrite (deleteChannel_run w userID n Hup).
  rewrite !getChannelDefs_run by exact Hup.
  cbn [snd db outage with_channel_defs].
  cbn [fst default from_option id channel_defs].
  split; [| split].
  - intros d. rewrite List.in_map_iff. split.
    + intros (c & <- & Hc). apply List.filter_In in Hc as [Hc Hown].
      apply bool_decide_eq_true in Hown. eauto.
    + intros (c & Hc & Hown & ->). exists c. split; [reflexivity |].
      apply List.filter_In. split; [exact Hc |].
      apply bool_decide_eq_true_2, Hown.
  - intros d Hd Hname. apply List.in_map_iff in Hd as (c' & <- & Hc').
    apply List.filter_In in Hc' as [Hc' Hown].
    apply List.in_map_iff in Hc' as (c & <- & Hc).
    apply bool_decide_eq_true in Hown.
    destruct (targets userID n c) eqn:Ht; [reflexivity |].
    cbn [registry.Name registry.Announce registry.scan_def] in *.
    unfold targets in Ht.
    rewrite !bool_decide_eq_true_2 in Ht by assumption. discriminate.
  - intros d Hd Hname. apply List.in_map_iff in Hd as (c & <- & Hc).
    apply List.filter_In in Hc as [Hc Hown].
    apply List.filter_In in Hc as [Hc Ht].
    apply bool_decide_eq_true in Hown.
    cbn [registry.Name registry.scan_def] in Hname.
    unfold targets in Ht.
    rewrite !bool_decide_eq_true_2 in Ht by assumption. discriminate.
Qed.

Lemma listing_of_owner_witness :
  fst (registry.getChannelDefs None "1001" sample.registry)
  = Some [{| registry.Name := "alpha"; registry.Key := "5ca1ab1e";
             registry.Announce := true; registry.RTMPDir := "";
             registry.RTMPBase := "" |}]
  /\ (forall d,
        In d (default [] (fst (registry.getChannelDefs None "1001"
                 (db (snd (deleteChannel "1001" "alpha"
                             (sample.start sample.registry))))))) ->
        registry.Name d <> "alpha").
Proof.
  split; [reflexivity |].
  exact (proj2 (proj2 (listing_of_owner (sample.start sample.registry)
                         "1001" "alpha" true eq_refl))).
Defined.

End RegistryFurther.

(* ===================================================================== *)
(** ** Further properties of the liveness directory *)
(* ===================================================================== *)

Section DirectoryFurther.

Implicit Types (s : store) (w : world) (r : thumbs_row).

Lemma refresh_name n d t r : thumbs_name (refresh n d t r) = thumbs_name r.
Proof. unfold refresh. destruct (bool_decide _); reflexivity. Qed.

Lemma thumbs_named_refresh n n' d t (rows : list thumbs_row) :
  thumbs_named n' (List.map (refresh n d t) rows)
  = List.map (refresh n d t) (thumbs_named n' rows).
Proof.
  unfold thumbs_named. rewrite List.filter_map_swap. f_equal.
  apply List.filter_ext. intros r. rewrite refresh_name. reflexivity.
Qed.

Lemma refresh_other n n' d t (rows : list thumbs_row) :
  n' <> n ->
  List.map (refresh n d t) (thumbs_named n' rows) = thumbs_named n' rows.
Proof.
  intros Hne. unfold thumbs_named.
  induction rows as [| r rows IH]; simpl; [reflexivity |].
  destruct (bool_decide (thumbs_name r = n')) eqn:Hr; [| exact IH].
  apply bool_decide_eq_true in Hr. simpl. rewrite IH. f_equal.
  unfold refresh. rewrite bool_decide_eq_false_2 by congruence. reflexivity.
Qed.

Lemma thumbs_named_none n (rows : list thumbs_row) :
  List.existsb (fun r => bool_decide (thumbs_name r = n)) rows = false ->
  thumbs_named n rows = [].
Proof.
  unfold thumbs_named. induction rows as [| r rows IH]; simpl; [reflexivity |].
  destruct (bool_decide (thumbs_name r = n)); simpl; [discriminate | exact IH].
Qed.

Lemma thumbs_named_some n (rows : list thumbs_row) :
  List.existsb (fun r => bool_decide (thumbs_name r = n)) rows = true ->
  exists r rest, thumbs_named n rows = r :: rest /\ thumbs_name r = n.
Proof.
  unfold thumbs_named. induction rows as [| r rows IH]; simpl; [discriminate |].
  destruct (bool_decide (thumbs_name r = n)) eqn:Hr; simpl.
  - intros _. apply bool_decide_eq_true in Hr. eauto.
  - exact IH.
Qed.

Lemma putThumb_run n d s :
  outage s = None ->
  registry.putThumb n d s =
  (None,
   registry.with_thumbs s
     (if List.existsb (fun r => bool_decide (thumbs_name r = n)) (thumbs s)
      then List.map (refresh n d (now s)) (thumbs s)
      else thumbs s ++ [{| thumbs_name := n; thumb := d; updated := now s |}])).
Proof.
  intros Hup. unfold registry.putThumb. rewrite Hup.
  destruct (List.existsb _ (thumbs s)); reflexivity.
Qed.

Lemma getThumb_run n s :
  outage s = None ->
  registry.getThumb n s =
  match thumbs_named n (thumbs s) with
  | [] => ([], Some ErrNoRows)
  | r :: _ => (thumb r, None)
  end.
Proof. intros Hup. unfold registry.getThumb. rewrite Hup. reflexivity. Qed.

(** X12: a thumbnail that was put under a name is the one that is got
    under the name; the thumbnails of the other names are as before, and
    when no two rows had one name no two rows have one name afterwards. *)
Theorem put_then_get s (n : string) (d : list byte) :
  outage s = None ->
  fst (registry.putThumb n d s) = None
  /\ registry.getThumb n (snd (registry.putThumb n d s)) = (d, None)
  /\ (forall n',
        n' <> n ->
        registry.getThumb n' (snd (registry.putThumb n d s))
        = registry.getThumb n' s)
  /\ (NoDup (List.map thumbs_name (thumbs s)) ->
      NoDup (List.map thumbs_name (thumbs (snd (registry.putThumb n d s))))).
Proof.
  intros Hup. rewrite (putThumb_run n d s Hup). cbn [fst snd].
  split; [reflexivity |].
  rewrite !getThumb_run by exact Hup.
  cbn [thumbs registry.with_thumbs].
  destruct (List.existsb _ (thumbs s)) eqn:Hex.
  - split; [| split].
    + rewrite thumbs_named_refresh.
      destruct (thumbs_named_some n _ Hex) as (r & rest & -> & Hr).
      cbn [List.map]. unfold refresh.
      rewrite bool_decide_eq_true_2 by exact Hr. reflexivity.
    + intros n' Hne. rewrite !getThumb_run by exact Hup.
      cbn [thumbs registry.with_thumbs].
      rewrite thumbs_named_refresh, refresh_other by exact Hne. reflexivity.
    + intros Hnodup. rewrite List.map_map.
      erewrite List.map_ext; [exact Hnodup |].
      intros r. apply refresh_name.
  - split; [| split].
    + unfold thumbs_named. rewrite List.filter_app.
      fold (thumbs_named n (thumbs s)). rewrite (thumbs_named_none n _ Hex).
      cbn [List.filter thumbs_name app].
      rewrite bool_decide_eq_true_2 by reflexivity. reflexivity.
    + intros n' Hne. rewrite !getThumb_run by exact Hup.
      cbn [thumbs registry.with_thumbs].
      unfold thumbs_named. rewrite List.filter_app.
      cbn [List.filter thumbs_name].
      rewrite bool_decide_eq_false_2 by congruence.
      rewrite app_nil_r. reflexivity.
    + intros Hnodup. rewrite List.map_app. cbn [List.map thumbs_name].
      apply NoDup_app. split; [exact Hnodup |].
      split; [| apply NoDup_singleton].
      intros x Hx Hn. apply list_elem_of_In in Hx, Hn.
      destruct Hn as [<- | []].
      apply List.in_map_iff in Hx as (r & Hname & Hr).
      rewrite <- Hname in Hex.
      assert (Hsame : List.existsb
                        (fun r0 => bool_decide (thumbs_name r0 = thumbs_name r))
                        (thumbs s) = true).
      { apply List.existsb_exists. exists r. split; [exact Hr |].
        apply bool_decide_eq_true_2. reflexivity. }
      congruence.
Qed.

Lemma put_then_get_witness :
  registry.getThumb "A"
    (snd (registry.putThumb "A" (bytes_of "jpeg")
            (sample.directory [sample.live "A" (seconds 90)])))
  = (bytes_of "jpeg", None)
  /\ registry.getThumb "B"
       (snd (registry.putThumb "A" (bytes_of "jpeg")
               (sample.directory [sample.live "A" (seconds 90)])))
     = ([], Some ErrNoRows).
Proof.
  pose proof (put_then_get (sample.directory [sample.live "A" (seconds 90)])
                "A" (bytes_of "jpeg") eq_refl) as H.
  split; [exact (proj1 (proj2 H)) |].
  refine (eq_trans (proj1 (proj2 (proj2 H)) "B" _) eq_refl). discriminate.
Defined.

Lemma staleness_floor t r : minute <= staleness t r.
Proof. unfold staleness. lia. Qed.

Lemma putThumb_row n d s :
  outage s = None ->
  exists r, In r (thumbs (snd (registry.putThumb n d s)))
            /\ thumbs_name r = n /\ updated r = now s.
Proof.
  intros Hup. rewrite (putThumb_run n d s Hup).
  cbn [snd thumbs registry.with_thumbs].
  destruct (List.existsb _ (thumbs s)) eqn:Hex.
  - apply List.existsb_exists in Hex as (r & Hr & Hname).
    apply bool_decide_eq_true in Hname.
    exists (refresh n d (now s) r). split; [apply List.in_map, Hr |].
    unfold refresh. rewrite bool_decide_eq_true_2 by exact Hname.
    split; [exact Hname | reflexivity].
  - eexists. split; [apply List.in_or_app; right; left; reflexivity |].
    split; reflexivity.
Qed.

Lemma putThumb_keeps n d s r :
  outage s = None ->
  In r (thumbs s) -> thumbs_name r <> n ->
  In r (thumbs (snd (registry.putThumb n d s))).
Proof.
  intros Hup Hr Hname. rewrite (putThumb_run n d s Hup).
  cbn [snd thumbs registry.with_thumbs].
  destruct (List.existsb _ (thumbs s)).
  - apply List.in_map_iff. exists r. split; [| exact Hr].
    unfold refresh. rewrite bool_decide_eq_false_2 by exact Hname.
    reflexivity.
  - apply List.in_or_app. left. exact Hr.
Qed.

Lemma putThumb_names_unique n d s :
  outage s = None ->
  NoDup (List.map thumbs_name (thumbs s)) ->
  NoDup (List.map thumbs_name (thumbs (snd (registry.putThumb n d s)))).
Proof.
  intros Hup Hnodup. rewrite (putThumb_run n d s Hup).
  cbn [snd thumbs registry.with_thumbs].
  destruct (List.existsb _ (thumbs s)) eqn:Hex.
  - rewrite List.map_map. erewrite List.map_ext; [exact Hnodup |].
    intros r. apply refresh_name.
  - rewrite List.map_app. cbn [List.map thumbs_name].
    apply NoDup_app. split; [exact Hnodup |].
    split; [| apply NoDup_singleton].
    intros x Hx Hn. apply list_elem_of_In in Hx, Hn.
    destruct Hn as [<- | []].
    apply List.in_map_iff in Hx as (r & Hname & Hr).
    assert (Hsame : List.existsb
                      (fun r0 => bool_decide (thumbs_name r0 = n))
                      (thumbs s) = true).
    { apply List.existsb_exists. exists r. split; [exact Hr |].
      apply bool_decide_eq_true_2, Hname. }
    congruence.
Qed.

Lemma leb_antisym (s1 s2 : string) :
  String.leb s1 s2 = true -> String.leb s2 s1 = true -> s1 = s2.
Proof.
  intros H12 H21. apply leb_le in H12 as [Hlt | Heq]; [| exact Heq].
  apply ltb_not_leb in Hlt. congruence.
Qed.

(** X13: a channel whose thumbnail has just been put is in the listing,
    and the floor of one minute decides its place: the channels listed
    ahead of it have a name that is not greater; every other channel that
    was refreshed within the last minute and has a name that is not greater
    is listed ahead of it, however long ago within the minute that was;
    every channel that is older than a minute is listed after it; and when
    no two liveness records had one name, no name is listed twice, so that
    the channels ahead of it are exactly those. *)
Theorem refreshed_channel_listed s (n : string) (d : list byte)
    (t : list gunk.event) :
  outage s = None ->
  exists before after,
    List.map info_Name
      (fst (fst (listChannels
                   {| db := snd (registry.putThumb n d s); trace := t |})))
    = before ++ n :: after
    /\ Forall (fun m => String.leb m n = true) before
    /\ (forall r,
          In r (thumbs s) -> thumbs_name r <> n ->
          now s - updated r <= minute ->
          String.leb (thumbs_name r) n = true ->
          In (thumbs_name r) before)
    /\ (forall r,
          In r (thumbs s) -> thumbs_name r <> n ->
          minute < now s - updated r ->
          In (thumbs_name r) after)
    /\ (NoDup (List.map thumbs_name (thumbs s)) ->
        NoDup (before ++ n :: after)).
Proof.
  intros Hup.
  destruct (putThumb_row n d s Hup) as (r & Hr & Hname & Hupdated).
  assert (Hup' : outage (snd (registry.putThumb n d s)) = None)
    by (rewrite (putThumb_run n d s Hup); exact Hup).
  assert (Hnow : now (snd (registry.putThumb n d s)) = now s)
    by (rewrite (putThumb_run n d s Hup); reflexivity).
  pose proof (putThumb_keeps n d s) as Hkeeps.
  pose proof (putThumb_names_unique n d s Hup) as Hunique.
  set (s' := snd (registry.putThumb n d s)) in *.
  rewrite (listChannels_run {| db := s'; trace := t |} Hup'). cbn [fst db].
  rewrite Hnow.
  set (rows := merge_sort (order_by (now s)) (thumbs s')).
  assert (Hsorted : StronglySorted (order_by (now s)) rows)
    by (apply StronglySorted_merge_sort;
        [apply order_by_trans | apply order_by_total]).
  assert (Hperm : rows ≡ₚ thumbs s') by apply merge_sort_Permutation.
  assert (Hin : r ∈ rows)
    by (rewrite Hperm; apply list_elem_of_In, Hr).
  apply list_elem_of_split in Hin as (l1 & l2 & Hsplit).
  assert (Hr_stale : staleness (now s) r = minute)
    by (unfold staleness, minute; rewrite Hupdated; lia).
  assert (Hahead : forall r1, In r1 l1 -> order_by (now s) r1 r).
  { intros r1 Hr1. rewrite Hsplit in Hsorted.
    apply (StronglySorted_app_1_elem_of _ _ _ _ _ Hsorted).
    - apply list_elem_of_In, Hr1.
    - left. }
  assert (Hbehind : forall r2, In r2 l2 -> order_by (now s) r r2).
  { intros r2 Hr2. rewrite Hsplit in Hsorted.
    apply StronglySorted_app_1_r in Hsorted.
    apply StronglySorted_inv in Hsorted as [_ Hall].
    rewrite List.Forall_forall in Hall. apply Hall, Hr2. }
  assert (Hplace : forall r', In r' (thumbs s) -> thumbs_name r' <> n ->
                              In r' l1 \/ In r' l2).
  { intros r' Hr' Hother.
    assert (Hrows : r' ∈ rows)
      by (rewrite Hperm; apply list_elem_of_In, Hkeeps; assumption).
    rewrite Hsplit in Hrows. apply list_elem_of_In in Hrows.
    apply List.in_app_or in Hrows as [H1 | [Heq | H2]]; auto.
    congruence. }
  exists (List.map thumbs_name l1), (List.map thumbs_name l2).
  assert (Hnames : List.map info_Name (List.map scan_info rows)
                   = List.map thumbs_name l1 ++ n :: List.map thumbs_name l2).
  { rewrite Hsplit, !List.map_map, List.map_app.
    cbn [List.map scan_info info_Name]. rewrite Hname. reflexivity. }
  split; [exact Hnames |]. split; [| split; [| split]].
  - apply Forall_forall. intros m Hm.
    apply list_elem_of_In, List.in_map_iff in Hm as (r1 & <- & Hr1).
    pose proof (staleness_floor (now s) r1) as Hfloor.
    destruct (Hahead r1 Hr1) as [Hlt | [_ Hle]]; [lia |].
    rewrite <- Hname. exact Hle.
  - intros r' Hr' Hother Hrecent Hle.
    destruct (Hplace r' Hr' Hother) as [H1 | H2];
      [apply List.in_map, H1 |].
    exfalso.
    assert (Hstale : staleness (now s) r' = minute)
      by (unfold staleness; lia).
    destruct (Hbehind r' H2) as [Hlt | [_ Hge]]; [lia |].
    rewrite Hname in Hge. apply Hother, leb_antisym; assumption.
  - intros r' Hr' Hother Hold.
    destruct (Hplace r' Hr' Hother) as [H1 | H2];
      [| apply List.in_map, H2].
    exfalso.
    assert (Hstale : minute < staleness (now s) r')
      by (unfold staleness; lia).
    destruct (Hahead r' H1) as [Hlt | [Heq _]]; lia.
  - intros Hnodup. rewrite <- Hnames, List.map_map.
    cbn [scan_info info_Name].
    change (NoDup (thumbs_name <$> rows)). rewrite Hperm.
    apply Hunique, Hnodup.
Qed.

Lemma refreshed_channel_listed_witness :
  exists before after,
    List.map info_Name
      (fst (fst (listChannels
                   {| db := snd (registry.putThumb "M" (bytes_of "jpeg")
                                   (sample.directory
                                      [sample.live "Z" (seconds 30);
                                       sample.live "M" (seconds 300);
                                       sample.live "B" (seconds 20);
                                       sample.live "A" (seconds 90)]));
                      trace := [] |})))
    = before ++ "M" :: after
    /\ In "B" before /\ In "A" after /\ NoDup (before ++ "M" :: after).
Proof.
  destruct (refreshed_channel_listed
              (sample.directory
                 [sample.live "Z" (seconds 30);
                  sample.live "M" (seconds 300);
                  sample.live "B" (seconds 20);
                  sample.live "A" (seconds 90)])
              "M" (bytes_of "jpeg") [] eq_refl)
    as (before & after & Hlist & _ & Hrecent & Hold & Hunique).
  exists before, after. split; [exact Hlist |]. split; [| split].
  - apply (Hrecent (sample.live "B" (seconds 20)));
      [simpl; tauto | discriminate | vm_compute; discriminate | reflexivity].
  - apply (Hold (sample.live "A" (seconds 90)));
      [simpl; tauto | discriminate | reflexivity].
  - apply Hunique. apply (bool_decide_unpack _). vm_compute. exact I.
Defined.

Lemma int64_small (z : Z) : - 2 ^ 63 <= z < 2 ^ 63 -> int64 z = z.
Proof. intros H. unfold int64. rewrite Z.mod_small by lia. lia. Qed.

(** X14: the time of a listed channel is its update time in milliseconds
    since the epoch, rounded towards zero, as long as its nanoseconds fit
    an [int64]; every listed channel is a liveness record. *)
Theorem listing_in_milliseconds w :
  outage (db w) = None ->
  Forall (fun r => fits_int64_nanoseconds (updated r)) (thumbs (db w)) ->
  Forall (fun i => exists r,
              In r (thumbs (db w))
              /\ info_Name i = thumbs_name r
              /\ Last i = Z.quot (updated r) 1000)
         (fst (fst (listChannels w))).
Proof.
  intros Hup Hfits. rewrite (listChannels_run w Hup). cbn [fst].
  apply Forall_forall. intros i Hi.
  apply list_elem_of_In, List.in_map_iff in Hi as (r & <- & Hr).
  apply list_elem_of_In in Hr. rewrite merge_sort_Permutation in Hr.
  exists r. split; [apply list_elem_of_In, Hr |]. split; [reflexivity |].
  rewrite Forall_forall in Hfits. specialize (Hfits r Hr).
  cbn [Last scan_info]. unfold UnixNano.
  rewrite int64_small by exact Hfits.
  change 1000000 with (1000 * 1000).
  apply Z.quot_mul_cancel_r; lia.
Qed.

Lemma listing_in_milliseconds_witness :
  Forall (fun i => exists r,
              In r [sample.live "A" 1234567]
              /\ info_Name i = thumbs_name r
              /\ Last i = Z.quot (updated r) 1000)
         (fst (fst (listChannels
                      (sample.start
                         (sample.directory [sample.live "A" 1234567]))))).
Proof.
  refine (listing_in_milliseconds
            (sample.start (sample.directory [sample.live "A" 1234567]))
            eq_refl _).
  apply Forall_cons. split; [| apply Forall_nil; exact I].
  unfold fits_int64_nanoseconds. cbn [updated sample.live].
  unfold sample.noon. lia.
Defined.

End DirectoryFurther.

(* ===================================================================== *)
(** ** Properties of the handlers of the owner's channels *)
(* ===================================================================== *)

Section Handlers.

Implicit Types (s : handlers.gunkServer) (req : handlers.Request) (w : world).
Implicit Types (Unmarshal : list byte -> bool + string).

Lemma checkAuth_run s req w :
  handlers.checkAuth s req w =
  match handlers.unseal s req (handlers.loginCookie s) with
  | inl info => ((handlers.ID info, []), w)
  | inr _ =>
      (("", [handlers.HttpError "not authorized" 401]),
       {| db := db w;
          trace := trace w ++
            [gunk.LogPrintf "error: authentication failed for %s to %s"
               [handlers.RemoteAddr req; handlers.URL req]] |})
  end.
Proof.
  unfold handlers.checkAuth.
  destruct (handlers.unseal s req (handlers.loginCookie s)); reflexivity.
Qed.

(** X15: without a user the handlers of an update and of a delete send no
    statement to the store and leave it as it is.  A session cookie that is
    absent or does not open is answered with 401; a session whose user
    identifier is empty is answered with nothing at all. *)
Theorem owner_handlers_need_user Unmarshal s req w :
  (forall err,
      handlers.unseal s req (handlers.loginCookie s) = inr err ->
      fst (handlers.viewDefsUpdate Unmarshal s req w)
      = [handlers.HttpError "not authorized" 401]
      /\ fst (handlers.viewDefsDelete s req w)
         = [handlers.HttpError "not authorized" 401]
      /\ db (snd (handlers.viewDefsUpdate Unmarshal s req w)) = db w
      /\ db (snd (handlers.viewDefsDelete s req w)) = db w
      /\ round_trips (added (handlers.viewDefsUpdate Unmarshal s req) w) = 0%nat
      /\ round_trips (added (handlers.viewDefsDelete s req) w) = 0%nat)
  /\ (forall info,
        handlers.unseal s req (handlers.loginCookie s) = inl info ->
        handlers.ID info = "" ->
        handlers.viewDefsUpdate Unmarshal s req w = ([], w)
        /\ handlers.viewDefsDelete s req w = ([], w)).
Proof.
  split.
  - intros err Herr.
    assert (Hu : handlers.viewDefsUpdate Unmarshal s req w
                 = ([handlers.HttpError "not authorized" 401],
                    {| db := db w;
                       trace := trace w ++
                         [gunk.LogPrintf
                            "error: authentication failed for %s to %s"
                            [handlers.RemoteAddr req; handlers.URL req]] |})).
    { unfold handlers.viewDefsUpdate, gunk.bind.
      rewrite checkAuth_run, Herr. reflexivity. }
    assert (Hd : handlers.viewDefsDelete s req w
                 = ([handlers.HttpError "not authorized" 401],
                    {| db := db w;
                       trace := trace w ++
                         [gunk.LogPrintf
                            "error: authentication failed for %s to %s"
                            [handlers.RemoteAddr req; handlers.URL req]] |})).
    { unfold handlers.viewDefsDelete, gunk.bind.
      rewrite checkAuth_run, Herr. reflexivity. }
    repeat split; try (rewrite Hu; reflexivity); try (rewrite Hd; reflexivity).
    + erewrite added_app by (rewrite Hu; reflexivity). reflexivity.
    + erewrite added_app by (rewrite Hd; reflexivity). reflexivity.
  - intros info Hinfo Hempty. split.
    + unfold handlers.viewDefsUpdate, gunk.bind.
      rewrite checkAuth_run, Hinfo, Hempty. reflexivity.
    + unfold handlers.viewDefsDelete, gunk.bind.
      rewrite checkAuth_run, Hinfo, Hempty. reflexivity.
Qed.

Lemma owner_handlers_need_user_witness :
  fst (handlers.viewDefsDelete sample_owner.gunk_server
         (sample_owner.request ∅ "alpha" [])
         (sample.start sample.registry))
  = [handlers.HttpError "not authorized" 401]
  /\ handlers.viewDefsDelete sample_owner.gunk_server
       (sample_owner.request {[ "login" := "sealed:" ]} "alpha" [])
       (sample.start sample.registry)
     = ([], sample.start sample.registry).
Proof.
  split.
  - exact (proj1 (proj2 (proj1
             (owner_handlers_need_user sample_owner.decode
                sample_owner.gunk_server
                (sample_owner.request ∅ "alpha" [])
                (sample.start sample.registry)) _ eq_refl))).
  - exact (proj2 (proj2
             (owner_handlers_need_user sample_owner.decode
                sample_owner.gunk_server
                (sample_owner.request {[ "login" := "sealed:" ]} "alpha" [])
                (sample.start sample.registry)) _ eq_refl eq_refl)).
Defined.

(** X16: the answers of an update by a user.  A body that cannot be read
    is answered with 500 and one that does not decode with 400, both
    without a statement to the store; an update that targets no row of the
    user, as for a channel of another owner, is answered with 500 and an
    empty body and changes nothing; an update that targets a row is
    answered with an empty JSON object. *)
Theorem viewDefsUpdate_answers Unmarshal s req w info :
  handlers.unseal s req (handlers.loginCookie s) = inl info ->
  handlers.ID info <> "" ->
  let userID := handlers.ID info in
  let chname := handlers.route_var req "name" in
  (forall err,
      handlers.Body req = inr err ->
      fst (handlers.viewDefsUpdate Unmarshal s req w)
      = [handlers.HttpError "" 500]
      /\ db (snd (handlers.viewDefsUpdate Unmarshal s req w)) = db w
      /\ round_trips (added (handlers.viewDefsUpdate Unmarshal s req) w)
         = 0%nat)
  /\ (forall blob err,
        handlers.Body req = inl blob -> Unmarshal blob = inr err ->
        fst (handlers.viewDefsUpdate Unmarshal s req w)
        = [handlers.HttpError "invalid JSON in request" 400]
        /\ db (snd (handlers.viewDefsUpdate Unmarshal s req w)) = db w
        /\ round_trips (added (handlers.viewDefsUpdate Unmarshal s req) w)
           = 0%nat)
  /\ (forall blob a,
        handlers.Body req = inl blob -> Unmarshal blob = inl a ->
        outage (db w) = None ->
        (targeted userID chname (db w) = [] ->
         fst (handlers.viewDefsUpdate Unmarshal s req w)
         = [handlers.HttpError "" 500]
         /\ channel_defs (db (snd (handlers.viewDefsUpdate Unmarshal s req w)))
            = channel_defs (db w))
        /\ (targeted userID chname (db w) <> [] ->
            fst (handlers.viewDefsUpdate Unmarshal s req w)
            = [handlers.SetHeader "Content-Type" "application/json";
               handlers.Write "{}"]
            /\ channel_defs
                 (db (snd (handlers.viewDefsUpdate Unmarshal s req w)))
               = List.map (update_row userID chname a)
                          (channel_defs (db w)))).
Proof.
  intros Hinfo Hid userID chname.
  assert (Hstart : forall k,
             handlers.viewDefsUpdate Unmarshal s req w
             = k ->
             (let (p, w') := handlers.parseRequest Unmarshal req w in
              match p with
              | (None, out') => ([] ++ out', w')
              | (Some du, out') =>
                  let (err, w'') := updateChannel userID chname du w' in
                  match err with
                  | Some e =>
                      ([] ++ out' ++ [handlers.HttpError "" 500],
                       {| db := db w'';
                          trace := trace w'' ++
                            [gunk.LogPrintf
                               "error: updating channel %q for %s: %s"
                               [chname; handlers.RemoteAddr req;
                                handlers.Error e]] |})
                  | None =>
                      ([] ++ out' ++
                       [handlers.SetHeader "Content-Type" "application/json";
                        handlers.Write "{}"], w'')
                  end
              end) = k).
  { intros k <-. unfold handlers.viewDefsUpdate, gunk.bind at 1.
    rewrite checkAuth_run, Hinfo.
    rewrite bool_decide_eq_false_2 by exact Hid.
    unfold gunk.bind at 1. fold userID chname.
    destruct (handlers.parseRequest Unmarshal req w) as [[[du |] out'] w'];
      [| reflexivity].
    unfold gunk.bind at 1.
    destruct (updateChannel userID chname du w') as [[e |] w''];
      reflexivity. }
  specialize (Hstart _ eq_refl).
  split; [| split].
  - intros err Hbody. unfold handlers.parseRequest in Hstart.
    rewrite Hbody in Hstart. cbn in Hstart.
    repeat split; try (rewrite <- Hstart; reflexivity).
    erewrite added_app by (rewrite <- Hstart; reflexivity). reflexivity.
  - intros blob err Hbody Hbad. unfold handlers.parseRequest in Hstart.
    rewrite Hbody, Hbad in Hstart. cbn in Hstart.
    repeat split; try (rewrite <- Hstart; reflexivity).
    erewrite added_app by (rewrite <- Hstart; reflexivity). reflexivity.
  - intros blob a Hbody Hgood Hup. unfold handlers.parseRequest in Hstart.
    rewrite Hbody, Hgood in Hstart. cbn [gunk.ret] in Hstart.
    rewrite (updateChannel_run w userID chname a Hup) in Hstart.
    split; intros Htargets.
    + rewrite Htargets in Hstart. rewrite <- Hstart.
      cbn [fst snd db channel_defs with_channel_defs app].
      split; [reflexivity |]. apply update_untargeted, Htargets.
    + destruct (targeted userID chname (db w)); [contradiction |].
      rewrite <- Hstart. split; reflexivity.
Qed.

Lemma viewDefsUpdate_answers_witness :
  fst (handlers.viewDefsUpdate sample_owner.decode sample_owner.gunk_server
         (sample_owner.request {[ "login" := "sealed:1001" ]} "beta"
            (bytes_of (sample_owner.document "false")))
         (sample.start sample.registry))
  = [handlers.HttpError "" 500]
  /\ fst (handlers.viewDefsUpdate sample_owner.decode sample_owner.gunk_server
            (sample_owner.request {[ "login" := "sealed:1001" ]} "alpha"
               (bytes_of (sample_owner.document "false")))
            (sample.start sample.registry))
     = [handlers.SetHeader "Content-Type" "application/json";
        handlers.Write "{}"]
  /\ fst (handlers.viewDefsUpdate sample_owner.decode sample_owner.gunk_server
            (sample_owner.request {[ "login" := "sealed:1001" ]} "alpha"
               (bytes_of "{}{"))
            (sample.start sample.registry))
     = [handlers.HttpError "invalid JSON in request" 400].
Proof.
  split; [| split].
  - refine (proj1 (proj1 (proj2 (proj2
             (viewDefsUpdate_answers sample_owner.decode
                sample_owner.gunk_server
                (sample_owner.request {[ "login" := "sealed:1001" ]} "beta"
                   (bytes_of (sample_owner.document "false")))
                (sample.start sample.registry) _ eq_refl _))
             _ false eq_refl eq_refl eq_refl) eq_refl)).
    discriminate.
  - refine (proj1 (proj2 (proj2 (proj2
             (viewDefsUpdate_answers sample_owner.decode
                sample_owner.gunk_server
                (sample_owner.request {[ "login" := "sealed:1001" ]} "alpha"
                   (bytes_of (sample_owner.document "false")))
                (sample.start sample.registry) _ eq_refl _))
             _ false eq_refl eq_refl eq_refl) _)).
    + discriminate.
    + discriminate.
  - refine (proj1 (proj1 (proj2
             (viewDefsUpdate_answers sample_owner.decode
                sample_owner.gunk_server
                (sample_owner.request {[ "login" := "sealed:1001" ]} "alpha"
                   (bytes_of "{}{"))
                (sample.start sample.registry) _ eq_refl _))
             _ _ eq_refl eq_refl)).
    discriminate.
Defined.

(** X17: the answers of a delete by a user.  When the store answers, the
    reply is an empty JSON object whether or not a row was deleted, and no
    row of the user with the name is left; when the store fails, the
    failure is logged and nothing is written to the response. *)
Theorem viewDefsDelete_answers s req w info :
  handlers.unseal s req (handlers.loginCookie s) = inl info ->
  handlers.ID info <> "" ->
  let userID := handlers.ID info in
  let chname := handlers.route_var req "name" in
  (outage (db w) = None ->
   fst (handlers.viewDefsDelete s req w)
   = [handlers.SetHeader "Content-Type" "application/json";
      handlers.Write "{}"]
   /\ targeted userID chname (db (snd (handlers.viewDefsDelete s req w))) = [])
  /\ (forall msg,
        outage (db w) = Some msg ->
        fst (handlers.viewDefsDelete s req w) = []
        /\ log_lines (added (handlers.viewDefsDelete s req) w)
           = [("error: deleting channel %q for %s: %s",
               [chname; handlers.RemoteAddr req; msg])]
        /\ db (snd (handlers.viewDefsDelete s req w)) = db w).
Proof.
  intros Hinfo Hid userID chname.
  assert (Hstart : handlers.viewDefsDelete s req w
                   = let (err, w') := deleteChannel userID chname w in
                     match err with
                     | Some e =>
                         ([],
                          {| db := db w';
                             trace := trace w' ++
                               [gunk.LogPrintf
                                  "error: deleting channel %q for %s: %s"
                                  [chname; handlers.RemoteAddr req;
                                   handlers.Error e]] |})
                     | None =>
                         ([handlers.SetHeader "Content-Type" "application/json";
                           handlers.Write "{}"], w')
                     end).
  { unfold handlers.viewDefsDelete, gunk.bind at 1.
    rewrite checkAuth_run, Hinfo.
    rewrite bool_decide_eq_false_2 by exact Hid.
    unfold gunk.bind at 1. fold userID chname.
    destruct (deleteChannel userID chname w) as [[e |] w']; reflexivity. }
  split.
  - intros Hup. rewrite (deleteChannel_run w userID chname Hup) in Hstart.
    rewrite Hstart. split; [reflexivity |]. apply delete_targeted.
  - intros msg Hout.
    assert (Hdel : deleteChannel userID chname w
                   = (Some (PgError msg),
                      {| db := db w;
                         trace := trace w ++ [DB (DeleteChannel userID chname)] |})).
    { unfold deleteChannel, exec_delete, gunk.bind, gunk.emit, get_db,
        gunk.ret. cbn [db trace]. rewrite Hout. reflexivity. }
    rewrite Hdel in Hstart. rewrite Hstart. cbn [fst snd db trace].
    split; [reflexivity |]. split; [| reflexivity].
    erewrite added_app
      by (rewrite Hstart; cbn [snd trace]; rewrite <- app_assoc; reflexivity).
    reflexivity.
Qed.

Lemma viewDefsDelete_answers_witness :
  fst (handlers.viewDefsDelete sample_owner.gunk_server
         (sample_owner.request {[ "login" := "sealed:1001" ]} "beta" [])
         (sample.start sample.registry))
  = [handlers.SetHeader "Content-Type" "application/json";
     handlers.Write "{}"].
Proof.
  refine (proj1 (proj1
            (viewDefsDelete_answers sample_owner.gunk_server
               (sample_owner.request {[ "login" := "sealed:1001" ]} "beta" [])
               (sample.start sample.registry) _ eq_refl _) eq_refl)).
  discriminate.
Defined.

Lemma viewDefs_run (lib : handlers.library) f s req w info :
  handlers.unseal s req (handlers.loginCookie s) = inl info ->
  handlers.ID info <> "" ->
  handlers.viewDefs lib f s req w
  = let '(defs, err) :=
      registry.getChannelDefs f (handlers.ID info) (db w) in
    let written :=
      [handlers.SetHeader "Content-Type" "application/json";
       handlers.Write
         (handlers.Marshal_defs lib
            (option_map (List.map (handlers.setURL lib (handlers.rtmpBase s)))
                        defs))] in
    match err with
    | Some e =>
        (handlers.HttpError "" 500 :: written,
         {| db := db w;
            trace := trace w ++
              [gunk.LogPrintf "%s %s" ["error:"; handlers.Error e]] |})
    | None => (written, w)
    end.
Proof.
  intros Hinfo Hid. unfold handlers.viewDefs, gunk.bind at 1.
  rewrite checkAuth_run, Hinfo.
  rewrite bool_decide_eq_false_2 by exact Hid.
  unfold gunk.bind, get_db, gunk.emit, gunk.ret.
  destruct (registry.getChannelDefs f (handlers.ID info) (db w))
    as [defs [e |]]; [reflexivity |].
  destruct w; reflexivity.
Qed.

(** X24: the listing of a user's channels.  When the query fails the
    handler writes the error 500 and then, going on, the encoding of the
    [nil] slice.  When the reading of the rows fails, in [rows.Scan] or as
    shown by [rows.Err], it writes the error 500 and then the encoding of
    the channels read until then: none, some or all of the channels of the
    user.  Without a failure the reply is the encoding of the channels of
    the user.  Every channel written has the base address of the server,
    and the store is as it was. *)
Theorem viewDefs_answers (lib : handlers.library) f s req w info :
  handlers.unseal s req (handlers.loginCookie s) = inl info ->
  handlers.ID info <> "" ->
  let owned :=
    List.filter (fun c => bool_decide (user_id c = handlers.ID info))
                (channel_defs (db w)) in
  let header := handlers.SetHeader "Content-Type" "application/json" in
  let listing cs :=
    handlers.Write
      (handlers.Marshal_defs lib
         (Some (List.map
                  (fun c => handlers.setURL lib (handlers.rtmpBase s)
                                            (registry.scan_def c))
                  cs))) in
  (forall msg,
      outage (db w) = Some msg ->
      fst (handlers.viewDefs lib f s req w)
      = [handlers.HttpError "" 500; header;
         handlers.Write (handlers.Marshal_defs lib None)])
  /\ (outage (db w) = None ->
      (f = None ->
       fst (handlers.viewDefs lib f s req w) = [header; listing owned])
      /\ (forall i msg,
            f = Some (registry.ScanFails i msg) ->
            (i < length owned)%nat ->
            fst (handlers.viewDefs lib f s req w)
            = [handlers.HttpError "" 500; header; listing (firstn i owned)])
      /\ (forall i msg,
            f = Some (registry.RowsErr i msg) ->
            (i <= length owned)%nat ->
            fst (handlers.viewDefs lib f s req w)
            = [handlers.HttpError "" 500; header; listing (firstn i owned)]))
  /\ db (snd (handlers.viewDefs lib f s req w)) = db w.
Proof.
  intros Hinfo Hid owned header listing.
  rewrite (viewDefs_run lib f s req w info Hinfo Hid).
  unfold registry.getChannelDefs. fold owned.
  split; [| split].
  - intros msg Hout. rewrite Hout. reflexivity.
  - intros Hup. rewrite Hup. split; [| split].
    + intros ->. rewrite scan_rows_all. cbn [app option_map fst].
      unfold listing. rewrite List.map_map. reflexivity.
    + intros i msg -> Hi. rewrite scan_rows_ScanFails by lia.
      rewrite Nat.sub_0_r. apply Nat.ltb_lt in Hi. rewrite Hi.
      cbn [app option_map fst]. unfold listing. rewrite List.map_map.
      reflexivity.
    + intros i msg -> Hi. rewrite scan_rows_RowsErr by lia.
      rewrite Nat.sub_0_r. apply Nat.leb_le in Hi. rewrite Hi.
      cbn [app option_map fst]. unfold listing. rewrite List.map_map.
      reflexivity.
  - destruct (outage (db w)); [reflexivity |].
    destruct (registry.scan_rows f 0 owned []) as [defs [e |]]; reflexivity.
Qed.

Lemma viewDefs_answers_witness :
  fst (handlers.viewDefs sample_owner.lib None sample_owner.gunk_server
         (sample_owner.request {[ "login" := "sealed:1001" ]} "" [])
         (sample.start sample.registry))
  = [handlers.SetHeader "Content-Type" "application/json";
     handlers.Write "alpha?key=5ca1ab1e"]
  /\ fst (handlers.viewDefs sample_owner.lib None sample_owner.gunk_server
            (sample_owner.request {[ "login" := "sealed:1001" ]} "" [])
            (sample.start
               {| channel_defs := [sample.alpha]; users := []; thumbs := [];
                  now := 0; outage := Some "connection refused" |}))
     = [handlers.HttpError "" 500;
        handlers.SetHeader "Content-Type" "application/json";
        handlers.Write "null"]
  /\ fst (handlers.viewDefs sample_owner.lib
            (Some (registry.ScanFails 0 "cannot scan"))
            sample_owner.gunk_server
            (sample_owner.request {[ "login" := "sealed:1001" ]} "" [])
            (sample.start sample.registry))
     = [handlers.HttpError "" 500;
        handlers.SetHeader "Content-Type" "application/json";
        handlers.Write ""]
  /\ fst (handlers.viewDefs sample_owner.lib
            (Some (registry.RowsErr 1 "unexpected EOF"))
            sample_owner.gunk_server
            (sample_owner.request {[ "login" := "sealed:1001" ]} "" [])
            (sample.start sample.registry))
     = [handlers.HttpError "" 500;
        handlers.SetHeader "Content-Type" "application/json";
        handlers.Write "alpha?key=5ca1ab1e"].
Proof.
  split; [| split; [| split]].
  - refine (proj1 (proj1 (proj2
              (viewDefs_answers sample_owner.lib None
                 sample_owner.gunk_server
                 (sample_owner.request {[ "login" := "sealed:1001" ]} "" [])
                 (sample.start sample.registry) _ eq_refl _)) eq_refl)
              eq_refl).
    discriminate.
  - refine (proj1
              (viewDefs_answers sample_owner.lib None
                 sample_owner.gunk_server
                 (sample_owner.request {[ "login" := "sealed:1001" ]} "" [])
                 (sample.start
                    {| channel_defs := [sample.alpha]; users := [];
                       thumbs := []; now := 0;
                       outage := Some "connection refused" |})
                 _ eq_refl _) "connection refused" eq_refl).
    discriminate.
  - refine (proj1 (proj2 (proj1 (proj2
              (viewDefs_answers sample_owner.lib
                 (Some (registry.ScanFails 0 "cannot scan"))
                 sample_owner.gunk_server
                 (sample_owner.request {[ "login" := "sealed:1001" ]} "" [])
                 (sample.start sample.registry) _ eq_refl _)) eq_refl))
              0%nat "cannot scan" eq_refl _).
    + discriminate.
    + vm_compute. lia.
  - refine (proj2 (proj2 (proj1 (proj2
              (viewDefs_answers sample_owner.lib
                 (Some (registry.RowsErr 1 "unexpected EOF"))
                 sample_owner.gunk_server
                 (sample_owner.request {[ "login" := "sealed:1001" ]} "" [])
                 (sample.start sample.registry) _ eq_refl _)) eq_refl))
              1%nat "unexpected EOF" eq_refl _).
    + discriminate.
    + vm_compute. lia.
Defined.

(** X25: the creation of a channel by a user.  A name that is in use is
    answered with 409 and the store stays as it was; a free name is
    answered with the encoding of the new definition, whose key is the
    random bytes in hexadecimal, and a publish under the name with that key
    is then verified for the user. *)
Theorem viewDefsCreate_answers (lib : handlers.library) (b : list byte)
    (ftl : option string) s req w info (blob : list byte) (chname : string) :
  handlers.unseal s req (handlers.loginCookie s) = inl info ->
  handlers.ID info <> "" ->
  handlers.Body req = inl blob ->
  handlers.Unmarshal_create lib blob = inl chname ->
  outage (db w) = None ->
  (registry.name_taken chname (db w) = true ->
   fst (handlers.viewDefsCreate lib (inl b) ftl s req w)
   = [handlers.HttpError "channel name already in use" 409]
   /\ db (snd (handlers.viewDefsCreate lib (inl b) ftl s req w)) = db w)
  /\ (registry.name_taken chname (db w) = false ->
      fst (handlers.viewDefsCreate lib (inl b) ftl s req w)
      = [handlers.SetHeader "Content-Type" "application/json";
         handlers.Write
           (handlers.Marshal_def lib
              (handlers.setURL lib (handlers.rtmpBase s)
                 {| registry.Name := chname;
                    registry.Key := hex.EncodeToString b;
                    registry.Announce := true; registry.RTMPDir := "";
                    registry.RTMPBase := "" |}))]
      /\ forall u : url.URL,
          path.Base (url.Path u) = chname ->
          url.Get (url.Query u) "key" = hex.EncodeToString b ->
          snd (fst (verifyRTMP u
                      (snd (handlers.viewDefsCreate lib (inl b) ftl s req w))))
          = None
          /\ UserID (fst (fst (verifyRTMP u
                 (snd (handlers.viewDefsCreate lib (inl b) ftl s req w)))))
             = handlers.ID info).
Proof.
  intros Hinfo Hid Hbody Hname Hup.
  assert (Hstart : handlers.viewDefsCreate lib (inl b) ftl s req w
                   = let '(created, st') :=
                       registry.createChannel (inl b) ftl (handlers.ID info)
                                              chname (db w) in
                     (match created with
                      | inr registry.UniqueViolation =>
                          [handlers.HttpError "channel name already in use" 409]
                      | inr _ => [handlers.HttpError "" 500]
                      | inl def =>
                          [handlers.SetHeader "Content-Type" "application/json";
                           handlers.Write
                             (handlers.Marshal_def lib
                                (handlers.setURL lib (handlers.rtmpBase s) def))]
                      end,
                      {| db := st';
                         trace := match created with
                                  | inr (registry.ReadFull msg) =>
                                      trace w ++
                                      [gunk.LogPrintf
                                         "error: creating channel %q for %s: %s"
                                         [chname; handlers.RemoteAddr req; msg]]
                                  | inr (registry.Exec e) =>
                                      trace w ++
                                      [gunk.LogPrintf
                                         "error: creating channel %q for %s: %s"
                                         [chname; handlers.RemoteAddr req;
                                          handlers.Error e]]
                                  | _ => trace w
                                  end |})).
  { unfold handlers.viewDefsCreate, gunk.bind at 1.
    rewrite checkAuth_run, Hinfo.
    rewrite bool_decide_eq_false_2 by exact Hid.
    unfold gunk.bind at 1, handlers.parseRequest.
    rewrite Hbody, Hname.
    unfold gunk.bind, get_db, put_db, gunk.emit, gunk.ret. cbn [db trace].
    destruct (registry.createChannel (inl b) ftl (handlers.ID info) chname
                                     (db w)) as [[def | [msg | | e]] st'];
      reflexivity. }
  split; intros Htaken.
  - rewrite Hstart. unfold registry.createChannel. rewrite Hup, Htaken.
    split; reflexivity.
  - split.
    + rewrite Hstart. unfold registry.createChannel. rewrite Hup, Htaken.
      reflexivity.
    + intros u Hpath Hkey.
      match goal with |- context [verifyRTMP u ?w'] =>
        pose proof (verifyRTMP_run u w') as Hrun end.
      cbv zeta in Hrun. rewrite Hpath in Hrun.
      assert (Hdb : db (snd (handlers.viewDefsCreate lib (inl b) ftl s req w))
                    = snd (registry.createChannel (inl b) ftl
                             (handlers.ID info) chname (db w))).
      { rewrite Hstart.
        destruct (registry.createChannel _ _ _ _ _); reflexivity. }
      rewrite Hdb in Hrun.
      rewrite (created_channel_found (db w) b ftl (handlers.ID info) chname
                 Hup Htaken) in Hrun.
      rewrite Hrun. cbn [fst snd]. rewrite Hkey.
      rewrite (proj2 (hmac_Equal_true _ _) eq_refl). split; reflexivity.
Qed.

Lemma viewDefsCreate_answers_witness :
  fst (handlers.viewDefsCreate sample_owner.lib (inl (repeat "*"%byte 24)) None
         sample_owner.gunk_server
         (sample_owner.request {[ "login" := "sealed:1002" ]} ""
            (bytes_of "alpha"))
         (sample.start sample.registry))
  = [handlers.HttpError "channel name already in use" 409]
  /\ fst (handlers.viewDefsCreate sample_owner.lib
            (inl (repeat "*"%byte 24)) None sample_owner.gunk_server
            (sample_owner.request {[ "login" := "sealed:1002" ]} ""
               (bytes_of "gamma"))
            (sample.start sample.registry))
     = [handlers.SetHeader "Content-Type" "application/json";
        handlers.Write
          "gamma?key=2a2a2a2a2a2a2a2a2a2a2a2a2a2a2a2a2a2a2a2a2a2a2a2a"].
Proof.
  split.
  - refine (proj1 (proj1
              (viewDefsCreate_answers sample_owner.lib (repeat "*"%byte 24)
                 None sample_owner.gunk_server
                 (sample_owner.request {[ "login" := "sealed:1002" ]} ""
                    (bytes_of "alpha"))
                 (sample.start sample.registry) _ _ "alpha"
                 eq_refl _ eq_refl eq_refl eq_refl) eq_refl)).
    discriminate.
  - refine (proj1 (proj2
              (viewDefsCreate_answers sample_owner.lib (repeat "*"%byte 24)
                 None sample_owner.gunk_server
                 (sample_owner.request {[ "login" := "sealed:1002" ]} ""
                    (bytes_of "gamma"))
                 (sample.start sample.registry) _ _ "gamma"
                 eq_refl _ eq_refl eq_refl eq_refl) eq_refl)).
    discriminate.
Defined.

End Handlers.

(* ===================================================================== *)
(** ** Further properties of the login flow *)
(* ===================================================================== *)

Section LoginFurther.

Implicit Types (s : web.Server) (req : web.Request).

(** The callback by the outcome of each of its steps. *)
Lemma viewOauthCB_run s req :
  web.run (web.viewOauthCB s req) =
  if bool_decide (web.ClientID (web.oauth s) = "")
  then (tt, [web.HttpError "oauth not configured" 400])
  else
    let (r, t) := web.run (web.tokenExchange s req) in
    match r with
    | inr err =>
        (tt, t ++ [web.LogPrintf "[oauth] error: %s: %s"
                                 [web.RemoteAddr req; web.Error err];
                   web.HttpError "oauth failure" 400])
    | inl token =>
        match web.profile (web.oauth s) token with
        | inr err =>
            (tt, t ++ [web.ProfileFetch token;
                       web.LogPrintf "[oauth] error: %s: %s"
                                     [web.RemoteAddr req; web.Error err];
                       web.HttpError "error getting user info from discord"
                                     400])
        | inl user =>
            match web.seal (web.sealer s) (web.loginCookie s)
                           (web.UserValue user) with
            | inl sealed =>
                (tt, t ++ [web.ProfileFetch token;
                           web.SetCookie (web.loginCookie s) sealed
                                         web.loginCookieExpires;
                           web.Redirect "/" 302])
            | inr err =>
                (tt, t ++ [web.ProfileFetch token;
                           web.LogPrintf "[oauth] error: persisting login: %s"
                                         [web.Error err];
                           web.HttpError "error setting login cookie" 500])
            end
        end
    end.
Proof.
  unfold web.run, web.viewOauthCB.
  destruct (bool_decide (web.ClientID (web.oauth s) = "")); [reflexivity |].
  unfold web.bind at 1.
  destruct (web.tokenExchange s req []) as [[token | err] t].
  - cbv [web.lookupUser web.bind web.emit web.ret web.setCookie].
    destruct (web.profile (web.oauth s) token) as [user | err].
    + destruct (web.seal (web.sealer s) (web.loginCookie s)
                         (web.UserValue user)) as [sealed | err];
        cbv [web.bind web.emit web.ret];
        rewrite <- ?app_assoc; reflexivity.
    + rewrite <- ?app_assoc. reflexivity.
  - cbv [web.bind web.emit]. rewrite <- app_assoc. reflexivity.
Qed.

Lemma user_agent_app (jar : gmap string string) (t1 t2 : list web.event) :
  web.user_agent jar (t1 ++ t2) = web.user_agent (web.user_agent jar t1) t2.
Proof. unfold web.user_agent. apply fold_left_app. Qed.

Lemma user_agent_keeps (cookie : string) (t : list web.event) :
  forall jar : gmap string string,
    List.forallb (fun e => match e with
                           | web.SetCookie c _ _ =>
                               negb (bool_decide (c = cookie))
                           | _ => true
                           end) t = true ->
    web.user_agent jar t !! cookie = jar !! cookie.
Proof.
  unfold web.user_agent.
  induction t as [| e t IH]; intros jar Hrest; [reflexivity |].
  simpl in *. apply andb_prop in Hrest as [He Hrest].
  rewrite IH by exact Hrest.
  destruct e; try reflexivity. simpl.
  apply negb_true_iff, bool_decide_eq_false in He.
  destruct (maxAge <? 0);
    [apply lookup_delete_ne | apply lookup_insert_ne]; exact He.
Qed.

Lemma viewOauthLogin_run (AuthCodeURL : string -> string) (sb : list byte)
    s req :
  web.ClientID (web.oauth s) <> "" ->
  web.run (login.viewOauthLogin AuthCodeURL (inl sb) s req) =
  (login.Returned,
   match web.seal (web.sealer s) (web.stateCookie s)
                  (web.StateValue (base64.EncodeToString sb)) with
   | inl sealed =>
       [web.SetCookie (web.stateCookie s) sealed web.stateCookieExpires;
        web.Redirect (AuthCodeURL (base64.EncodeToString sb)) 302]
   | inr _ => [web.Redirect (AuthCodeURL (base64.EncodeToString sb)) 302]
   end).
Proof.
  intros Hconf. unfold web.run, login.viewOauthLogin.
  rewrite bool_decide_eq_false_2 by exact Hconf.
  unfold web.bind, web.setCookie, web.emit, web.ret.
  destruct (web.seal _ _ _); reflexivity.
Qed.

(** X18: a login that is followed by its callback passes the check of the
    state: when the sealing primitive opens what it sealed and the user
    agent returns the cookie of the login with the state of the redirect,
    the callback compares equal states and calls the token endpoint with
    the code. *)
Theorem login_then_callback (AuthCodeURL : string -> string)
    (sb : list byte) s (start : web.Request) (jar : gmap string string) req
    (sealed : string) :
  let state := base64.EncodeToString sb in
  web.ClientID (web.oauth s) <> "" ->
  web.seal (web.sealer s) (web.stateCookie s) (web.StateValue state)
    = inl sealed ->
  web.open_state (web.sealer s) (web.stateCookie s) sealed = inl state ->
  web.Cookies req
    = web.user_agent jar
        (snd (web.run (login.viewOauthLogin AuthCodeURL (inl sb) s start))) ->
  web.FormValue req "state" = state ->
  web.FormValue req "code" <> "" ->
  web.run (login.viewOauthLogin AuthCodeURL (inl sb) s start)
  = (login.Returned,
     [web.SetCookie (web.stateCookie s) sealed 900;
      web.Redirect (AuthCodeURL state) 302])
  /\ web.run (web.tokenExchange s req)
     = (web.Exchange (web.oauth s) (web.FormValue req "code"),
        [web.SetCookie (web.stateCookie s) "" (-1);
         web.HmacEqual (bytes_of state) (bytes_of state);
         web.TokenExchange (web.FormValue req "code")]).
Proof.
  intros state Hconf Hseal Hopen Hjar Hstate Hcode.
  rewrite (viewOauthLogin_run AuthCodeURL sb s start Hconf) in Hjar |- *.
  fold state in Hjar |- *. rewrite Hseal in Hjar |- *.
  split; [reflexivity |].
  pose proof (tokenExchange_run s req) as Hrun. cbv zeta in Hrun.
  rewrite bool_decide_eq_false_2 in Hrun by exact Hcode.
  assert (Hunseal : web.unseal_state s req (web.stateCookie s) = inl state).
  { unfold web.unseal_state. rewrite Hjar. cbn [snd].
    unfold web.user_agent. cbn [fold_left web.store_cookie].
    change (web.stateCookieExpires <? 0) with false. cbv iota.
    rewrite lookup_insert_eq. exact Hopen. }
  rewrite Hunseal, Hstate in Hrun.
  rewrite (proj2 (hmac_Equal_true _ _) eq_refl) in Hrun. exact Hrun.
Qed.

Lemma login_then_callback_witness :
  web.run (web.tokenExchange sample.server
             (sample.callback "c0de" "AAECAwQFBgcI"
                {[ "ostate" := "sealed:AAECAwQFBgcI" ]}))
  = (inl "t0ken",
     [web.SetCookie "ostate" "" (-1);
      web.HmacEqual (bytes_of "AAECAwQFBgcI") (bytes_of "AAECAwQFBgcI");
      web.TokenExchange "c0de"]).
Proof.
  refine (proj2 (login_then_callback
                   (fun state => ("https://provider.example/authorize?state="
                                  ++ state)%string)
                   [x00; x01; x02; x03; x04; x05; x06; x07; x08]
                   sample.server (sample.get ∅) ∅
                   (sample.callback "c0de" "AAECAwQFBgcI"
                      {[ "ostate" := "sealed:AAECAwQFBgcI" ]})
                   "sealed:AAECAwQFBgcI" _ eq_refl eq_refl eq_refl eq_refl _));
    vm_compute; discriminate.
Defined.

Lemma tokenExchange_trace s req :
  web.FormValue req "code" <> "" ->
  exists rest,
    snd (web.run (web.tokenExchange s req))
    = web.SetCookie (web.stateCookie s) "" (-1) :: rest
    /\ List.forallb (fun e => match e with
                              | web.SetCookie _ _ _ => false
                              | _ => true
                              end) rest = true.
Proof.
  intros Hcode. pose proof (tokenExchange_run s req) as Hrun.
  cbv zeta in Hrun. rewrite bool_decide_eq_false_2 in Hrun by exact Hcode.
  rewrite Hrun.
  destruct (web.unseal_state s req (web.stateCookie s)) as [state2 | err];
    [destruct (hmac.Equal _ _) |]; eexists; split; reflexivity.
Qed.

(** X19: the state of a login is good for one callback only.  After a
    callback that carried a code, whatever its outcome, the user agent
    holds no state cookie, and a further callback ends with the error of
    the absent cookie, the provider not having been called. *)
Theorem state_is_single_use s req (jar : gmap string string)
    (again : web.Request) :
  web.ClientID (web.oauth s) <> "" ->
  web.stateCookie s <> web.loginCookie s ->
  web.FormValue req "code" <> "" ->
  web.FormValue again "code" <> "" ->
  web.Cookies again
    = web.user_agent jar (snd (web.run (web.viewOauthCB s req))) ->
  web.run (web.tokenExchange s again)
  = (inr web.ErrNoCookie, [web.SetCookie (web.stateCookie s) "" (-1)]).
Proof.
  intros Hconf Hnames Hcode Hagain Hjar.
  assert (Hgone : web.Cookies again !! web.stateCookie s = None).
  { rewrite Hjar, viewOauthCB_run.
    rewrite bool_decide_eq_false_2 by exact Hconf.
    destruct (tokenExchange_trace s req Hcode) as (rest & Htrace & Hrest).
    destruct (web.run (web.tokenExchange s req)) as [r t].
    cbn [snd] in Htrace. subst t.
    assert (Hcleared : forall more,
               List.forallb (fun e => match e with
                                      | web.SetCookie c _ _ =>
                                          negb (bool_decide
                                                  (c = web.stateCookie s))
                                      | _ => true
                                      end) more = true ->
               web.user_agent jar
                 ((web.SetCookie (web.stateCookie s) "" (-1) :: rest) ++ more)
                 !! web.stateCookie s = None).
    { intros more Hmore. rewrite user_agent_app, user_agent_keeps by exact Hmore.
      apply user_agent_cleared, Hrest. }
    destruct r as [token | err]; [| apply Hcleared; reflexivity].
    destruct (web.profile (web.oauth s) token) as [user | err];
      [| apply Hcleared; reflexivity].
    destruct (web.seal _ _ _) as [sealed | err];
      cbn [snd]; apply Hcleared; [| reflexivity].
    cbn [List.forallb]. rewrite bool_decide_eq_false_2 by congruence.
    reflexivity. }
  pose proof (tokenExchange_run s again) as Hrun. cbv zeta in Hrun.
  rewrite bool_decide_eq_false_2 in Hrun by exact Hagain.
  rewrite (unseal_state_absent s again _ Hgone) in Hrun. exact Hrun.
Qed.

Lemma state_is_single_use_witness :
  web.run (web.tokenExchange sample.server
             (sample.callback "c0de" "abc"
                (web.user_agent {[ "ostate" := "sealed:abc" ]}
                   (snd (web.run (web.viewOauthCB sample.server
                                    (sample.callback "c0de" "abc"
                                       {[ "ostate" := "sealed:abc" ]})))))))
  = (inr web.ErrNoCookie, [web.SetCookie "ostate" "" (-1)]).
Proof.
  refine (state_is_single_use sample.server
            (sample.callback "c0de" "abc" {[ "ostate" := "sealed:abc" ]})
            {[ "ostate" := "sealed:abc" ]}
            (sample.callback "c0de" "abc" _) _ _ _ _ eq_refl);
    vm_compute; discriminate.
Defined.

(** X20: a callback that passes the check of the state, obtains a token and
    with it the profile, sets the session cookie for thirty days and
    redirects to the root; the identity that the user agent then reads is
    that profile, its avatar given as a path under /avatars. *)
Theorem callback_establishes_session s req (token : string)
    (user : web.discordUser) (sealed : string) :
  web.ClientID (web.oauth s) <> "" ->
  fst (web.run (web.tokenExchange s req)) = inl token ->
  web.profile (web.oauth s) token = inl user ->
  web.seal (web.sealer s) (web.loginCookie s) (web.UserValue user)
    = inl sealed ->
  web.open_user (web.sealer s) (web.loginCookie s) sealed = inl user ->
  snd (web.run (web.viewOauthCB s req))
  = snd (web.run (web.tokenExchange s req))
      ++ [web.ProfileFetch token;
          web.SetCookie (web.loginCookie s) sealed (30 * 24 * 60 * 60);
          web.Redirect "/" 302]
  /\ (forall (jar : gmap string string) (next : web.Request),
        web.Cookies next
          = web.user_agent jar (snd (web.run (web.viewOauthCB s req))) ->
        web.run (web.viewUser s next)
        = (tt, [web.WriteJSON (with_avatar_path user)])).
Proof.
  intros Hconf Htoken Hprofile Hseal Hopen.
  pose proof (viewOauthCB_run s req) as Hrun.
  rewrite bool_decide_eq_false_2 in Hrun by exact Hconf.
  destruct (web.run (web.tokenExchange s req)) as [r t].
  cbn [fst snd] in *. subst r. rewrite Hprofile, Hseal in Hrun.
  rewrite Hrun. cbn [snd]. split; [reflexivity |].
  intros jar next Hjar.
  assert (Hunseal : web.unseal_user s next (web.loginCookie s) = inl user).
  { unfold web.unseal_user. rewrite Hjar, user_agent_app.
    unfold web.user_agent at 1. cbn [fold_left web.store_cookie].
    change (web.loginCookieExpires <? 0) with false. cbv iota.
    rewrite lookup_insert_eq. exact Hopen. }
  unfold web.run, web.viewUser. rewrite Hunseal.
  unfold with_avatar_path, web.writeJSON, web.emit.
  destruct (bool_decide (web.Avatar user = "")); reflexivity.
Qed.

Lemma callback_establishes_session_witness :
  web.run (web.viewUser sample_session.server
             (sample.get
                (web.user_agent ∅
                   (snd (web.run (web.viewOauthCB sample_session.server
                                    (sample.callback "c0de" "abc"
                                       {[ "ostate" := "sealed:abc" ]})))))))
  = (tt, [web.WriteJSON
            {| web.ID := "1001"; web.Username := "streamer";
               web.Discriminator := "0001";
               web.Avatar := "/avatars/1001/a1.png" |}]).
Proof.
  refine (proj2 (callback_establishes_session sample_session.server
                   (sample.callback "c0de" "abc" {[ "ostate" := "sealed:abc" ]})
                   "t0ken" sample_session.streamer "sealed:1001"
                   _ eq_refl eq_refl eq_refl eq_refl) ∅
                (sample.get
                   (web.user_agent ∅
                      (snd (web.run (web.viewOauthCB sample_session.server
                                       (sample.callback "c0de" "abc"
                                          {[ "ostate" := "sealed:abc" ]}))))))
                eq_refl).
  vm_compute. discriminate.
Defined.

(** X21: whatever the provider and the sealing primitive answer, the
    callback writes no body, and a failure is answered with one of four
    fixed messages: the text of an error goes to the log only. *)
Theorem callback_reveals_no_detail s req :
  List.forallb fixed_reply (snd (web.run (web.viewOauthCB s req))) = true.
Proof.
  rewrite viewOauthCB_run.
  destruct (bool_decide (web.ClientID (web.oauth s) = "")); [reflexivity |].
  pose proof (tokenExchange_run s req) as Hrun. cbv zeta in Hrun.
  assert (Hsafe : List.forallb fixed_reply
                    (snd (web.run (web.tokenExchange s req))) = true).
  { rewrite Hrun.
    destruct (bool_decide (web.FormValue req "code" = "")); [reflexivity |].
    destruct (web.unseal_state s req (web.stateCookie s)) as [state2 | err];
      [destruct (hmac.Equal _ _) |]; reflexivity. }
  destruct (web.run (web.tokenExchange s req)) as [[token | err] t];
    cbn [snd] in Hsafe |- *.
  - destruct (web.profile (web.oauth s) token) as [user | err];
      [destruct (web.seal _ _ _) as [sealed | err] |];
      cbn [snd]; rewrite List.forallb_app, Hsafe; reflexivity.
  - rewrite List.forallb_app, Hsafe. reflexivity.
Qed.

(** X22: the profile is fetched only in a configured callback that carries
    a code and whose state cookie unseals to the state it received, and
    only with the token that the provider gave for that code. *)
Theorem profile_only_after_exchange s req (token : string) :
  In (web.ProfileFetch token) (snd (web.run (web.viewOauthCB s req))) ->
  web.ClientID (web.oauth s) <> ""
  /\ web.FormValue req "code" <> ""
  /\ web.unseal_state s req (web.stateCookie s)
     = inl (web.FormValue req "state")
  /\ web.Exchange (web.oauth s) (web.FormValue req "code") = inl token.
Proof.
  rewrite viewOauthCB_run.
  destruct (bool_decide (web.ClientID (web.oauth s) = "")) eqn:Hconf.
  { cbn. intros [H | []]. discriminate. }
  apply bool_decide_eq_false in Hconf.
  pose proof (tokenExchange_run s req) as Hrun. cbv zeta in Hrun.
  rewrite Hrun. clear Hrun.
  destruct (bool_decide (web.FormValue req "code" = "")) eqn:Hcode.
  { cbn. intros [H | [H | []]]; discriminate. }
  apply bool_decide_eq_false in Hcode.
  destruct (web.unseal_state s req (web.stateCookie s)) as [state2 | err].
  2:{ cbn. intros [H | [H | [H | []]]]; discriminate. }
  destruct (hmac.Equal (bytes_of state2) (bytes_of (web.FormValue req "state")))
    eqn:Heq.
  2:{ cbn. intros [H | [H | [H | [H | []]]]]; discriminate. }
  apply hmac_Equal_true, bytes_of_inj in Heq. subst state2.
  destruct (web.Exchange (web.oauth s) (web.FormValue req "code"))
    as [token' | err].
  2:{ cbn. intros [H | [H | [H | [H | [H | []]]]]]; discriminate. }
  intros Hin.
  assert (Hsame : token' = token).
  { destruct (web.profile (web.oauth s) token') as [user | err];
      [destruct (web.seal _ _ _) as [sealed | err] |];
      cbn in Hin;
      destruct Hin as [H | [H | [H | [H | [H | [H | []]]]]]];
      try discriminate; injection H as ->; reflexivity. }
  subst token'. auto.
Qed.

Lemma profile_only_after_exchange_witness :
  web.Exchange (web.oauth sample.server) "c0de" = inl "t0ken".
Proof.
  refine (proj2 (proj2 (proj2
            (profile_only_after_exchange sample.server
               (sample.callback "c0de" "abc" {[ "ostate" := "sealed:abc" ]})
               "t0ken" _)))).
  vm_compute. auto.
Defined.

Lemma char_url_safe (n : N) : (n < 64)%N -> is_url_safe (base64.char n) = true.
Proof.
  intros Hn.
  assert (Hall : List.forallb
                   (fun k => is_url_safe (base64.char (N.of_nat k)))
                   (seq 0 64) = true) by (vm_compute; reflexivity).
  rewrite List.forallb_forall in Hall.
  specialize (Hall (N.to_nat n)). rewrite N2Nat.id in Hall.
  apply Hall, in_seq. lia.
Qed.

Lemma sextet_url_safe (val shift : N) :
  is_url_safe (base64.sextet val shift) = true.
Proof.
  unfold base64.sextet. apply char_url_safe.
  change 63%N with (N.ones 6). rewrite N.land_ones.
  apply N.mod_lt. discriminate.
Qed.

Lemma Encode_url_safe (src : list byte) :
  forall n, (length src <= n)%nat ->
            List.forallb is_url_safe (base64.Encode src) = true.
Proof.
  intros n. revert src.
  induction n as [| n IH]; intros src Hlen.
  - destruct src; [reflexivity | simpl in Hlen; lia].
  - destruct src as [| a [| b [| c rest]]]; try reflexivity.
    + cbn [base64.Encode List.forallb]. rewrite !sextet_url_safe. reflexivity.
    + cbn [base64.Encode List.forallb]. rewrite !sextet_url_safe. reflexivity.
    + cbn [base64.Encode List.forallb]. rewrite !sextet_url_safe.
      cbn [andb]. apply IH. simpl in Hlen. lia.
Qed.

(** X23: a configured login with nine random bytes redirects to the
    provider with a state of twelve characters, each a letter, a digit, a
    hyphen or an underscore, whether or not the state cookie could be
    sealed. *)
Theorem login_state_shape (AuthCodeURL : string -> string) (sb : list byte)
    s req :
  web.ClientID (web.oauth s) <> "" ->
  length sb = 9%nat ->
  exists state,
    String.length state = 12%nat
    /\ List.forallb is_url_safe (list_ascii_of_string state) = true
    /\ last (snd (web.run (login.viewOauthLogin AuthCodeURL (inl sb) s req)))
       = Some (web.Redirect (AuthCodeURL state) 302).
Proof.
  intros Hconf Hlen. exists (base64.EncodeToString sb).
  rewrite (viewOauthLogin_run AuthCodeURL sb s req Hconf).
  unfold base64.EncodeToString.
  rewrite string_length_of_list, list_ascii_of_string_of_list_ascii.
  split; [| split].
  - do 9 (destruct sb as [| ? sb]; [discriminate |]).
    destruct sb; [reflexivity | discriminate].
  - apply (Encode_url_safe sb (length sb)). lia.
  - destruct (web.seal _ _ _); reflexivity.
Qed.

Lemma login_state_shape_witness :
  exists state,
    String.length state = 12%nat
    /\ List.forallb is_url_safe (list_ascii_of_string state) = true
    /\ last (snd (web.run
                    (login.viewOauthLogin
                       (fun state => ("https://provider.example/?state="
                                      ++ state)%string)
                       (inl [x00; x01; x02; x03; x04; x05; x06; x07; x08])
                       sample.server (sample.get ∅))))
       = Some (web.Redirect ("https://provider.example/?state=" ++ state) 302).
Proof.
  refine (login_state_shape
            (fun state => ("https://provider.example/?state=" ++ state)%string)
            [x00; x01; x02; x03; x04; x05; x06; x07; x08]
            sample.server (sample.get ∅) _ eq_refl).
  vm_compute. discriminate.
Defined.

End LoginFurther.
